(** * Task API (Express + Supabase): request handlers of src/index.js

    The seven route handlers of [src/index.js] are embedded as programs
    that compute on JavaScript values and issue calls to the task store.
    The store itself (Supabase / PostgREST) is not part of the repository:
    the handlers are written against the calls they make, and a reference
    store gives those calls a meaning over a list of rows.

    Conventions.
    - A JavaScript string is a [string]; each [ascii] stands for one code
      unit below 256.
    - A JavaScript number is a [Js.number]: [NaN], an infinity, or a
      binary64 with an integer value.  Arithmetic is exact up to 2^53 and
      rounds to the nearest binary64 (ties to even) beyond; the sign of a
      zero is not modelled, since no handler reads it.
    - An exception (a [TypeError] on a method call of a non-string, or in
      the conversion of an object to a string) is the [Throw] node of a
      program; [try_catch] is the handlers' [try/catch]. *)

From Stdlib Require Import ZArith List String Ascii Bool Lia.
From Stdlib Require Import DecimalString DecimalPos.
Import ListNotations.

Local Open Scope string_scope.
Local Open Scope Z_scope.

(* ===================================================================== *)
(** ** JavaScript values and the string primitives the handlers use       *)
(* ===================================================================== *)

Module Js.

(** A value found in [req.body], [req.query] or produced by a property
    lookup.  [JNum n] is the number written [n] in the request; its value
    is the binary64 nearest to [n].  [JObject repr] is any other object
    (array, plain object, function); [repr] is the text [ToString] gives
    it, e.g. the elements joined by commas for an array, and [None] when
    [ToString] throws a [TypeError], as it does for an object whose own
    [toString] property is not a function (any object with a [toString]
    key in a JSON body). *)
Inductive jsval : Type :=
| JUndefined
| JNull
| JBool (b : bool)
| JNum (n : Z)
| JStr (s : string)
| JObject (repr : option string).

(** ToBoolean: what [if (v)], [!v], [v && ...], [v || ...] test. *)
Definition truthy (v : jsval) : bool :=
  match v with
  | JUndefined | JNull => false
  | JBool b => b
  | JNum n => negb (n =? 0)
  | JStr s => negb (String.eqb s "")
  | JObject _ => true
  end.

Definition Z_to_string (n : Z) : string :=
  NilEmpty.string_of_int (Z.to_int n).

(** *** Numbers *)

(** The numbers the handlers compute with: [NaN], the two infinities and
    the binary64 values that are integers.  [Int n] is meant for an [n]
    that is a binary64; the operations below return only such. *)
Inductive number : Type :=
| NaN
| Inf (negative : bool)
| Int (n : Z).

(** The integer nearest to [n / d] for [d > 0], the even one of two that
    are equally near. *)
Definition nearest_integer (n d : Z) : Z :=
  let q := n / d in
  let r := n mod d in
  if 2 * r <? d then q
  else if d <? 2 * r then q + 1
  else if Z.even q then q else q + 1.

(** The integer part of the binary logarithm of [x / y], for [x, y > 0]. *)
Definition ratio_log2 (x y : Z) : Z :=
  let s := Z.log2 x - Z.log2 y in
  if y * 2 ^ Z.max s 0 <=? x * 2 ^ Z.max (- s) 0 then s else s - 1.

(** The binary64 nearest to [x / y] for [x, y > 0], ties to even: the pair
    [(m, e)] stands for [m * 2^e], with [m] of 53 bits (or [2^53], after
    a carry) and [e] at least -1074, the exponent of the subnormals. *)
Definition nearest_binary64 (x y : Z) : Z * Z :=
  let e := Z.max (ratio_log2 x y - 52) (-1074) in
  (nearest_integer (x * 2 ^ Z.max (- e) 0) (y * 2 ^ Z.max e 0), e).

(** The number value of an integer: itself up to 2^53 in magnitude, the
    nearest binary64 beyond, an infinity from 2^1024 on. *)
Definition round (z : Z) : number :=
  if Z.abs z <=? 2 ^ 53 then Int z
  else let '(m, e) := nearest_binary64 (Z.abs z) 1 in
       if 2 ^ 1024 <=? m * 2 ^ e then Inf (z <? 0)
       else Int (Z.sgn z * (m * 2 ^ e)).

Definition opp (a : number) : number :=
  match a with
  | NaN => NaN
  | Inf s => Inf (negb s)
  | Int n => Int (- n)
  end.

(** [a + b] *)
Definition add (a b : number) : number :=
  match a, b with
  | NaN, _ | _, NaN => NaN
  | Inf s, Inf t => if Bool.eqb s t then Inf s else NaN
  | Inf s, Int _ | Int _, Inf s => Inf s
  | Int x, Int y => round (x + y)
  end.

(** [a - b] *)
Definition sub (a b : number) : number := add a (opp b).

(** [a * b] *)
Definition mul (a b : number) : number :=
  match a, b with
  | NaN, _ | _, NaN => NaN
  | Inf s, Inf t => Inf (xorb s t)
  | Inf s, Int y | Int y, Inf s =>
      if y =? 0 then NaN else Inf (xorb s (y <? 0))
  | Int x, Int y => round (x * y)
  end.

(** [a <= b]; false as soon as one is [NaN]. *)
Definition leb (a b : number) : bool :=
  match a, b with
  | NaN, _ | _, NaN => false
  | Inf true, _ => true
  | _, Inf false => true
  | Inf false, _ => false
  | _, Inf true => false
  | Int x, Int y => x <=? y
  end.

(** [Math.max(a, b)] and [Math.min(a, b)]: [NaN] as soon as one is. *)
Definition Math_max (a b : number) : number :=
  match a, b with
  | NaN, _ | _, NaN => NaN
  | _, _ => if leb a b then b else a
  end.

Definition Math_min (a b : number) : number :=
  match a, b with
  | NaN, _ | _, NaN => NaN
  | _, _ => if leb a b then a else b
  end.

(** [n || d]: [NaN] and [0] are falsy. *)
Definition or_default (n : number) (d : Z) : number :=
  match n with
  | NaN | Int 0 => Int d
  | _ => n
  end.

(** [Math.ceil(a / b)]: the quotient is rounded to the nearest binary64,
    and the ceiling is taken of that. *)
Definition ceil_quotient (x y : Z) : number :=
  let '(m, e) := nearest_binary64 (Z.abs x) (Z.abs y) in
  let negative := negb (Bool.eqb (x <? 0) (y <? 0)) in
  if 0 <=? e
  then if 2 ^ 1024 <=? m * 2 ^ e then Inf negative
       else Int (if negative then - (m * 2 ^ e) else m * 2 ^ e)
  else Int (if negative then - (m / 2 ^ (- e))
            else - ((- m) / 2 ^ (- e))).

Definition Math_ceil_div (a b : number) : number :=
  match a, b with
  | NaN, _ | _, NaN => NaN
  | Inf _, Inf _ => NaN
  | Inf s, Int y => Inf (xorb s (y <? 0))
  | Int _, Inf _ => Int 0
  | Int x, Int y =>
      if y =? 0 then (if x =? 0 then NaN else Inf (x <? 0))
      else if x =? 0 then Int 0
      else ceil_quotient x y
  end.

(** *** Number to string *)

(** The multiple of [p] nearest to [n]. *)
Definition nearest_multiple (p n : Z) : Z := nearest_integer n p * p.

Definition number_eqb (a b : number) : bool :=
  match a, b with
  | Int x, Int y => x =? y
  | Inf s, Inf t => Bool.eqb s t
  | _, _ => false
  end.

(** The decimal with the fewest significant digits that reads back as the
    binary64 [n > 0], and of these the nearest to [n]; seventeen digits
    always suffice. *)
Definition shortest_decimal (n : Z) : Z :=
  let len := Z.of_nat (String.length (Z_to_string n)) in
  let candidate k := nearest_multiple (10 ^ Z.max (len - k) 0) n in
  match find (fun v => number_eqb (round v) (Int n))
             (map (fun k => candidate (Z.of_nat k)) (seq 1 17)) with
  | Some v => v
  | None => n
  end.

Fixpoint strip_zeros (rev_digits : list ascii) : list ascii :=
  match rev_digits with
  | "0"%char :: l => strip_zeros l
  | l => l
  end.

(** The significant digits of a decimal: its text without the zeros at
    the end. *)
Definition significant (v : Z) : string :=
  string_of_list_ascii
    (rev (strip_zeros (rev (list_ascii_of_string (Z_to_string v))))).

(** The text of a positive integer binary64: all its digits below 10^21,
    and [d.ddde+x] from there on. *)
Definition positive_to_string (n : Z) : string :=
  let v := shortest_decimal n in
  if v <? 10 ^ 21 then Z_to_string v
  else
    let x := Z_to_string (Z.of_nat (String.length (Z_to_string v)) - 1) in
    match significant v with
    | String d EmptyString => String d ("e+" ++ x)
    | String d ds => String d ("." ++ ds ++ "e+" ++ x)
    | EmptyString => EmptyString
    end.

(** Number::toString, radix 10. *)
Definition Number_toString (a : number) : string :=
  match a with
  | NaN => "NaN"
  | Inf false => "Infinity"
  | Inf true => "-Infinity"
  | Int 0 => "0"
  | Int n => if n <? 0 then "-" ++ positive_to_string (- n)
             else positive_to_string n
  end.

(** ToString, as used by template literals, [parseInt], [Date.parse] and
    property keys; [None] is a [TypeError]. *)
Definition ToString (v : jsval) : option string :=
  match v with
  | JUndefined => Some "undefined"
  | JNull => Some "null"
  | JBool true => Some "true"
  | JBool false => Some "false"
  | JNum n => Some (Number_toString (round n))
  | JStr s => Some s
  | JObject repr => repr
  end.

(** [v === 'lit'] for a string literal. *)
Definition strict_eq_str (v : jsval) (lit : string) : bool :=
  match v with
  | JStr s => String.eqb s lit
  | _ => false
  end.

(** An object literal as the list of its own properties, in order. *)
Definition obj : Type := list (string * jsval).

(** Property read [o.k] (destructuring): the first binding, [undefined]
    when there is none. *)
Fixpoint get (o : obj) (k : string) : jsval :=
  match o with
  | [] => JUndefined
  | (k', v) :: o' => if String.eqb k' k then v else get o' k
  end.

(** *** Characters *)

Definition code (c : ascii) : Z := Z.of_nat (nat_of_ascii c).

(** WhiteSpace and LineTerminator code units below 256: TAB, LF, VT, FF,
    CR, SP and NBSP. *)
Definition is_ws (c : ascii) : bool :=
  let n := code c in
  ((9 <=? n) && (n <=? 13)) || (n =? 32) || (n =? 160).

(** Lower-casing of one code unit below 256: A-Z and the Latin-1 capitals
    (all of 0xC0-0xDE but the multiplication sign) move up by 32. *)
Definition lower_char (c : ascii) : ascii :=
  let n := code c in
  if ((65 <=? n) && (n <=? 90))
     || ((192 <=? n) && (n <=? 222) && negb (n =? 215))
  then ascii_of_nat (Z.to_nat (n + 32))
  else c.

Definition is_digit (c : ascii) : bool :=
  let n := code c in (48 <=? n) && (n <=? 57).

(** *** String.prototype methods *)

Fixpoint trimStart (s : string) : string :=
  match s with
  | EmptyString => EmptyString
  | String c s' => if is_ws c then trimStart s' else s
  end.

Fixpoint trimEnd (s : string) : string :=
  match s with
  | EmptyString => EmptyString
  | String c s' =>
      match trimEnd s' with
      | EmptyString => if is_ws c then EmptyString else String c EmptyString
      | r => String c r
      end
  end.

Definition trim (s : string) : string := trimEnd (trimStart s).

Fixpoint toLowerCase (s : string) : string :=
  match s with
  | EmptyString => EmptyString
  | String c s' => String (lower_char c) (toLowerCase s')
  end.

(** [s.split(sep)] for a one-character separator: never empty, the empty
    string splits into one empty piece. *)
Fixpoint split (sep : ascii) (s : string) : list string :=
  match s with
  | EmptyString => [EmptyString]
  | String c s' =>
      if Ascii.eqb c sep then EmptyString :: split sep s'
      else match split sep s' with
           | hd :: tl => String c hd :: tl
           | [] => [String c EmptyString]
           end
  end.

(** [l.join(sep)] on an array of strings. *)
Definition join (sep : string) (l : list string) : string :=
  String.concat sep l.

(** [l.includes(s)] on an array of strings. *)
Definition includes (l : list string) (s : string) : bool :=
  existsb (String.eqb s) l.

(** [l.includes(v)] for any value: SameValueZero never equates a string
    with a non-string. *)
Definition includes_val (l : list string) (v : jsval) : bool :=
  match v with
  | JStr s => includes l s
  | _ => false
  end.

(** *** parseInt *)

Fixpoint digits (s : string) (acc : Z) (seen : bool) : option Z :=
  match s with
  | EmptyString => if seen then Some acc else None
  | String c s' =>
      if is_digit c then digits s' (10 * acc + (code c - 48)) true
      else if seen then Some acc else None
  end.

Definition hex_value (c : ascii) : option Z :=
  let n := code c in
  if (48 <=? n) && (n <=? 57) then Some (n - 48)
  else if (97 <=? n) && (n <=? 102) then Some (n - 87)
  else if (65 <=? n) && (n <=? 70) then Some (n - 55)
  else None.

Fixpoint hex_digits (s : string) (acc : Z) (seen : bool) : option Z :=
  match s with
  | EmptyString => if seen then Some acc else None
  | String c s' =>
      match hex_value c with
      | Some d => hex_digits s' (16 * acc + d) true
      | None => if seen then Some acc else None
      end
  end.

(** The unsigned part of [parseInt] with no radix argument: a [0x]/[0X]
    prefix selects base 16, anything else base 10; parsing stops at the
    first character that is not a digit; no digit at all is [NaN]. *)
Definition parse_unsigned (s : string) : option Z :=
  match s with
  | String "0" (String "x" s') | String "0" (String "X" s') =>
      hex_digits s' 0 false
  | _ => digits s 0 false
  end.

(** [parseInt(string)]: [NaN] without a digit, else the number value of
    the integer that was read. *)
Definition parseInt_string (s : string) : number :=
  let magnitude :=
    match trimStart s with
    | String "-" s' => option_map Z.opp (parse_unsigned s')
    | String "+" s' => parse_unsigned s'
    | s' => parse_unsigned s'
    end in
  match magnitude with
  | Some z => round z
  | None => NaN
  end.

(** [parseInt(v)] converts its argument to a string first; [None] is the
    [TypeError] of that conversion. *)
Definition parseInt (v : jsval) : option number :=
  option_map parseInt_string (ToString v).

(** *** Dates *)

(** [Date.parse] on a string is fixed by ECMAScript only for the ISO
    format and is otherwise left to the engine, so the engine's function
    is a parameter: the time value in milliseconds, [None] for [NaN]. *)
Record engine : Type := { Date_parse : string -> option Z }.

(** [Date.parse(v)] converts its argument to a string first; the outer
    [None] is the [TypeError] of that conversion. *)
Definition Date_parse_val (E : engine) (v : jsval) : option (option Z) :=
  option_map (Date_parse E) (ToString v).

(** [isNaN(t)] on a time value. *)
Definition isNaN (t : option Z) : bool :=
  match t with
  | Some _ => false
  | None => true
  end.

(** TimeClip: time values beyond 8.64e15 ms are [NaN].  The bound lies
    below 2^53, so the test on the integer that was written is the test
    on its number value. *)
Definition TimeClip (n : Z) : option Z :=
  if Z.abs n <=? 8640000000000000 then Some n else None.

(** The time value of [new Date(v)]: a string is parsed, a number is the
    time value itself, an object goes through its string form (a
    [TypeError], the outer [None], when it has none). *)
Definition new_Date (E : engine) (v : jsval) : option (option Z) :=
  match v with
  | JStr s => Some (Date_parse E s)
  | JObject repr => option_map (Date_parse E) repr
  | JNum n => Some (TimeClip n)
  | JBool true => Some (Some 1)
  | JBool false => Some (Some 0)
  | JNull => Some (Some 0)
  | JUndefined => Some None
  end.

(** [a > b] on two Date objects: false as soon as one is invalid. *)
Definition date_gt (a b : option Z) : bool :=
  match a, b with
  | Some x, Some y => y <? x
  | _, _ => false
  end.

(** [new Date(a) > new Date(b)] *)
Definition date_after (E : engine) (a b : jsval) : option bool :=
  match new_Date E a, new_Date E b with
  | Some x, Some y => Some (date_gt x y)
  | _, _ => None
  end.

(** *** Inherited properties of a plain object *)

(** The properties every object literal inherits from [Object.prototype].
    All are functions but [__proto__], which is the prototype object. *)
Definition Object_prototype_keys : list string :=
  [ "constructor"; "__defineGetter__"; "__defineSetter__";
    "hasOwnProperty"; "__lookupGetter__"; "__lookupSetter__";
    "isPrototypeOf"; "propertyIsEnumerable"; "toString"; "valueOf";
    "__proto__"; "toLocaleString" ].

Definition Object_prototype_get (k : string) : jsval :=
  if String.eqb k "__proto__" then JObject (Some "[object Object]")
  else if String.eqb k "constructor"
       then JObject (Some "function Object() { [native code] }")
  else if includes Object_prototype_keys k
       then JObject (Some ("function " ++ k ++ "() { [native code] }"))
  else JUndefined.

(** Computed member access [o[k]] on an object literal: own properties
    first, then the prototype chain. *)
Fixpoint member (o : obj) (k : string) : jsval :=
  match o with
  | [] => Object_prototype_get k
  | (k', v) :: o' => if String.eqb k' k then v else member o' k
  end.

End Js.

(* ===================================================================== *)
(** ** The task store as the handlers see it                              *)
(* ===================================================================== *)

(** One row of the [Tasks] table. *)
Module Task.

Record row : Type := mkRow {
  id : string;
  title : option string;
  author : option string;
  priority : option string;
  description : option string;
  due_date : option Z;
  start_date : option Z;
  created_at : Z;
  updated_at : option Z
}.

End Task.

Module Store.
Import Js.

(** The filter methods of the query builder that the handlers chain:
    [.or(conds)], [.in(column, values)], [.ilike(column, pattern)],
    [.gte(column, value)], [.lte(column, value)], [.eq(column, value)].
    The builder interpolates scalar arguments into the request, so they
    appear here in their string form. *)
Inductive filter : Type :=
| Or (conds : string)
| In_ (column : string) (values : list string)
| Ilike (column pattern : string)
| Gte (column value : string)
| Lte (column value : string)
| Eq (column value : string).

(** [.order(column, { ascending, nullsFirst })]; [nullsFirst] is [None]
    when the option is not passed. *)
Record ordering : Type := {
  column : string;
  ascending : bool;
  nullsFirst : option bool
}.

(** A read: [.select(columns, { count: 'exact' })] followed by filters,
    [.order], [.range(from, to)] and [.single()]. *)
Record select_query : Type := {
  columns : string;
  count_exact : bool;
  filters : list filter;
  order : option ordering;
  range : option (number * number);
  single : bool
}.

(** One awaited request on [supabase.from('Tasks')]. *)
Inductive call : Type :=
| Select (q : select_query)
| Insert (models : list obj)                    (* .insert(models).select() *)
| Update (updates : obj) (fs : list filter)     (* .update(updates)...select() *)
| Delete (fs : list filter).                    (* .delete()...select() *)

Record store_error : Type := { code : string; message : string }.

(** The [data] of a reply or of a response: [null], one row (after
    [.single()]), an array of rows, or [undefined] (an index out of range). *)
Inductive payload : Type :=
| Undefined
| Null
| Record_ (r : Task.row)
| Array (l : list Task.row).

(** What an awaited request resolves to: [{ data, error, count }];
    [error] and [count] are [None] when they are [null], and a count is
    a number with an integer value. *)
Record reply : Type := {
  data : payload;
  error : option store_error;
  count : option Z
}.

Definition failed (e : store_error) : reply :=
  {| data := Null; error := Some e; count := None |}.

(** A handler body: it returns, throws, or awaits a store call and goes on
    with the reply. *)
Inductive prog (A : Type) : Type :=
| Ret (a : A)
| Throw
| Call (c : call) (k : reply -> prog A).

Arguments Ret {A} a.
Arguments Throw {A}.
Arguments Call {A} c k.

Fixpoint bind {A B : Type} (p : prog A) (f : A -> prog B) : prog B :=
  match p with
  | Ret a => f a
  | Throw => Throw
  | Call c k => Call c (fun r => bind (k r) f)
  end.

(** [try { p } catch (err) { h }] *)
Fixpoint try_catch {A : Type} (p : prog A) (h : prog A) : prog A :=
  match p with
  | Ret a => Ret a
  | Throw => h
  | Call c k => Call c (fun r => try_catch (k r) h)
  end.

(** The calls a program makes when the store answers by [answer]. *)
Fixpoint calls {A : Type} (answer : call -> reply) (p : prog A) : list call :=
  match p with
  | Ret _ | Throw => []
  | Call c k => c :: calls answer (k (answer c))
  end.

(** What a program returns when the store answers by [answer]; [None]
    when it ends in an exception that nothing catches. *)
Fixpoint outcome {A : Type} (answer : call -> reply) (p : prog A) : option A :=
  match p with
  | Ret a => Some a
  | Throw => None
  | Call c k => outcome answer (k (answer c))
  end.

(** An operation of the language that may throw: [None] is the
    exception. *)
Definition may_throw {A : Type} (o : option A) : prog A :=
  match o with
  | Some a => Ret a
  | None => Throw
  end.

(** A method call [v.m()] of [String.prototype]: a [TypeError] when [v] is
    not a string. *)
Definition method {A : Type} (m : string -> A) (v : jsval) : prog A :=
  match v with
  | JStr s => Ret (m s)
  | _ => Throw
  end.

(** [data[0]]: a [TypeError] on [null] and [undefined], [undefined] on a
    row (it has no property [0]) and on an empty array. *)
Definition index0 (d : payload) : prog payload :=
  match d with
  | Undefined | Null => Throw
  | Record_ _ => Ret Undefined
  | Array [] => Ret Undefined
  | Array (r :: _) => Ret (Record_ r)
  end.

End Store.

Declare Scope prog_scope.
Delimit Scope prog_scope with prog.
Notation "x <- p ;; q" := (Store.bind p (fun x => q))
  (at level 61, p at next level, right associativity) : prog_scope.

(* ===================================================================== *)
(** ** HTTP responses                                                     *)
(* ===================================================================== *)

Module Http.
Import Js.

Record pagination : Type := {
  page : number;
  limit : number;
  total : option Z;
  totalPages : number
}.

Record sorting : Type := { field : jsval; order : jsval }.

(** [appliedFilters] of the search handler: a property is [None] when the
    handler did not set it. *)
Record applied_filters : Type := {
  f_priority : option (list string);
  f_author : option jsval;
  f_start_date : option (jsval * jsval);
  f_due_date : option (jsval * jsval)
}.

Record search_info : Type := {
  query : string;
  fields : list string;
  filters : applied_filters;
  resultsCount : option Z
}.

(** The JSON bodies the handlers send. *)
Inductive body : Type :=
| Error (error : string) (message : option string)
| Created (message : string) (data : Store.payload)
| Data (data : Store.payload)
| Listing (data : Store.payload) (p : pagination)
| Search (data : Store.payload) (s : search_info) (p : pagination)
         (o : sorting)
| Sorted (data : Store.payload) (o : sorting) (p : pagination).

Record response : Type := { status : Z; json : body }.

Definition error_response (st : Z) (msg : string) : response :=
  {| status := st; json := Error msg None |}.

Definition store_failure (msg : string) (e : Store.store_error) : response :=
  {| status := 500; json := Error msg (Some (Store.message e)) |}.

End Http.

(* ===================================================================== *)
(** ** The route handlers (src/index.js)                                  *)
(* ===================================================================== *)

(** Each route is registered twice in the source; Express runs the first
    registration, which is the one embedded here. *)
Module Handlers.
Import Js Store Http.
Local Open Scope prog_scope.

(** The query of the handlers that read without [.single()]. *)
Definition select_all (fs : list filter) (o : option ordering)
    (from to : number) : select_query :=
  {| columns := "*"; count_exact := true; Store.filters := fs;
     Store.order := o; range := Some (from, to); single := false |}.

(** [supabase.from('Tasks').select(cols).eq('id', id).single()] *)
Definition select_by_id (cols id : string) : select_query :=
  {| columns := cols; count_exact := false;
     Store.filters := [Eq "id" id]; Store.order := None; range := None;
     single := true |}.

(** [!v || !v.trim()] *)
Definition missing_or_blank (v : jsval) : prog bool :=
  if negb (truthy v) then Ret true
  else t <- method trim v ;; Ret (String.eqb t "").

(** *** POST /tasks *)

Definition validPriorities : list string := ["low"; "medium"; "high"].

(** [v && isNaN(Date.parse(v))] *)
Definition invalid_date (E : engine) (v : jsval) : prog bool :=
  if truthy v
  then t <- may_throw (Date_parse_val E v) ;; Ret (isNaN t)
  else Ret false.

(** [start_date && due_date && new Date(start_date) > new Date(due_date)] *)
Definition dates_reversed (E : engine) (start_date due_date : jsval)
    : prog bool :=
  if truthy start_date && truthy due_date
  then may_throw (date_after E start_date due_date)
  else Ret false.

(** The validation block (lines 69-100): [Some r] is an early
    [return res.status(400).json(...)], [None] falls through. *)
Definition create_validation (E : engine) (body : obj)
    : prog (option response) :=
  let title := get body "title" in
  let author := get body "author" in
  let priority := get body "priority" in
  let due_date := get body "due_date" in
  let start_date := get body "start_date" in
  no_title <- missing_or_blank title ;;
  if no_title then Ret (Some (error_response 400 "Title is required")) else
  no_author <- missing_or_blank author ;;
  if no_author then Ret (Some (error_response 400 "Author is required")) else
  bad_priority <-
    (if truthy priority
     then p <- method toLowerCase priority ;;
          Ret (negb (includes validPriorities p))
     else Ret false) ;;
  if bad_priority
  then Ret (Some (error_response 400
         ("Priority must be one of: " ++ join ", " validPriorities))) else
  bad_due <- invalid_date E due_date ;;
  if bad_due
  then Ret (Some (error_response 400 "Invalid due_date format")) else
  bad_start <- invalid_date E start_date ;;
  if bad_start
  then Ret (Some (error_response 400 "Invalid start_date format")) else
  reversed <- dates_reversed E start_date due_date ;;
  if reversed
  then Ret (Some (error_response 400 "Start date cannot be after due date"))
  else Ret None.

(** [...(v && { key: m(v) })]: nothing when [v] is falsy. *)
Definition spread_method (key : string) (m : string -> string) (v : jsval)
    : prog obj :=
  if truthy v then s <- method m v ;; Ret [(key, JStr s)] else Ret [].

(** [...(v && { key: v })] *)
Definition spread_value (key : string) (v : jsval) : obj :=
  if truthy v then [(key, v)] else [].

(** The object literal [model] (lines 103-110). *)
Definition create_model (body : obj) : prog obj :=
  t <- method trim (get body "title") ;;
  a <- method trim (get body "author") ;;
  p <- spread_method "priority" toLowerCase (get body "priority") ;;
  d <- spread_method "description" trim (get body "description") ;;
  Ret ([("title", JStr t); ("author", JStr a)] ++ p ++ d
       ++ spread_value "due_date" (get body "due_date")
       ++ spread_value "start_date" (get body "start_date"))%list.

(** What the handler does with the reply to the insert (lines 117-134). *)
Definition create_reply (r : reply) : prog response :=
  match error r with
  | Some e =>
      if String.eqb (code e) "23505"
      then Ret (error_response 409 "Task already exists")
      else Ret (store_failure "Failed to create task" e)
  | None =>
      d <- index0 (data r) ;;
      Ret {| status := 201;
             json := Created "Task created successfully" d |}
  end.

Definition internal_error : prog response :=
  Ret (error_response 500 "Internal server error").

Definition post_tasks (E : engine) (body : obj) : prog response :=
  try_catch
    (v <- create_validation E body ;;
     match v with
     | Some r => Ret r
     | None =>
         model <- create_model body ;;
         Call (Insert [model]) create_reply
     end)
    internal_error.

(** *** Pagination shared by the three listing routes *)

(** [Math.min(Math.max(parseInt(limit) || dflt, 1), 100)] *)
Definition pageLimit (dflt : Z) (limit : jsval) : prog number :=
  n <- may_throw (parseInt limit) ;;
  Ret (Math_min (Math_max (or_default n dflt) (Int 1)) (Int 100)).

(** [Math.max(parseInt(page) || 1, 1)] *)
Definition pageNumber (page : jsval) : prog number :=
  n <- may_throw (parseInt page) ;;
  Ret (Math_max (or_default n 1) (Int 1)).

(** [from = (page - 1) * limit], [to = from + limit - 1] *)
Definition window_from (page limit : number) : number :=
  mul (sub page (Int 1)) limit.
Definition window_to (page limit : number) : number :=
  sub (add (window_from page limit) limit) (Int 1).

(** The [pagination] object; [count / limit] with a [null] count is [0]. *)
Definition page_info (page limit : number) (count : option Z) : pagination :=
  {| Http.page := page; Http.limit := limit; total := count;
     totalPages := Math_ceil_div
                     (match count with Some n => Int n | None => Int 0 end)
                     limit |}.

(** *** GET /tasks *)

(** The two [parseInt] calls (lines 432-433) come before the [try]. *)
Definition get_tasks (query : obj) : prog response :=
  limit <- pageLimit 10 (get query "limit") ;;
  page <- pageNumber (get query "page") ;;
  let from := window_from page limit in
  let to := window_to page limit in
  try_catch
    (Call (Select (select_all [] None from to))
       (fun r =>
          match error r with
          | Some e => Ret (store_failure "Failed to fetch tasks" e)
          | None => Ret {| status := 200;
                          json := Listing (data r)
                                    (page_info page limit (count r)) |}
          end))
    internal_error.

(** *** The structured filters shared by search and sort *)

(** [if (author) query = query.ilike('author', `%${author.trim()}%`)] *)
Definition author_filter (author : jsval) : prog (list filter) :=
  if truthy author
  then a <- method trim author ;; Ret [Ilike "author" ("%" ++ a ++ "%")]
  else Ret [].

(** [if (v) query = query.gte(col, v)], likewise [lte]: the builder puts
    the value into the request as text. *)
Definition bound (mk : string -> string -> filter) (col : string)
    (v : jsval) : prog (list filter) :=
  if truthy v then s <- may_throw (ToString v) ;; Ret [mk col s] else Ret [].

(** The four [gte]/[lte] range filters, in the order they are chained. *)
Definition date_filters (query : obj) : prog (list filter) :=
  a <- bound Gte "start_date" (get query "start_date_from") ;;
  b <- bound Lte "start_date" (get query "start_date_to") ;;
  c <- bound Gte "due_date" (get query "due_date_from") ;;
  d <- bound Lte "due_date" (get query "due_date_to") ;;
  Ret (a ++ b ++ c ++ d)%list.

(** *** GET /tasks/search *)

Definition searchableFields : list string :=
  ["title"; "description"; "author"; "priority"].

Definition validSortFields : list string :=
  (searchableFields
   ++ ["created_at"; "updated_at"; "start_date"; "due_date"])%list.

(** [fields ? fields.split(',').filter(f => searchableFields.includes(f.trim()))
            : searchableFields] *)
Definition fieldsToSearch (fields : jsval) : prog (list string) :=
  if truthy fields
  then l <- method (split ",") fields ;;
       Ret (List.filter (fun f => includes searchableFields (trim f)) l)
  else Ret searchableFields.

(** [fieldsToSearch.map(field => `${field}.ilike.%${searchTerm}%`).join(',')] *)
Definition orConditions (fs : list string) (searchTerm : string) : string :=
  join "," (map (fun field => field ++ ".ilike.%" ++ searchTerm ++ "%") fs).

(** [if (priority) query.in('priority', priority.split(',').map(p => p.trim()))] *)
Definition search_priority_filter (priority : jsval) : prog (list filter) :=
  if truthy priority
  then l <- method (split ",") priority ;; Ret [In_ "priority" (map trim l)]
  else Ret [].

Definition or_undefined (a b : jsval) : bool := truthy a || truthy b.

(** The object [appliedFilters] (lines 257-265). *)
Definition appliedFilters (query : obj) : prog applied_filters :=
  let priority := get query "priority" in
  let author := get query "author" in
  let sf := get query "start_date_from" in
  let st := get query "start_date_to" in
  let df := get query "due_date_from" in
  let dt := get query "due_date_to" in
  p <- (if truthy priority
        then l <- method (split ",") priority ;; Ret (Some l)
        else Ret None) ;;
  Ret {| f_priority := p;
         f_author := if truthy author then Some author else None;
         f_start_date := if or_undefined sf st then Some (sf, st) else None;
         f_due_date := if or_undefined df dt then Some (df, dt) else None |}.

(** [sort && validSortFields.includes(sort) ? sort : 'created_at'] *)
Definition search_sortField (sort : jsval) : jsval :=
  if truthy sort && includes_val validSortFields sort
  then sort else JStr "created_at".

Definition get_tasks_search (query : obj) : prog response :=
  let q := get query "q" in
  let order := get query "order" in
  try_catch
    (no_q <- missing_or_blank q ;;
     if no_q
     then Ret (error_response 400 "Query parameter q is required") else
     searchTerm <- method trim q ;;
     fs <- fieldsToSearch (get query "fields") ;;
     if (Z.of_nat (List.length fs) =? 0)
     then Ret (error_response 400
            ("Invalid fields. Available: " ++ join ", " searchableFields)) else
     let conds := orConditions fs searchTerm in
     pageLimit <- pageLimit 20 (get query "limit") ;;
     pageNumber <- pageNumber (get query "page") ;;
     let from := window_from pageNumber pageLimit in
     let to := window_to pageNumber pageLimit in
     let sortField := search_sortField (get query "sort") in
     let sortOrder := strict_eq_str order "asc" in
     pf <- search_priority_filter (get query "priority") ;;
     af <- author_filter (get query "author") ;;
     df <- date_filters query ;;
     let fs' := ([Or conds] ++ pf ++ af ++ df)%list in
     col <- may_throw (ToString sortField) ;;
     let ord := {| column := col; ascending := sortOrder;
                   nullsFirst := None |} in
     Call (Select (select_all fs' (Some ord) from to))
       (fun r =>
          match error r with
          | Some e => Ret (store_failure "Search failed" e)
          | None =>
              applied <- appliedFilters query ;;
              Ret {| status := 200;
                     json := Search (data r)
                       {| Http.query := searchTerm; fields := fs;
                          Http.filters := applied;
                          resultsCount := count r |}
                       (page_info pageNumber pageLimit (count r))
                       {| field := sortField;
                          Http.order := if truthy order then order
                                        else JStr "desc" |} |}
          end))
    internal_error.

(** *** GET /tasks/sort *)

(** The object literal [sortableFields] (lines 311-320). *)
Definition sortableFields : obj :=
  [ ("title", JStr "title"); ("author", JStr "author");
    ("priority", JStr "priority"); ("created_at", JStr "created_at");
    ("updated_at", JStr "updated_at"); ("start_date", JStr "start_date");
    ("due_date", JStr "due_date"); ("description", JStr "description") ].

(** [sort_by && sortableFields[sort_by] ? sortableFields[sort_by]
                                        : 'created_at']; the property key
    is [sort_by] converted to a string. *)
Definition sortField (sort_by : jsval) : prog jsval :=
  if truthy sort_by
  then k <- may_throw (ToString sort_by) ;;
       Ret (if truthy (member sortableFields k)
            then member sortableFields k
            else JStr "created_at")
  else Ret (JStr "created_at").

(** [order === 'asc' ? true : false] *)
Definition sortOrder (order : jsval) : bool :=
  if strict_eq_str order "asc" then true else false.

(** [priority.split(',').map(p => p.trim().toLowerCase())] *)
Definition sort_priority_filter (priority : jsval) : prog (list filter) :=
  if truthy priority
  then l <- method (split ",") priority ;;
       Ret [In_ "priority" (map (fun p => toLowerCase (trim p)) l)]
  else Ret [].

Definition get_tasks_sort (query : obj) : prog response :=
  try_catch
    (sortField <- sortField (get query "sort_by") ;;
     let sortOrder := sortOrder (get query "order") in
     pageLimit <- pageLimit 20 (get query "limit") ;;
     pageNumber <- pageNumber (get query "page") ;;
     let from := window_from pageNumber pageLimit in
     let to := window_to pageNumber pageLimit in
     pf <- sort_priority_filter (get query "priority") ;;
     af <- author_filter (get query "author") ;;
     df <- date_filters query ;;
     let fs := (pf ++ af ++ df)%list in
     col <- may_throw (ToString sortField) ;;
     let ord := {| column := col; ascending := sortOrder;
                   nullsFirst := Some false |} in
     Call (Select (select_all fs (Some ord) from to))
       (fun r =>
          match error r with
          | Some e => Ret (store_failure "Failed to sort tasks" e)
          | None =>
              Ret {| status := 200;
                     json := Sorted (data r)
                       {| field := sortField;
                          Http.order := JStr (if sortOrder then "asc"
                                              else "desc") |}
                       (page_info pageNumber pageLimit (count r)) |}
          end))
    internal_error.

(** *** GET /tasks/:id *)

Definition get_tasks_id (id : string) : prog response :=
  if String.eqb id ""
  then Ret (error_response 400 "ID is required") else
  Call (Select (select_by_id "*" id))
    (fun r =>
       match error r with
       | Some e => Ret (error_response 500 (message e))
       | None => Ret {| status := 200; json := Data (data r) |}
       end).

(** *** PATCH /tasks/:id *)

Definition patch_tasks_id (id : string) (updates : obj) : prog response :=
  if String.eqb id ""
  then Ret (error_response 400 "ID is required") else
  Call (Select (select_by_id "id" id))
    (fun exists_ =>
       match error exists_ with
       | Some _ => Ret (error_response 404 "Task not found")
       | None =>
           Call (Update updates [Eq "id" id])
             (fun r =>
                match error r with
                | Some e => Ret (error_response 500 (message e))
                | None =>
                    d <- index0 (data r) ;;
                    Ret {| status := 200; json := Data d |}
                end)
       end).

(** *** DELETE /tasks/:id *)

Definition delete_tasks_id (id : string) : prog response :=
  if String.eqb id ""
  then Ret (error_response 400 "ID is required") else
  Call (Select (select_by_id "id" id))
    (fun exists_ =>
       match error exists_ with
       | Some _ => Ret (error_response 404 "Task not found")
       | None =>
           Call (Delete [Eq "id" id])
             (fun r =>
                match error r with
                | Some e => Ret (error_response 500 (message e))
                | None =>
                    d <- index0 (data r) ;;
                    Ret {| status := 200; json := Data d |}
                end)
       end).

End Handlers.

(* ===================================================================== *)
(** ** A reference task store                                             *)
(* ===================================================================== *)

(** Modelled from the spec: the Task Store (the Supabase/PostgREST service
    behind [supabase.from('Tasks')], which is not part of the repository).
    Section 2 of the spec lists what it provides: equality, set-membership
    and case-insensitive pattern filters, range comparisons, a logical OR
    across [ilike] conditions, ordering with control over null placement,
    offset/limit pagination and exact counts under the same filter.  The
    definitions below give each of these its SQL meaning over a list of
    rows.  A range is an offset and a limit only when both of its bounds
    are finite, and is refused otherwise.  Not modelled: column
    projection ([select('id')] returns whole rows), the backslash escape
    of [LIKE], quoting inside an [or] string, and a refusal of an offset
    beyond the last row. *)
Module Tasks.
Import Js Store.

(** The store's own reading of a date text (its timestamp input
    conversion), a parameter like the engine's [Date.parse]. *)
Record backend : Type := { timestamp_in : string -> option Z }.

(** The table, the next identifier to assign and the store's clock. *)
Record db : Type := { rows : list Task.row; next_id : Z; now : Z }.

Inductive cell : Type :=
| CNull
| CText (s : string)
| CTime (t : Z).

Definition text (o : option string) : cell :=
  match o with Some s => CText s | None => CNull end.

Definition time (o : option Z) : cell :=
  match o with Some t => CTime t | None => CNull end.

Definition text_columns : list string :=
  ["id"; "title"; "author"; "priority"; "description"].

Definition time_columns : list string :=
  ["due_date"; "start_date"; "created_at"; "updated_at"].

(** The value of a column in a row; [None] when there is no such column. *)
Definition cell_of (col : string) (r : Task.row) : option cell :=
  if String.eqb col "id" then Some (CText (Task.id r))
  else if String.eqb col "title" then Some (text (Task.title r))
  else if String.eqb col "author" then Some (text (Task.author r))
  else if String.eqb col "priority" then Some (text (Task.priority r))
  else if String.eqb col "description" then Some (text (Task.description r))
  else if String.eqb col "due_date" then Some (time (Task.due_date r))
  else if String.eqb col "start_date" then Some (time (Task.start_date r))
  else if String.eqb col "created_at" then Some (CTime (Task.created_at r))
  else if String.eqb col "updated_at" then Some (time (Task.updated_at r))
  else None.

(** *** Patterns *)

(** SQL [LIKE]: [%] stands for any run of characters, [_] for any one. *)
Fixpoint like (pat : string) : string -> bool :=
  match pat with
  | EmptyString => fun s => String.eqb s EmptyString
  | String c pat' =>
      if Ascii.eqb c "%"
      then fix any (s : string) : bool :=
             like pat' s
             || match s with
                | EmptyString => false
                | String _ s' => any s'
                end
      else fun s =>
             match s with
             | EmptyString => false
             | String d s' =>
                 (Ascii.eqb c "_" || Ascii.eqb c d) && like pat' s'
             end
  end.

(** [t] occurs in [s] as a run of consecutive characters. *)
Fixpoint occurs (t s : string) : bool :=
  String.prefix t s
  || match s with
     | EmptyString => false
     | String _ s' => occurs t s'
     end.

(** The characters that mean something in a pattern ([%], [_], the
    backslash, and [*], which the service reads as [%]) or in the text of
    an [or] condition (comma, dot, colon, parentheses, double quote).
    The codes 092 and 034 are the backslash and the double quote. *)
Definition special (c : ascii) : bool :=
  existsb (Ascii.eqb c)
    ["%"; "_"; "092"; "*"; ","; "."; ":"; "("; ")"; "034"]%char.

(** A text without any of them. *)
Fixpoint literal (s : string) : bool :=
  match s with
  | EmptyString => true
  | String c s' => negb (special c) && literal s'
  end.

(** The characters that mean something in a pattern. *)
Definition wildcard (c : ascii) : bool :=
  existsb (Ascii.eqb c) ["%"; "_"; "092"; "*"]%char.

(** A text without pattern characters. *)
Fixpoint plain (s : string) : bool :=
  match s with
  | EmptyString => true
  | String c s' => negb (wildcard c) && plain s'
  end.

(** [ILIKE]: [LIKE] after folding case on both sides. *)
Definition ilike (pat s : string) : bool :=
  like (toLowerCase pat) (toLowerCase s).

(** One condition [column.ilike.pattern] of an [or] string: the text up to
    the first dot, the operator up to the second, the rest is the
    pattern. *)
Definition parse_condition (c : string) : option (string * string) :=
  match split "." c with
  | col :: op :: p :: ps =>
      if String.eqb op "ilike" then Some (col, join "." (p :: ps)) else None
  | _ => None
  end.

Fixpoint parse_conditions (l : list string) : option (list (string * string)) :=
  match l with
  | [] => Some []
  | c :: l' =>
      match parse_condition c, parse_conditions l' with
      | Some x, Some xs => Some (x :: xs)
      | _, _ => None
      end
  end.

(** The conditions of [.or(conds)], separated by commas. *)
Definition parse_or (conds : string) : option (list (string * string)) :=
  parse_conditions (split "," conds).

(** *** Filters *)

Definition is_text_column (col : string) : bool := includes text_columns col.
Definition is_time_column (col : string) : bool := includes time_columns col.

Definition parses (B : backend) (v : string) : bool :=
  match timestamp_in B v with Some _ => true | None => false end.

(** A comparison value must convert to the column's type. *)
Definition value_ok (B : backend) (col v : string) : bool :=
  is_text_column col || (is_time_column col && parses B v).

(** Whether the store accepts a filter at all (unknown column, operator
    that the column's type does not have, malformed value or [or]
    string): decided before any row is looked at. *)
Definition filter_ok (B : backend) (f : filter) : bool :=
  match f with
  | Or conds =>
      match parse_or conds with
      | Some l => forallb (fun cp => is_text_column (fst cp)) l
      | None => false
      end
  | In_ col vs => forallb (value_ok B col) vs
  | Ilike col _ => is_text_column col
  | Gte col v | Lte col v | Eq col v => value_ok B col v
  end.

(** A comparison of a cell with a value given as text; a null cell
    satisfies no comparison. *)
Definition compare_cell (B : backend) (c : cell) (v : string)
    (on_text : string -> string -> bool) (on_time : Z -> Z -> bool) : bool :=
  match c with
  | CNull => false
  | CText s => on_text s v
  | CTime t =>
      match timestamp_in B v with
      | Some t' => on_time t t'
      | None => false
      end
  end.

Definition cell_ilike (c : cell) (pat : string) : bool :=
  match c with
  | CText s => ilike pat s
  | _ => false
  end.

Definition column_test (col : string) (r : Task.row) (test : cell -> bool)
    : bool :=
  match cell_of col r with
  | Some c => test c
  | None => false
  end.

(** Whether a row satisfies an accepted filter. *)
Definition holds (B : backend) (f : filter) (r : Task.row) : bool :=
  match f with
  | Or conds =>
      match parse_or conds with
      | Some l =>
          existsb (fun cp => column_test (fst cp) r
                               (fun c => cell_ilike c (snd cp))) l
      | None => false
      end
  | In_ col vs =>
      column_test col r
        (fun c => existsb (fun v => compare_cell B c v String.eqb Z.eqb) vs)
  | Ilike col pat => column_test col r (fun c => cell_ilike c pat)
  | Gte col v =>
      column_test col r
        (fun c => compare_cell B c v (fun s v' => String.leb v' s) Z.geb)
  | Lte col v =>
      column_test col r (fun c => compare_cell B c v String.leb Z.leb)
  | Eq col v =>
      column_test col r (fun c => compare_cell B c v String.eqb Z.eqb)
  end.

(** All filters of a query are combined by AND. *)
Definition matches (B : backend) (fs : list filter) (r : Task.row) : bool :=
  forallb (fun f => holds B f r) fs.

(** *** Ordering and windows *)

(** Nulls come first by default when descending and last when ascending,
    unless [nullsFirst] says otherwise. *)
Definition nulls_first (o : ordering) : bool :=
  match nullsFirst o with
  | Some b => b
  | None => negb (ascending o)
  end.

(** [a] may stand before [b] under the ordering. *)
Definition cell_before (o : ordering) (a b : cell) : bool :=
  match a, b with
  | CNull, CNull => true
  | CNull, _ => nulls_first o
  | _, CNull => negb (nulls_first o)
  | CText x, CText y => if ascending o then String.leb x y else String.leb y x
  | CTime x, CTime y => if ascending o then x <=? y else y <=? x
  | _, _ => true
  end.

Definition key (o : ordering) (r : Task.row) : cell :=
  match cell_of (column o) r with
  | Some c => c
  | None => CNull
  end.

Fixpoint insert_row (o : ordering) (r : Task.row) (l : list Task.row)
    : list Task.row :=
  match l with
  | [] => [r]
  | r' :: l' =>
      if cell_before o (key o r) (key o r') then r :: l
      else r' :: insert_row o r l'
  end.

(** [ORDER BY]: a stable insertion sort on the column. *)
Fixpoint sort_rows (o : ordering) (l : list Task.row) : list Task.row :=
  match l with
  | [] => []
  | r :: l' => insert_row o r (sort_rows o l')
  end.

Definition order_ok (o : option ordering) : bool :=
  match o with
  | Some o' => is_text_column (column o') || is_time_column (column o')
  | None => true
  end.

(** [.range(from, to)]: the rows at the zero-based positions [from] to
    [to], both included. *)
Definition window (from to : Z) (l : list Task.row) : list Task.row :=
  firstn (Z.to_nat (to - from + 1)) (skipn (Z.to_nat from) l).

(** *** Requests *)

Definition bad_request : store_error :=
  {| code := "PGRST100"; message := "failed to parse the request" |}.

(** The error of [.single()] when the result is not exactly one row. *)
Definition not_single : store_error :=
  {| code := "PGRST116";
     message := "JSON object requested, multiple (or no) rows returned" |}.

Definition ordered (o : option ordering) (l : list Task.row) : list Task.row :=
  match o with
  | Some o' => sort_rows o' l
  | None => l
  end.

Definition range_ok (w : option (number * number)) : bool :=
  match w with
  | Some (Int _, Int _) | None => true
  | Some _ => false
  end.

Definition windowed (w : option (number * number)) (l : list Task.row)
    : list Task.row :=
  match w with
  | Some (Int from, Int to) => window from to l
  | _ => l
  end.

Definition select (B : backend) (q : select_query) (d : db) : reply :=
  if forallb (filter_ok B) (filters q) && order_ok (order q)
     && range_ok (range q) then
    let matched := List.filter (matches B (filters q)) (rows d) in
    let page := windowed (range q) (ordered (order q) matched) in
    if single q then
      match page with
      | [r] => {| data := Record_ r; error := None; count := None |}
      | _ => failed not_single
      end
    else
      {| data := Array page; error := None;
         count := if count_exact q
                  then Some (Z.of_nat (List.length matched)) else None |}
  else failed bad_request.

(** Writing one property of a JSON body into a row.  [id], [created_at]
    and [updated_at] are managed by the store and cannot be written; a
    text column takes a string, number or boolean in its text form; a
    date column takes what the store reads as a date; [null] clears a
    column and an object is refused. *)
Definition as_text (v : jsval) : option (option string) :=
  match v with
  | JNull => Some None
  | JObject _ | JUndefined => None
  | _ => option_map Some (ToString v)
  end.

Definition as_time (B : backend) (v : jsval) : option (option Z) :=
  match v with
  | JNull => Some None
  | JObject _ | JUndefined => None
  | _ => match ToString v with
         | Some s => option_map Some (timestamp_in B s)
         | None => None
         end
  end.

Definition set_column (B : backend) (col : string) (v : jsval) (r : Task.row)
    : option Task.row :=
  let '(Task.mkRow i t a p d dd sd ca ua) := r in
  if String.eqb col "title"
  then option_map (fun x => Task.mkRow i x a p d dd sd ca ua) (as_text v)
  else if String.eqb col "author"
  then option_map (fun x => Task.mkRow i t x p d dd sd ca ua) (as_text v)
  else if String.eqb col "priority"
  then option_map (fun x => Task.mkRow i t a x d dd sd ca ua) (as_text v)
  else if String.eqb col "description"
  then option_map (fun x => Task.mkRow i t a p x dd sd ca ua) (as_text v)
  else if String.eqb col "due_date"
  then option_map (fun x => Task.mkRow i t a p d x sd ca ua) (as_time B v)
  else if String.eqb col "start_date"
  then option_map (fun x => Task.mkRow i t a p d dd x ca ua) (as_time B v)
  else None.

Fixpoint set_columns (B : backend) (o : obj) (r : Task.row)
    : option Task.row :=
  match o with
  | [] => Some r
  | (col, v) :: o' =>
      match set_column B col v r with
      | Some r' => set_columns B o' r'
      | None => None
      end
  end.

Fixpoint map_option {A B : Type} (f : A -> option B) (l : list A)
    : option (list B) :=
  match l with
  | [] => Some []
  | x :: l' =>
      match f x, map_option f l' with
      | Some y, Some ys => Some (y :: ys)
      | _, _ => None
      end
  end.

(** A new row: the store assigns [id] and [created_at]. *)
Definition blank (i : Z) (t : Z) : Task.row :=
  Task.mkRow (Z_to_string i) None None None None None None t None.

Fixpoint insert_all (B : backend) (models : list obj) (i : Z) (t : Z)
    : option (list Task.row) :=
  match models with
  | [] => Some []
  | m :: ms =>
      match set_columns B m (blank i t), insert_all B ms (i + 1) t with
      | Some r, Some rs => Some (r :: rs)
      | _, _ => None
      end
  end.

Definition touch (t : Z) (r : Task.row) : Task.row :=
  let '(Task.mkRow i ti a p d dd sd ca _) := r in
  Task.mkRow i ti a p d dd sd ca (Some t).

(** The rows after an update: every matching row is rewritten, the others
    are kept; [None] when a value is refused. *)
Definition update_rows (B : backend) (updates : obj) (fs : list filter)
    (t : Z) (l : list Task.row) : option (list Task.row) :=
  map_option
    (fun r => if matches B fs r
              then option_map (touch t) (set_columns B updates r)
              else Some r) l.

(** One request against the store: the reply and the store afterwards. *)
Definition exec (B : backend) (c : call) (d : db) : reply * db :=
  match c with
  | Select q => (select B q d, d)
  | Insert models =>
      match insert_all B models (next_id d) (now d) with
      | Some rs =>
          ({| data := Array rs; error := None; count := None |},
           {| rows := rows d ++ rs;
              next_id := next_id d + Z.of_nat (List.length rs);
              now := now d + 1 |})
      | None => (failed bad_request, d)
      end
  | Update updates fs =>
      if forallb (filter_ok B) fs then
        match update_rows B updates fs (now d) (rows d) with
        | Some l =>
            ({| data := Array (List.filter (matches B fs) l);
                error := None; count := None |},
             {| rows := l; next_id := next_id d; now := now d + 1 |})
        | None => (failed bad_request, d)
        end
      else (failed bad_request, d)
  | Delete fs =>
      if forallb (filter_ok B) fs then
        ({| data := Array (List.filter (matches B fs) (rows d));
            error := None; count := None |},
         {| rows := List.filter (fun r => negb (matches B fs r)) (rows d);
            next_id := next_id d; now := now d + 1 |})
      else (failed bad_request, d)
  end.

(** A handler run against the store: its result ([None] for an exception
    nothing catches) and the store afterwards. *)
Fixpoint run {A : Type} (B : backend) (p : prog A) (d : db) : option A * db :=
  match p with
  | Ret a => (Some a, d)
  | Throw => (None, d)
  | Call c k => let '(r, d') := exec B c d in run B (k r) d'
  end.

(** Identifiers are unique in a store. *)
Definition wf (d : db) : Prop := NoDup (map Task.id (rows d)).

End Tasks.

(* ===================================================================== *)
(** ** Sample instances                                                   *)
(* ===================================================================== *)

(** Concrete parameters and data on which the statements below are
    exercised.  Both date readers accept exactly [YYYY-MM-DD] and return
    the milliseconds since 1970-01-01 UTC.  The engine's reader takes any
    day from 01 to 31 and counts a day past the end of the month into the
    next month, as V8 does ([2024-02-30] is the first of March); the
    store's reader refuses such a date. *)
Module Sample.
Import Js.

Definition digit (c : ascii) : option Z :=
  if is_digit c then Some (code c - 48) else None.

Definition number2 (a b : ascii) : option Z :=
  match digit a, digit b with
  | Some x, Some y => Some (10 * x + y)
  | _, _ => None
  end.

Definition number4 (a b c d : ascii) : option Z :=
  match number2 a b, number2 c d with
  | Some x, Some y => Some (100 * x + y)
  | _, _ => None
  end.

Definition leap (y : Z) : bool :=
  ((y mod 4 =? 0) && negb (y mod 100 =? 0)) || (y mod 400 =? 0).

Definition days_in_month (y m : Z) : Z :=
  if m =? 2 then (if leap y then 29 else 28)
  else if (m =? 4) || (m =? 6) || (m =? 9) || (m =? 11) then 30
  else 31.

(** Days from 1970-01-01 to the given civil date. *)
Definition days_from_civil (y m d : Z) : Z :=
  let y' := if m <=? 2 then y - 1 else y in
  let era := y' / 400 in
  let yoe := y' - era * 400 in
  let mp := if 2 <? m then m - 3 else m + 9 in
  let doy := (153 * mp + 2) / 5 + d - 1 in
  let doe := yoe * 365 + yoe / 4 - yoe / 100 + doy in
  era * 146097 + doe - 719468.

Definition iso_date (strict : bool) (s : string) : option Z :=
  match s with
  | String y1 (String y2 (String y3 (String y4 (String "-"
      (String m1 (String m2 (String "-" (String d1 (String d2
      EmptyString))))))))) =>
      match number4 y1 y2 y3 y4, number2 m1 m2, number2 d1 d2 with
      | Some y, Some m, Some d =>
          if (1 <=? m) && (m <=? 12) && (1 <=? d)
             && (d <=? (if strict then days_in_month y m else 31))
          then Some (days_from_civil y m d * 86400000)
          else None
      | _, _, _ => None
      end
  | _ => None
  end.

Definition engine : Js.engine := {| Date_parse := iso_date false |}.
Definition backend : Tasks.backend :=
  {| Tasks.timestamp_in := iso_date true |}.

Definition task1 : Task.row :=
  Task.mkRow "1" (Some "Write spec") (Some "Ada") (Some "high") None
    (Some 1704844800000) (Some 1704067200000) 1704000000000 None.

Definition task2 : Task.row :=
  Task.mkRow "2" (Some "axxb") (Some "Bob") None (Some "notes") None None
    1704000001000 None.

Definition task3 : Task.row :=
  Task.mkRow "3" (Some "Plan") (Some "Cy") (Some "low") None None None
    1704000002000 None.

(** A task whose author is written [Lovelace, Ada]. *)
Definition author_row : Task.row :=
  Task.mkRow "9" (Some "Notes") (Some "Lovelace, Ada") None None None None
    1704000009000 None.

Definition store : Tasks.db :=
  {| Tasks.rows := [task1; task2; task3]; Tasks.next_id := 4;
     Tasks.now := 1704000003000 |}.

Definition empty_store : Tasks.db :=
  {| Tasks.rows := []; Tasks.next_id := 1; Tasks.now := 1704000000000 |}.

(** The create request of the scenario in section 8 of the spec. *)
Definition spec_body : obj :=
  [ ("title", JStr "Write spec"); ("author", JStr "Ada");
    ("priority", JStr "HIGH"); ("start_date", JStr "2024-01-01");
    ("due_date", JStr "2024-01-10") ].

(** The same request with the two dates exchanged. *)
Definition reversed_body : obj :=
  [ ("title", JStr "Write spec"); ("author", JStr "Ada");
    ("priority", JStr "HIGH"); ("start_date", JStr "2024-01-10");
    ("due_date", JStr "2024-01-01") ].

(** [{"title":"t","author":"a","priority":5}] *)
Definition number_priority_body : obj :=
  [("title", JStr "t"); ("author", JStr "a"); ("priority", JNum 5)].

(** [GET /tasks/search?q=spec&fields=title,%20description] *)
Definition padded_fields_query : obj :=
  [("q", JStr "spec"); ("fields", JStr "title, description")].

(** [GET /tasks?limit=3&page=9007199254740993] *)
Definition large_page_query : obj :=
  [("limit", JStr "3"); ("page", JStr "9007199254740993")].

(** [{"title":"t","author":"a","due_date":{"toString":1}}] *)
Definition object_date_body : obj :=
  [("title", JStr "t"); ("author", JStr "a"); ("due_date", JObject None)].

(** [{"title":"t","author":"a","priority":""}] *)
Definition empty_priority_body : obj :=
  [("title", JStr "t"); ("author", JStr "a"); ("priority", JStr "")].

End Sample.

(* ===================================================================== *)
(** * Properties                                                          *)
(* ===================================================================== *)

Import Js Store Http Handlers.

Example iso_date_2024_01_01 :
  Date_parse Sample.engine "2024-01-01" = Some 1704067200000.
Proof. reflexivity. Qed.

Example iso_date_2024_01_10 :
  Date_parse Sample.engine "2024-01-10" = Some 1704844800000.
Proof. reflexivity. Qed.

Example iso_date_garbage : Date_parse Sample.engine "tomorrow" = None.
Proof. reflexivity. Qed.

Example iso_date_past_end_of_month :
  Date_parse Sample.engine "2024-02-30" = Some 1709251200000
  /\ Tasks.timestamp_in Sample.backend "2024-02-30" = None
  /\ Date_parse Sample.engine "2024-02-32" = None.
Proof. repeat split; reflexivity. Qed.

Example trim_example : trim "  Ada  " = "Ada".
Proof. reflexivity. Qed.

Example split_example : split "," "a,,b" = ["a"; ""; "b"].
Proof. reflexivity. Qed.

Example parseInt_examples :
  parseInt (JStr " 42px") = Some (Int 42)
  /\ parseInt (JStr "abc") = Some NaN
  /\ parseInt JUndefined = Some NaN
  /\ parseInt (JStr "-7") = Some (Int (-7))
  /\ parseInt (JStr "0x1A") = Some (Int 26)
  /\ parseInt (JNum 15) = Some (Int 15)
  /\ parseInt (JObject (Some "5,6")) = Some (Int 5)
  /\ parseInt (JObject None) = None.
Proof. repeat split; reflexivity. Qed.

Example parseInt_rounds :
  parseInt (JStr "9007199254740993") = Some (Int 9007199254740992)
  /\ parseInt (JStr "27021597764222973") = Some (Int 27021597764222972)
  /\ parseInt (JStr "0x20000000000003") = Some (Int 9007199254740996).
Proof. repeat split; vm_compute; reflexivity. Qed.

Example Number_toString_examples :
  ToString (JNum 15) = Some "15" /\ ToString (JNum (-7)) = Some "-7"
  /\ ToString (JNum 0) = Some "0"
  /\ ToString (JNum 9007199254740993) = Some "9007199254740992"
  /\ ToString (JNum 1152921504606846976) = Some "1152921504606847000"
  /\ ToString (JNum (10 ^ 21)) = Some "1e+21"
  /\ ToString (JNum (15 * 10 ^ 299)) = Some "1.5e+300".
Proof. repeat split; vm_compute; reflexivity. Qed.

(** ** Programs *)

Lemma try_catch_ret {A : Type} (a : A) (h : prog A) :
  try_catch (Ret a) h = Ret a.
Proof. reflexivity. Qed.

Lemma missing_or_blank_falsy (v : jsval) :
  truthy v = false -> missing_or_blank v = Ret true.
Proof. intros H. unfold missing_or_blank. rewrite H. reflexivity. Qed.

Lemma missing_or_blank_string (s : string) :
  missing_or_blank (JStr s) = Ret (String.eqb (trim s) "").
Proof.
  unfold missing_or_blank. simpl.
  destruct (String.eqb s "") eqn:Hs; simpl; [|reflexivity].
  apply String.eqb_eq in Hs. subst s. reflexivity.
Qed.

Lemma missing_or_blank_other (v : jsval) :
  truthy v = true -> (forall s, v <> JStr s) -> missing_or_blank v = Throw.
Proof.
  intros Ht Hs. unfold missing_or_blank. rewrite Ht. simpl.
  destruct v; try reflexivity. now elim (Hs s).
Qed.

Lemma missing_or_blank_cases (v : jsval) :
  (missing_or_blank v = Ret true
   /\ (truthy v = false \/ exists s, v = JStr s /\ trim s = ""))
  \/ (missing_or_blank v = Ret false
      /\ exists s, v = JStr s /\ trim s <> "" /\ s <> "")
  \/ (missing_or_blank v = Throw /\ truthy v = true /\ forall s, v <> JStr s).
Proof.
  destruct v as [| |b|n|s|o].
  1,2: left; split; [reflexivity|now left].
  - destruct b.
    + right; right. repeat split. discriminate.
    + left. split; [reflexivity|now left].
  - destruct (truthy (JNum n)) eqn:Ht.
    + right; right. split; [apply missing_or_blank_other|]; try easy.
    + left. split; [now apply missing_or_blank_falsy|now left].
  - rewrite missing_or_blank_string.
    destruct (String.eqb (trim s) "") eqn:Hb.
    + left. split; [reflexivity|]. right. exists s.
      split; [reflexivity|now apply String.eqb_eq].
    + right; left. split; [reflexivity|]. exists s.
      split; [reflexivity|]. split.
      * now apply String.eqb_neq.
      * intros ->. discriminate.
  - right; right. repeat split. discriminate.
Qed.

Ltac step_prog := cbn [bind try_catch method may_throw internal_error].

Ltac case_if :=
  match goal with
  | |- context [if ?b then _ else _] => destruct b eqn:?; step_prog
  end.

Lemma may_throw_cases {A : Type} (o : option A) :
  (o = None /\ may_throw o = Throw) \/ exists x, o = Some x /\ may_throw o = Ret x.
Proof. destruct o as [x|]; [right; now exists x|now left]. Qed.

(** [v && isNaN(Date.parse(v))] is false for a falsy [v], throws when
    [v] has no string form, and otherwise tells whether the text parses. *)
Lemma invalid_date_cases (E : engine) (v : jsval) :
  (truthy v = false /\ invalid_date E v = Ret false)
  \/ (truthy v = true /\ Date_parse_val E v = None
      /\ invalid_date E v = Throw)
  \/ (exists t, truthy v = true /\ Date_parse_val E v = Some t
                /\ invalid_date E v = Ret (isNaN t)).
Proof.
  unfold invalid_date. destruct (truthy v); [|now left]. right.
  destruct (Date_parse_val E v) as [t|]; [right; now exists t|now left].
Qed.

Lemma dates_reversed_cases (E : engine) (a b : jsval) :
  (truthy a && truthy b = false /\ dates_reversed E a b = Ret false)
  \/ (truthy a && truthy b = true /\ date_after E a b = None
      /\ dates_reversed E a b = Throw)
  \/ (exists r, truthy a && truthy b = true /\ date_after E a b = Some r
                /\ dates_reversed E a b = Ret r).
Proof.
  unfold dates_reversed. destruct (truthy a && truthy b); [|now left]. right.
  destruct (date_after E a b) as [r|]; [right; now exists r|now left].
Qed.

Ltac answered := left; eexists; split; [reflexivity|simpl; tauto].

Lemma post_tasks_ret_or_valid (E : engine) (body : obj) :
  (exists r, post_tasks E body = Ret r
             /\ (status r = 400 \/ status r = 500))
  \/ create_validation E body = Ret None.
Proof.
  unfold post_tasks, create_validation.
  destruct (missing_or_blank_cases (get body "title"))
    as [[-> _]|[[-> _]|[-> _]]]; step_prog; try answered.
  destruct (missing_or_blank_cases (get body "author"))
    as [[-> _]|[[-> _]|[-> _]]]; step_prog; try answered.
  destruct (truthy (get body "priority")); step_prog;
    [destruct (get body "priority"); step_prog; try answered;
     destruct (negb (includes validPriorities (toLowerCase s))); step_prog;
     try answered|];
    (destruct (invalid_date_cases E (get body "due_date"))
       as [(_ & ->)|[(_ & _ & ->)|(t & _ & _ & ->)]]; step_prog;
     try answered; try (destruct (isNaN t); step_prog; try answered));
    (destruct (invalid_date_cases E (get body "start_date"))
       as [(_ & ->)|[(_ & _ & ->)|(t' & _ & _ & ->)]]; step_prog;
     try answered; try (destruct (isNaN t'); step_prog; try answered));
    (destruct (dates_reversed_cases E (get body "start_date")
                 (get body "due_date"))
       as [(_ & ->)|[(_ & _ & ->)|([|] & _ & _ & ->)]]; step_prog;
     try answered);
    now right.
Qed.

Lemma calls_ret {A : Type} (answer : call -> reply) (p : prog A) (a : A) :
  p = Ret a -> calls answer p = [].
Proof. intros ->. reflexivity. Qed.

(** C1 fails at a [priority] supplied as the number 5: it matches none of
    low, medium, high, and the answer is 500, not 400, because
    [priority.toLowerCase] is not a function and the [catch] block
    answers.  A [due_date] supplied as an object without a string form is
    answered 500 in the same way, by the exception of [Date.parse].  No
    store call is made in either case. *)
Theorem post_tasks_priority_not_rejected :
  get Sample.number_priority_body "priority" = JNum 5
  /\ post_tasks Sample.engine Sample.number_priority_body
     = Ret (error_response 500 "Internal server error")
  /\ get Sample.object_date_body "due_date" = JObject None
  /\ post_tasks Sample.engine Sample.object_date_body
     = Ret (error_response 500 "Internal server error")
  /\ (forall answer,
        calls answer (post_tasks Sample.engine Sample.number_priority_body)
        = []
        /\ calls answer (post_tasks Sample.engine Sample.object_date_body)
           = []).
Proof. repeat split; reflexivity. Qed.

(** With the same title and author and a priority given as text that is
    none of the three values, the answer is the 400 of the priority
    check. *)
Example post_tasks_text_priority_rejected :
  post_tasks Sample.engine
    [("title", JStr "t"); ("author", JStr "a"); ("priority", JStr "5")]
  = Ret (error_response 400 "Priority must be one of: low, medium, high").
Proof. reflexivity. Qed.

Lemma create_validation_passes (E : engine) (body : obj) :
  create_validation E body = Ret None ->
  (exists t, get body "title" = JStr t /\ trim t <> "")
  /\ (exists a, get body "author" = JStr a /\ trim a <> "")
  /\ (truthy (get body "priority") = false
      \/ exists p, get body "priority" = JStr p /\ p <> ""
                   /\ includes validPriorities (toLowerCase p) = true).
Proof.
  unfold create_validation.
  destruct (missing_or_blank_cases (get body "title"))
    as [[-> _]|[[-> (t & Eqt & Nt & _)]|[-> _]]]; step_prog;
    try discriminate.
  destruct (missing_or_blank_cases (get body "author"))
    as [[-> _]|[[-> (a & Eqa & Na & _)]|[-> _]]]; step_prog;
    try discriminate.
  intros H. split; [now exists t|]. split; [now exists a|].
  destruct (truthy (get body "priority")) eqn:Tp; [|now left].
  right. destruct (get body "priority") as [| |b|n|p|o];
    try discriminate.
  exists p. split; [reflexivity|]. split.
  - intros ->. discriminate.
  - revert H. step_prog.
    destruct (includes validPriorities (toLowerCase p));
      [reflexivity|discriminate].
Qed.

Lemma spread_method_cases (key : string) (m : string -> string) (v : jsval) :
  (truthy v = false /\ spread_method key m v = Ret [])
  \/ (exists s, v = JStr s /\ s <> ""
                /\ spread_method key m v = Ret [(key, JStr (m s))])
  \/ (truthy v = true /\ (forall s, v <> JStr s)
      /\ spread_method key m v = Throw).
Proof.
  unfold spread_method. destruct (truthy v) eqn:Tv.
  - destruct v as [| |b|n|s|o];
      try (right; right; repeat split; discriminate).
    right; left. exists s. repeat split. intros ->. discriminate.
  - now left.
Qed.

(** ** Writing columns in the reference store *)

Lemma set_column_managed (B : Tasks.backend) (col : string) (v : jsval)
    (r r' : Task.row) :
  Tasks.set_column B col v r = Some r' ->
  Task.id r' = Task.id r /\ Task.created_at r' = Task.created_at r
  /\ Task.updated_at r' = Task.updated_at r.
Proof.
  destruct r as [i t a p d dd sd ca ua]. unfold Tasks.set_column.
  repeat match goal with
         | |- context [if ?b then _ else _] => destruct b
         end;
    try discriminate;
    match goal with
    | |- option_map _ ?x = _ -> _ => destruct x; simpl; intros H;
                                      inversion H; subst; simpl; auto
    end.
Qed.

Lemma set_columns_managed (B : Tasks.backend) (o : obj) :
  forall r r', Tasks.set_columns B o r = Some r' ->
  Task.id r' = Task.id r /\ Task.created_at r' = Task.created_at r
  /\ Task.updated_at r' = Task.updated_at r.
Proof.
  induction o as [|[col v] o IH]; simpl; intros r r' H.
  - inversion H. auto.
  - destruct (Tasks.set_column B col v r) as [r1|] eqn:E1; [|discriminate].
    apply set_column_managed in E1. apply IH in H.
    destruct E1 as (E1 & E2 & E3). destruct H as (H1 & H2 & H3).
    repeat split; congruence.
Qed.

Lemma set_column_other (B : Tasks.backend) (col : string) (v : jsval)
    (r r' : Task.row) :
  Tasks.set_column B col v r = Some r' ->
  (col <> "title" -> Task.title r' = Task.title r)
  /\ (col <> "author" -> Task.author r' = Task.author r)
  /\ (col <> "priority" -> Task.priority r' = Task.priority r).
Proof.
  destruct r as [i t a p d dd sd ca ua]. unfold Tasks.set_column.
  repeat match goal with
         | |- context [if String.eqb ?x ?y then _ else _] =>
             destruct (String.eqb_spec x y)
         end;
    try discriminate;
    match goal with
    | |- option_map _ ?x = _ -> _ => destruct x; simpl; intros H;
                                      inversion H; subst; simpl
    end;
    repeat split; intros; congruence.
Qed.

Lemma set_columns_other (B : Tasks.backend) (o : obj) :
  forall r r', Tasks.set_columns B o r = Some r' ->
  (~ In "title" (map fst o) -> Task.title r' = Task.title r)
  /\ (~ In "author" (map fst o) -> Task.author r' = Task.author r)
  /\ (~ In "priority" (map fst o) -> Task.priority r' = Task.priority r).
Proof.
  induction o as [|[col v] o IH]; simpl; intros r r' H.
  - inversion H. auto.
  - destruct (Tasks.set_column B col v r) as [r1|] eqn:E1; [|discriminate].
    apply set_column_other in E1. apply IH in H.
    destruct E1 as (E1 & E2 & E3). destruct H as (H1 & H2 & H3).
    repeat split; intros N.
    + rewrite H1, E1; tauto.
    + rewrite H2, E2; tauto.
    + rewrite H3, E3; tauto.
Qed.

Lemma set_column_text (B : Tasks.backend) (col s : string) (r r' : Task.row) :
  Tasks.set_column B col (JStr s) r = Some r' ->
  (col = "title" -> Task.title r' = Some s)
  /\ (col = "author" -> Task.author r' = Some s)
  /\ (col = "priority" -> Task.priority r' = Some s).
Proof.
  destruct r as [i t a p d dd sd ca ua]. intros H.
  repeat split; intros ->; simpl in H; inversion H; reflexivity.
Qed.

Lemma truthy_not_null (v : jsval) :
  truthy v = true -> v <> JNull /\ v <> JUndefined.
Proof. destruct v; simpl; intros H; split; congruence. Qed.

Lemma spread_value_in (key : string) (v : jsval) (k : string) (w : jsval) :
  In (k, w) (spread_value key v) -> k = key /\ w = v /\ truthy v = true.
Proof.
  unfold spread_value. destruct (truthy v) eqn:Tv; simpl; [|tauto].
  intros [H|[]]. inversion H. auto.
Qed.

Lemma create_model_cases (body : obj) (t a : string) :
  get body "title" = JStr t -> get body "author" = JStr a ->
  (truthy (get body "priority") = false
   \/ exists p, get body "priority" = JStr p /\ p <> "") ->
  (truthy (get body "description") = true
   /\ (forall s, get body "description" <> JStr s)
   /\ create_model body = Throw)
  \/ exists pm dm,
       create_model body
       = Ret ([("title", JStr (trim t)); ("author", JStr (trim a))] ++ pm
              ++ dm ++ spread_value "due_date" (get body "due_date")
              ++ spread_value "start_date" (get body "start_date"))%list
       /\ ((truthy (get body "priority") = false /\ pm = [])
           \/ exists p, get body "priority" = JStr p /\ p <> ""
                        /\ pm = [("priority", JStr (toLowerCase p))])
       /\ ((truthy (get body "description") = false /\ dm = [])
           \/ exists s, get body "description" = JStr s /\ s <> ""
                        /\ dm = [("description", JStr (trim s))]).
Proof.
  intros Et Ea Hp. unfold create_model. rewrite Et, Ea. step_prog.
  destruct (spread_method_cases "priority" toLowerCase (get body "priority"))
    as [[Tp Sp]|[(p & Ep & Np & Sp)|(Tp & Np & Sp)]].
  3:{ exfalso. destruct Hp as [Hp|(p & Hp & _)]; [congruence|].
      now elim (Np p). }
  all: rewrite Sp; step_prog.
  all: destruct (spread_method_cases "description" trim
                   (get body "description"))
      as [[Td Sd]|[(s & Ed & Nd & Sd)|(Td & Nd & Sd)]]; rewrite Sd;
      step_prog.
  all: try (left; now repeat split).
  all: right; eexists; eexists; split; [reflexivity|]; split.
  all: try (left; now split).
  all: try (right; eexists; now repeat split).
Qed.

Lemma trim_nonempty (s : string) : trim s <> "" -> s <> "".
Proof. intros H ->. now apply H. Qed.

Lemma run_insert_one (B : Tasks.backend) (d : Tasks.db) (model : obj)
    (row : Task.row) (k : reply -> prog response) :
  Tasks.set_columns B model (Tasks.blank (Tasks.next_id d) (Tasks.now d))
  = Some row ->
  Tasks.run B (Call (Insert [model]) k) d
  = Tasks.run B (k {| data := Array [row]; error := None; count := None |})
      {| Tasks.rows := Tasks.rows d ++ [row];
         Tasks.next_id := Tasks.next_id d + 1;
         Tasks.now := Tasks.now d + 1 |}.
Proof.
  intros H. cbn [Tasks.run Tasks.exec Tasks.insert_all]. rewrite H.
  reflexivity.
Qed.

(** C5.  A create request that passes validation either stops on a
    description that is not a string (500, nothing forwarded), or inserts
    one model.  Every property of the model is a truthy field of the body
    and none is null; [title] and [author] are trimmed, a supplied
    [priority] is lower-cased.  When the store answers without an error
    the response is 201 with the first returned row; in the reference
    store that row carries the identifier and creation time the store
    assigned and the trimmed and lower-cased values. *)
Theorem post_tasks_forwards_supplied (E : engine) (body : obj) :
  create_validation E body = Ret None ->
  (truthy (get body "description") = true
   /\ (forall s, get body "description" <> JStr s)
   /\ post_tasks E body = Ret (error_response 500 "Internal server error"))
  \/ exists t a model,
       get body "title" = JStr t /\ get body "author" = JStr a
       /\ create_model body = Ret model
       /\ post_tasks E body
          = Call (Insert [model])
              (fun r => try_catch (create_reply r) internal_error)
       /\ (forall k v, In (k, v) model ->
             truthy (get body k) = true /\ v <> JNull /\ v <> JUndefined)
       /\ get model "title" = JStr (trim t)
       /\ get model "author" = JStr (trim a)
       /\ (forall p, get body "priority" = JStr p -> p <> "" ->
             get model "priority" = JStr (toLowerCase p))
       /\ (forall r row rest,
             error r = None -> data r = Array (row :: rest) ->
             try_catch (create_reply r) internal_error
             = Ret {| status := 201;
                      json := Created "Task created successfully"
                                (Record_ row) |})
       /\ (forall B d row,
             Tasks.set_columns B model
               (Tasks.blank (Tasks.next_id d) (Tasks.now d)) = Some row ->
             Tasks.run B (post_tasks E body) d
             = (Some {| status := 201;
                        json := Created "Task created successfully"
                                  (Record_ row) |},
                {| Tasks.rows := Tasks.rows d ++ [row];
                   Tasks.next_id := Tasks.next_id d + 1;
                   Tasks.now := Tasks.now d + 1 |})
             /\ Task.id row = Z_to_string (Tasks.next_id d)
             /\ Task.created_at row = Tasks.now d
             /\ Task.title row = Some (trim t)
             /\ Task.author row = Some (trim a)
             /\ (forall p, get body "priority" = JStr p -> p <> "" ->
                   Task.priority row = Some (toLowerCase p))
             /\ (truthy (get body "priority") = false ->
                   Task.priority row = None)).
Proof.
  intros Hv.
  destruct (create_validation_passes E body Hv)
    as ((t & Et & Nt) & (a & Ea & Na) & Hp).
  assert (Hp' : truthy (get body "priority") = false
                \/ exists p, get body "priority" = JStr p /\ p <> "").
  { destruct Hp as [Hp|(p & H1 & H2 & _)]; [now left|right; now exists p]. }
  destruct (create_model_cases body t a Et Ea Hp')
    as [(Td & Nd & Em)|(pm & dm & Em & Hpm & Hdm)].
  { left. repeat split; trivial. unfold post_tasks. rewrite Hv. step_prog.
    rewrite Em. reflexivity. }
  right. eexists t, a, _. split; [exact Et|]. split; [exact Ea|].
  split; [exact Em|].
  assert (Hpost : post_tasks E body
          = Call (Insert [([("title", JStr (trim t));
                            ("author", JStr (trim a))] ++ pm ++ dm
                           ++ spread_value "due_date" (get body "due_date")
                           ++ spread_value "start_date"
                                (get body "start_date"))%list])
              (fun r => try_catch (create_reply r) internal_error)).
  { unfold post_tasks. rewrite Hv. step_prog. rewrite Em. reflexivity. }
  split; [exact Hpost|].
  assert (Tt : truthy (get body "title") = true).
  { rewrite Et. simpl. apply trim_nonempty in Nt.
    apply String.eqb_neq in Nt. now rewrite Nt. }
  assert (Ta : truthy (get body "author") = true).
  { rewrite Ea. simpl. apply trim_nonempty in Na.
    apply String.eqb_neq in Na. now rewrite Na. }
  assert (Hstr : forall p, p <> "" -> truthy (JStr p) = true).
  { intros p Np. simpl. apply String.eqb_neq in Np. now rewrite Np. }
  split.
  { intros k v Hin. cbn [app] in Hin.
    destruct Hin as [H|[H|H]].
    - inversion H; subst. repeat split; trivial; discriminate.
    - inversion H; subst. repeat split; trivial; discriminate.
    - apply in_app_or in H. destruct H as [H|H].
      { destruct Hpm as [[_ ->]|(p & Ep & Np & ->)]; [destruct H|].
        destruct H as [H|[]]. inversion H; subst. rewrite Ep.
        repeat split; auto; discriminate. }
      apply in_app_or in H. destruct H as [H|H].
      { destruct Hdm as [[_ ->]|(s & Es & Ns & ->)]; [destruct H|].
        destruct H as [H|[]]. inversion H; subst. rewrite Es.
        repeat split; auto; discriminate. }
      apply in_app_or in H.
      destruct H as [H|H]; apply spread_value_in in H;
        destruct H as (-> & -> & H); split; trivial;
        now apply truthy_not_null. }
  split; [reflexivity|]. split; [reflexivity|].
  assert (Hprio : forall p, get body "priority" = JStr p -> p <> "" ->
                  pm = [("priority", JStr (toLowerCase p))]).
  { intros p Ep Np. destruct Hpm as [[Tp _]|(p' & Ep' & _ & ->)].
    - rewrite Ep, (Hstr p Np) in Tp. discriminate.
    - congruence. }
  split.
  { intros p Ep Np. rewrite (Hprio p Ep Np). reflexivity. }
  split.
  { intros r row rest He Hd. unfold create_reply. rewrite He, Hd.
    reflexivity. }
  intros B d row Hrow.
  split.
  { rewrite Hpost. rewrite (run_insert_one B d _ row _ Hrow). reflexivity. }
  destruct (set_columns_managed B _ _ _ Hrow) as (Hid & Hca & _).
  split; [exact Hid|]. split; [exact Hca|].
  cbn [app Tasks.set_columns] in Hrow.
  destruct (Tasks.set_column B "title" _ _) as [r1|] eqn:E1; [|discriminate].
  destruct (Tasks.set_column B "author" _ r1) as [r2|] eqn:E2;
    [|discriminate].
  destruct (set_column_text B _ _ _ _ E1) as (T1 & _ & _).
  destruct (set_column_text B _ _ _ _ E2) as (_ & A2 & _).
  destruct (set_column_other B _ _ _ _ E2) as (T2 & _ & P2).
  destruct (set_column_other B _ _ _ _ E1) as (_ & _ & P1).
  assert (Hkeys : forall o, In o (map fst (dm
              ++ spread_value "due_date" (get body "due_date")
              ++ spread_value "start_date" (get body "start_date"))%list) ->
            o = "description" \/ o = "due_date" \/ o = "start_date").
  { intros o Ho. rewrite !map_app in Ho.
    apply in_app_or in Ho. destruct Ho as [Ho|Ho].
    { destruct Hdm as [[_ ->]|(s & _ & _ & ->)]; [destruct Ho|].
      destruct Ho as [<-|[]]. now left. }
    apply in_app_or in Ho. unfold spread_value in Ho.
    destruct Ho as [Ho|Ho];
      match type of Ho with
      | context [if ?b then _ else _] => destruct b
      end; simpl in Ho; intuition. }
  destruct Hpm as [[Tp ->]|(p & Ep & Np & ->)].
  - cbn [app] in Hrow.
    destruct (set_columns_other B _ _ _ Hrow) as (H1 & H2 & H3).
    rewrite H1, H2, H3, T2, A2, P2, T1, P1; try reflexivity;
      try discriminate; try (intros H; apply Hkeys in H;
                             destruct H as [H|[H|H]]; discriminate).
    repeat split.
    intros p Ep Np. rewrite Ep, (Hstr p Np) in Tp. discriminate.
  - cbn [app Tasks.set_columns] in Hrow.
    destruct (Tasks.set_column B "priority" _ r2) as [r3|] eqn:E3;
      [|discriminate].
    destruct (set_column_text B _ _ _ _ E3) as (_ & _ & P3).
    destruct (set_column_other B _ _ _ _ E3) as (T3 & A3 & _).
    destruct (set_columns_other B _ _ _ Hrow) as (H1 & H2 & H3).
    rewrite H1, H2, H3, T3, A3, P3, T2, A2, T1; try reflexivity;
      try discriminate; try (intros H; apply Hkeys in H;
                             destruct H as [H|[H|H]]; discriminate).
    repeat split.
    + intros p' Ep' _. congruence.
    + intros Tp. rewrite Ep, (Hstr p Np) in Tp. discriminate.
Qed.

(** An empty string is falsy, so a field given as the empty string counts
    as not supplied: it is neither checked nor forwarded. *)
Example post_tasks_empty_priority :
  calls (fun _ => failed Tasks.bad_request)
    (post_tasks Sample.engine Sample.empty_priority_body)
  = [Insert [[("title", JStr "t"); ("author", JStr "a")]]].
Proof. reflexivity. Qed.

Lemma post_tasks_forwards_supplied_witness :
  exists model,
    create_model Sample.spec_body = Ret model
    /\ get model "title" = JStr "Write spec"
    /\ get model "priority" = JStr "high"
    /\ get model "description" = JUndefined.
Proof.
  destruct (post_tasks_forwards_supplied Sample.engine Sample.spec_body)
    as [(H & _)|(t & a & model & Et & Ea & Em & _ & _ & Ht & _ & Hp & _)].
  - reflexivity.
  - discriminate H.
  - exists model. split; [exact Em|].
    injection Et as <-. split; [exact Ht|].
    split; [apply (Hp "HIGH"); [reflexivity|discriminate]|].
    injection Em as <-. reflexivity.
Defined.

Example post_tasks_spec_scenario :
  fst (Tasks.run Sample.backend (post_tasks Sample.engine Sample.spec_body)
         Sample.empty_store)
  = Some {| status := 201;
            json := Created "Task created successfully"
                      (Record_ (Task.mkRow "1" (Some "Write spec")
                                  (Some "Ada") (Some "high") None
                                  (Some 1704844800000) (Some 1704067200000)
                                  1704000000000 None)) |}.
Proof. reflexivity. Qed.

(** ** Numbers *)

Lemma round_exact (z : Z) : Z.abs z <= 2 ^ 53 -> round z = Int z.
Proof.
  intros H. unfold round. apply Z.leb_le in H. now rewrite H.
Qed.

Lemma nearest_integer_bounds (n d : Z) :
  n / d <= nearest_integer n d <= n / d + 1.
Proof.
  unfold nearest_integer.
  destruct (2 * (n mod d) <? d); [lia|].
  destruct (d <? 2 * (n mod d)); [lia|].
  destruct (Z.even (n / d)); lia.
Qed.

Lemma nearest_integer_exact (n d : Z) :
  0 < d -> n mod d = 0 -> nearest_integer n d = n / d.
Proof.
  intros Hd H. unfold nearest_integer. rewrite H.
  destruct (Z.ltb_spec (2 * 0) d); [reflexivity|lia].
Qed.

Lemma nearest_integer_up (n d : Z) :
  0 < d -> d < 2 * (n mod d) -> nearest_integer n d = n / d + 1.
Proof.
  intros Hd H. unfold nearest_integer.
  destruct (Z.ltb_spec (2 * (n mod d)) d); [lia|].
  destruct (Z.ltb_spec d (2 * (n mod d))); [reflexivity|lia].
Qed.

Lemma pow2_pos (e : Z) : 0 < 2 ^ Z.max e 0.
Proof. apply Z.pow_pos_nonneg; lia. Qed.

(** [2^E <= x / y] for [E = ratio_log2 x y], without division. *)
Lemma ratio_log2_lower (x y : Z) :
  0 < x -> 0 < y ->
  y * 2 ^ Z.max (ratio_log2 x y) 0 <= x * 2 ^ Z.max (- ratio_log2 x y) 0.
Proof.
  intros Hx Hy. unfold ratio_log2.
  set (s := Z.log2 x - Z.log2 y).
  destruct (Z.leb_spec (y * 2 ^ Z.max s 0) (x * 2 ^ Z.max (- s) 0))
    as [H|H]; [exact H|].
  destruct (Z.log2_spec x Hx) as [Lx _].
  destruct (Z.log2_spec y Hy) as [_ Uy].
  pose proof (Z.log2_nonneg x) as Nx. pose proof (Z.log2_nonneg y) as Ny.
  destruct (Z.le_gt_cases 1 s) as [Hs|Hs].
  - replace (Z.max (s - 1) 0) with (s - 1) by lia.
    replace (Z.max (- (s - 1)) 0) with 0 by lia.
    rewrite Z.pow_0_r, Z.mul_1_r.
    assert (Hp : 2 ^ Z.succ (Z.log2 y) * 2 ^ (s - 1) = 2 ^ Z.log2 x).
    { rewrite <- Z.pow_add_r by lia. f_equal. unfold s. lia. }
    assert (0 < 2 ^ (s - 1)) by (apply Z.pow_pos_nonneg; lia).
    nia.
  - replace (Z.max (s - 1) 0) with 0 by lia.
    replace (Z.max (- (s - 1)) 0) with (1 - s) by lia.
    rewrite Z.pow_0_r, Z.mul_1_r.
    assert (Hp : 2 ^ Z.log2 x * 2 ^ (1 - s) = 2 ^ Z.succ (Z.log2 y)).
    { rewrite <- Z.pow_add_r by lia. f_equal. unfold s. lia. }
    assert (0 < 2 ^ (1 - s)) by (apply Z.pow_pos_nonneg; lia).
    nia.
Qed.

Lemma ratio_log2_range (x y : Z) :
  Z.log2 x - Z.log2 y - 1 <= ratio_log2 x y <= Z.log2 x - Z.log2 y.
Proof. unfold ratio_log2. destruct (_ <=? _); lia. Qed.

Lemma ceil_small (q K m : Z) :
  0 < K -> q * K < m <= q * K + K -> - ((- m) / K) = q + 1.
Proof.
  intros HK H.
  assert (E : (- m) / K = - (q + 1)).
  { symmetry. apply Z.div_unique with (r := (q + 1) * K - m); lia. }
  lia.
Qed.

(** Below 2^53 and for a limit up to 100, the rounding of the quotient
    changes nothing: [Math.ceil(count / limit)] is the exact ceiling. *)
Lemma Math_ceil_div_exact (c l : Z) :
  0 <= c <= 2 ^ 53 -> 1 <= l <= 100 ->
  Math_ceil_div (Int c) (Int l) = Int (- ((- c) / l)).
Proof.
  intros Hc Hl. unfold Math_ceil_div.
  destruct (Z.eqb_spec l 0) as [?|_]; [lia|].
  destruct (Z.eqb_spec c 0) as [->|Nc]; [reflexivity|].
  assert (Pc : 0 < c) by lia. assert (Pl : 0 < l) by lia.
  unfold ceil_quotient, nearest_binary64.
  rewrite (Z.abs_eq c), (Z.abs_eq l) by lia.
  pose proof (ratio_log2_lower c l Pc Pl) as Hlow.
  pose proof (ratio_log2_range c l) as Hr.
  assert (H6 : Z.log2 l <= 6).
  { change 6 with (Z.log2 100). apply Z.log2_le_mono. lia. }
  pose proof (Z.log2_nonneg c) as H0.
  set (E := ratio_log2 c l) in *.
  replace (Z.max (E - 52) (-1074)) with (E - 52) by lia.
  replace (c <? 0) with false by (symmetry; apply Z.ltb_ge; lia).
  replace (l <? 0) with false by (symmetry; apply Z.ltb_ge; lia).
  cbn [Bool.eqb negb].
  pose proof (Z.div_mod c l ltac:(lia)) as Hdm.
  pose proof (Z.mod_pos_bound c l Pl) as Hmod.
  destruct (Z.leb_spec 0 (E - 52)) as [He|He].
  - (* the quotient is at least 2^52: the limit is 1 or 2 *)
    replace (Z.max E 0) with E in Hlow by lia.
    replace (Z.max (- E) 0) with 0 in Hlow by lia.
    rewrite Z.pow_0_r, Z.mul_1_r in Hlow.
    replace (Z.max (- (E - 52)) 0) with 0 by lia.
    replace (Z.max (E - 52) 0) with (E - 52) by lia.
    rewrite Z.pow_0_r, Z.mul_1_r.
    assert (HE : 2 ^ 52 <= 2 ^ E) by (apply Z.pow_le_mono_r; lia).
    assert (E <= 53).
    { destruct (Z.le_gt_cases E 53) as [|G]; [assumption|exfalso].
      assert (2 ^ 54 <= 2 ^ E) by (apply Z.pow_le_mono_r; lia).
      change (2 ^ 54) with 18014398509481984 in *.
      change (2 ^ 53) with 9007199254740992 in *. nia. }
    change (2 ^ 52) with 4503599627370496 in *.
    change (2 ^ 53) with 9007199254740992 in *.
    assert (Cases : (E = 52 /\ l = 1) \/ (c = 9007199254740992
                                          /\ ((E = 52 /\ l = 2)
                                              \/ (E = 53 /\ l = 1)))).
    { assert (E = 52 \/ E = 53) as [G|G] by lia; rewrite G in Hlow.
      - change (2 ^ 52) with 4503599627370496 in *. lia.
      - change (2 ^ 53) with 9007199254740992 in *. lia. }
    destruct Cases as [[E1 E2]|[E1 [[E2 E3]|[E2 E3]]]].
    2,3: clearbody E; subst; vm_compute; reflexivity.
    rewrite E1, E2. change (52 - 52) with 0. rewrite Z.pow_0_r, !Z.mul_1_r.
    rewrite nearest_integer_exact by (try lia; apply Z.mod_1_r).
    rewrite !Z.div_1_r.
    destruct (Z.leb_spec (2 ^ 1024) c) as [G|_].
    { exfalso. assert (2 ^ 53 <= 2 ^ 1024) by (apply Z.pow_le_mono_r; lia).
      change (2 ^ 53) with 9007199254740992 in *. lia. }
    f_equal. lia.
  - (* the quotient is below 2^52 *)
    replace (Z.max (- (E - 52)) 0) with (52 - E) by lia.
    replace (Z.max (E - 52) 0) with 0 by lia.
    replace (- (E - 52)) with (52 - E) by lia.
    rewrite Z.pow_0_r, Z.mul_1_r.
    set (K := 2 ^ (52 - E)).
    assert (PK : 0 < K) by (apply Z.pow_pos_nonneg; lia).
    assert (HK : l * 2 ^ 52 <= c * K).
    { unfold K. destruct (Z.le_gt_cases 0 E) as [G|G].
      - replace (Z.max E 0) with E in Hlow by lia.
        replace (Z.max (- E) 0) with 0 in Hlow by lia.
        rewrite Z.pow_0_r, Z.mul_1_r in Hlow.
        assert (Hp : 2 ^ E * 2 ^ (52 - E) = 2 ^ 52).
        { rewrite <- Z.pow_add_r by lia. f_equal. lia. }
        assert (0 < 2 ^ (52 - E)) by (apply Z.pow_pos_nonneg; lia).
        nia.
      - replace (Z.max E 0) with 0 in Hlow by lia.
        replace (Z.max (- E) 0) with (- E) in Hlow by lia.
        rewrite Z.pow_0_r, Z.mul_1_r in Hlow.
        assert (Hp : 2 ^ (- E) * 2 ^ 52 = 2 ^ (52 - E)).
        { rewrite <- Z.pow_add_r by lia. f_equal. lia. }
        nia. }
    assert (HK2 : 2 <= K).
    { unfold K. change 2 with (2 ^ 1) at 1. apply Z.pow_le_mono_r; lia. }
    change (2 ^ 52) with 4503599627370496 in *.
    change (2 ^ 53) with 9007199254740992 in *.
    set (q := c / l) in *. set (r := c mod l) in *. clearbody q r.
    assert (Hdiv : (c * K) / l = q * K + (r * K) / l
                   /\ (c * K) mod l = (r * K) mod l).
    { replace (c * K) with (r * K + (q * K) * l) by nia.
      rewrite Z.div_add, Z.mod_add by lia. lia. }
    destruct Hdiv as [Hd Hm].
    pose proof (nearest_integer_bounds (c * K) l) as Hb.
    destruct (Z.eq_dec r 0) as [R0|R0].
    + rewrite nearest_integer_exact.
      * rewrite Hd, R0. cbn [Z.mul]. rewrite Z.div_0_l, Z.add_0_r by lia.
        f_equal. replace (- (q * K)) with ((- q) * K) by lia.
        rewrite Z.div_mul by lia.
        replace (- c) with ((- q) * l) by lia.
        rewrite Z.div_mul by lia. reflexivity.
      * lia.
      * rewrite Hm, R0. cbn [Z.mul]. apply Z.mod_0_l. lia.
    + f_equal.
      assert (Hq1 : - ((- c) / l) = q + 1).
      { apply ceil_small; lia. }
      rewrite Hq1. apply ceil_small; [exact PK|].
      assert (Hrk : (r * K) / l <= K - 1).
      { apply Z.lt_succ_r. replace (Z.succ (K - 1)) with K by lia.
        apply Z.div_lt_upper_bound; nia. }
      split; [|lia].
      destruct (Z.eq_dec ((r * K) / l) 0) as [Z0|Z0].
      * rewrite nearest_integer_up; [lia|lia|].
        rewrite Hm. rewrite Z.mod_eq by lia. rewrite Z0, Z.mul_0_r, Z.sub_0_r.
        assert (l <= 2 * K) by nia.
        destruct (Z.eq_dec (2 * (r * K)) l) as [T|T]; [exfalso|nia].
        assert (R1 : r = 1) by nia.
        assert (C : c = 9007199254740992) by nia.
        assert (P : 9007199254740992 = 2 * (K * q) + 1) by nia.
        lia.
      * pose proof (Z.div_pos (r * K) l ltac:(nia) Pl). lia.
Qed.

Lemma Math_ceil_div_spec (c l : Z) :
  0 <= c <= 2 ^ 53 -> 1 <= l <= 100 ->
  (- ((- c) / l) - 1) * l < c <= - ((- c) / l) * l.
Proof.
  intros _ Hl.
  pose proof (Z.div_mod (- c) l ltac:(lia)) as H.
  pose proof (Z.mod_pos_bound (- c) l ltac:(lia)) as H'. nia.
Qed.

Ltac number_cases :=
  cbn [or_default Math_max Math_min leb];
  repeat (match goal with
          | |- context [?a <=? ?b] => destruct (Z.leb_spec a b)
          end; cbn [or_default Math_max Math_min leb]).

(** [Math.min(Math.max(n || dflt, 1), 100)] is an integer from 1 to 100
    whatever [n] is. *)
Lemma pageLimit_value (dflt : Z) (n : number) :
  exists l,
    Math_min (Math_max (or_default n dflt) (Int 1)) (Int 100) = Int l
    /\ 1 <= l <= 100
    /\ (n = NaN \/ n = Int 0 -> l = Z.min (Z.max dflt 1) 100)
    /\ (forall k, n = Int k -> k <> 0 -> l = Z.min (Z.max k 1) 100).
Proof.
  destruct n as [|[|]|[|k|k]]; number_cases; eexists;
    (split; [reflexivity|]); (split; [lia|]);
    (split; [intros [E|E]; try discriminate E; lia|]);
    intros k' E N; inversion E; subst; try contradiction; lia.
Qed.

(** [Math.max(n || 1, 1)] is an integer from 1 on, or [Infinity]. *)
Lemma pageNumber_value (n : number) :
  (n = Inf false /\ Math_max (or_default n 1) (Int 1) = Inf false)
  \/ exists p,
       Math_max (or_default n 1) (Int 1) = Int p /\ 1 <= p
       /\ (n = NaN -> p = 1)
       /\ (forall k, n = Int k -> p = Z.max k 1).
Proof.
  destruct n as [|[|]|[|k|k]]; number_cases;
    try (left; split; reflexivity);
    right; eexists; (split; [reflexivity|]); (split; [lia|]);
    (split; [intros E; try discriminate E; lia|]);
    intros k' E; inversion E; subst; lia.
Qed.

Lemma pageLimit_cases (dflt : Z) (v : jsval) :
  (ToString v = None /\ pageLimit dflt v = Throw)
  \/ exists n l,
       parseInt v = Some n /\ pageLimit dflt v = Ret (Int l)
       /\ 1 <= l <= 100
       /\ (n = NaN \/ n = Int 0 -> l = Z.min (Z.max dflt 1) 100)
       /\ (forall k, n = Int k -> k <> 0 -> l = Z.min (Z.max k 1) 100).
Proof.
  unfold pageLimit, parseInt. destruct (ToString v) as [s|]; [|now left].
  right. cbn [option_map may_throw bind].
  destruct (pageLimit_value dflt (parseInt_string s)) as (l & -> & H).
  now exists (parseInt_string s), l.
Qed.

Lemma pageNumber_cases (v : jsval) :
  (ToString v = None /\ pageNumber v = Throw)
  \/ (parseInt v = Some (Inf false) /\ pageNumber v = Ret (Inf false))
  \/ exists n p,
       parseInt v = Some n /\ pageNumber v = Ret (Int p) /\ 1 <= p
       /\ (n = NaN -> p = 1)
       /\ (forall k, n = Int k -> p = Z.max k 1).
Proof.
  unfold pageNumber, parseInt. destruct (ToString v) as [s|]; [|now left].
  right. cbn [option_map may_throw bind].
  destruct (pageNumber_value (parseInt_string s)) as [[-> ->]|(p & -> & H)].
  - now left.
  - right. now exists (parseInt_string s), p.
Qed.

(** As long as [page * limit] does not pass 2^53, the window is computed
    without rounding. *)
Lemma window_exact (page limit : Z) :
  1 <= page -> 1 <= limit -> page * limit <= 2 ^ 53 ->
  window_from (Int page) (Int limit) = Int ((page - 1) * limit)
  /\ window_to (Int page) (Int limit) = Int ((page - 1) * limit + limit - 1).
Proof.
  intros Hp Hl Hb. unfold window_to, window_from, sub, add, mul.
  cbn [opp Z.opp].
  rewrite (round_exact (page + -1)) by nia.
  rewrite (round_exact ((page + -1) * limit)) by nia.
  rewrite (round_exact ((page + -1) * limit + limit)) by nia.
  rewrite round_exact by nia.
  split; f_equal; lia.
Qed.

Lemma filter_all {A : Type} (f : A -> bool) (l : list A) :
  (forall x, f x = true) -> List.filter f l = l.
Proof.
  intros H. induction l as [|x l IH]; simpl; [reflexivity|].
  now rewrite H, IH.
Qed.

Lemma window_length (from to : Z) (l : list Task.row) :
  Z.of_nat (List.length (Tasks.window from to l)) <= Z.max 0 (to - from + 1).
Proof.
  unfold Tasks.window. rewrite length_firstn. lia.
Qed.

Lemma window_beyond (from to : Z) (l : list Task.row) :
  Z.of_nat (List.length l) <= from -> Tasks.window from to l = [].
Proof.
  intros H. unfold Tasks.window. rewrite skipn_all2 by lia.
  apply firstn_nil.
Qed.

Lemma get_tasks_read (query : obj) (limit page : number) :
  pageLimit 10 (get query "limit") = Ret limit ->
  pageNumber (get query "page") = Ret page ->
  get_tasks query
  = Call (Select (select_all [] None (window_from page limit)
                    (window_to page limit)))
      (fun r =>
         try_catch
           match error r with
           | Some e => Ret (store_failure "Failed to fetch tasks" e)
           | None => Ret {| status := 200;
                           json := Listing (data r)
                                     (page_info page limit (count r)) |}
           end
           internal_error).
Proof. intros Hl Hp. unfold get_tasks. rewrite Hl, Hp. reflexivity. Qed.

(** C2 (as amended).  GET /tasks, when [limit] and [page] convert to
    strings (so that [parseInt] returns), the effective page is finite,
    [page * limit] does not pass 2^53 and the table holds at most 2^53
    rows: the effective limit lies in [1,100], is 10 when [limit] is
    absent or not numeric (or parses to 0, which is falsy) and the parsed
    number clamped to [1,100] otherwise; the effective page is at least 1,
    is 1 when [page] is absent, not numeric or 0, and the parsed number
    otherwise; the only store call is the unfiltered read of the window
    [(page-1)*limit, (page-1)*limit + limit - 1]; against the reference
    store the answer is 200, holds the rows at these positions (at most
    [limit] of them), the exact number of rows of the table as [total],
    and as [totalPages] the least number of pages of [limit] rows that
    cover [total]; beyond [totalPages] the data is the empty array. *)
Theorem get_tasks_pagination (B : Tasks.backend) (query : obj) (d : Tasks.db)
    (limit page : Z) :
  pageLimit 10 (get query "limit") = Ret (Int limit) ->
  pageNumber (get query "page") = Ret (Int page) ->
  page * limit <= 2 ^ 53 ->
  Z.of_nat (List.length (Tasks.rows d)) <= 2 ^ 53 ->
  let from := (page - 1) * limit in
  let to := (page - 1) * limit + limit - 1 in
  let total := Z.of_nat (List.length (Tasks.rows d)) in
  let pages := - ((- total) / limit) in
  let data := firstn (Z.to_nat limit) (skipn (Z.to_nat from) (Tasks.rows d)) in
  (1 <= limit <= 100
   /\ (get query "limit" = JUndefined -> limit = 10)
   /\ (parseInt (get query "limit") = Some NaN -> limit = 10)
   /\ (parseInt (get query "limit") = Some (Int 0) -> limit = 10)
   /\ (forall n, parseInt (get query "limit") = Some (Int n) -> n <> 0 ->
         limit = Z.min (Z.max n 1) 100))
  /\ (1 <= page
      /\ (get query "page" = JUndefined -> page = 1)
      /\ (parseInt (get query "page") = Some NaN -> page = 1)
      /\ (forall n, parseInt (get query "page") = Some (Int n) ->
            page = Z.max n 1))
  /\ (forall answer,
        calls answer (get_tasks query)
        = [Select {| columns := "*"; count_exact := true;
                     Store.filters := []; Store.order := None;
                     range := Some (Int from, Int to); single := false |}])
  /\ Tasks.run B (get_tasks query) d
     = (Some {| status := 200;
                json := Listing (Array data)
                          {| Http.page := Int page; Http.limit := Int limit;
                             total := Some total;
                             totalPages := Int pages |} |},
        d)
  /\ Z.of_nat (List.length data) <= limit
  /\ (pages - 1) * limit < total <= pages * limit
  /\ (pages < page -> data = []).
Proof.
  intros Hl Hp Hb Hn from to total pages data.
  destruct (pageLimit_cases 10 (get query "limit"))
    as [[_ H]|(n & l & Pn & H & Rl & Dl & Kl)]; rewrite Hl in H;
    [discriminate|]. injection H as <-.
  destruct (pageNumber_cases (get query "page"))
    as [[_ H]|[[_ H]|(m & p & Pm & H & Rp & Dp & Kp)]]; rewrite Hp in H;
    try discriminate. injection H as <-.
  destruct (window_exact page limit Rp ltac:(lia) Hb) as [Wf Wt].
  fold from in Wf. fold to in Wt.
  assert (Ht : 0 <= total <= 2 ^ 53) by (unfold total; lia).
  pose proof (Math_ceil_div_spec total limit Ht Rl) as Hc. fold pages in Hc.
  split.
  { split; [exact Rl|]. repeat split.
    - intros E. rewrite E in Pn. injection Pn as <-.
      exact (Dl (or_introl eq_refl)).
    - intros E. rewrite E in Pn. injection Pn as <-.
      exact (Dl (or_introl eq_refl)).
    - intros E. rewrite E in Pn. injection Pn as <-.
      exact (Dl (or_intror eq_refl)).
    - intros k E Nk. rewrite E in Pn. injection Pn as <-.
      now apply Kl. }
  split.
  { split; [exact Rp|]. repeat split.
    - intros E. rewrite E in Pm. injection Pm as <-. now apply Dp.
    - intros E. rewrite E in Pm. injection Pm as <-. now apply Dp.
    - intros k E. rewrite E in Pm. injection Pm as <-. now apply Kp. }
  split.
  { intros answer. rewrite (get_tasks_read query _ _ Hl Hp), Wf, Wt.
    cbn [calls]. destruct (error (answer _)); reflexivity. }
  split.
  { rewrite (get_tasks_read query _ _ Hl Hp), Wf, Wt.
    cbn [Tasks.run Tasks.exec]. unfold Tasks.select, select_all.
    cbn [Store.filters Store.order range single count_exact forallb
         Tasks.order_ok Tasks.range_ok andb Tasks.ordered Tasks.windowed
         Tasks.matches error data count try_catch Tasks.run].
    rewrite filter_all by reflexivity.
    unfold Tasks.window, page_info.
    replace (to - from + 1) with limit by (unfold to, from; lia).
    fold total. rewrite (Math_ceil_div_exact total limit Ht Rl).
    reflexivity. }
  split.
  { unfold data. rewrite length_firstn. lia. }
  split; [exact Hc|].
  intros Hbeyond. unfold data. rewrite skipn_all2; [apply firstn_nil|].
  unfold from. fold total. nia.
Qed.

Lemma get_tasks_pagination_witness :
  Tasks.run Sample.backend
    (get_tasks [("limit", JStr "2"); ("page", JStr "2")]) Sample.store
  = (Some {| status := 200;
             json := Listing (Array [Sample.task3])
                       {| Http.page := Int 2; Http.limit := Int 2;
                          total := Some 3; totalPages := Int 2 |} |},
     Sample.store).
Proof.
  destruct (get_tasks_pagination Sample.backend
              [("limit", JStr "2"); ("page", JStr "2")] Sample.store 2 2)
    as (_ & _ & _ & H & _).
  - reflexivity.
  - reflexivity.
  - vm_compute. discriminate.
  - vm_compute. discriminate.
  - exact H.
Defined.

(** C2 as stated fails at [limit=3] and [page=9007199254740993]: the
    page is read as 9007199254740992, and the window that is asked for
    runs from 27021597764222972 to 27021597764222976: it does not start
    at [(page-1)*limit] and is five rows wide. *)
Lemma get_tasks_large_page_window :
  pageLimit 10 (get Sample.large_page_query "limit") = Ret (Int 3)
  /\ pageNumber (get Sample.large_page_query "page")
     = Ret (Int 9007199254740992)
  /\ (forall answer,
        calls answer (get_tasks Sample.large_page_query)
        = [Select (select_all [] None (Int 27021597764222972)
                     (Int 27021597764222976))])
  /\ 27021597764222972 <> (9007199254740992 - 1) * 3
  /\ 27021597764222976 - 27021597764222972 + 1 = 5.
Proof.
  assert (Hl : pageLimit 10 (get Sample.large_page_query "limit")
               = Ret (Int 3)) by (vm_compute; reflexivity).
  assert (Hp : pageNumber (get Sample.large_page_query "page")
               = Ret (Int 9007199254740992)) by (vm_compute; reflexivity).
  split; [exact Hl|]. split; [exact Hp|]. split; [|split; [discriminate|reflexivity]].
  intros answer. rewrite (get_tasks_read _ _ _ Hl Hp). cbn [calls].
  replace (window_from (Int 9007199254740992) (Int 3))
    with (Int 27021597764222972) by (vm_compute; reflexivity).
  replace (window_to (Int 9007199254740992) (Int 3))
    with (Int 27021597764222976) by (vm_compute; reflexivity).
  destruct (error (answer _)); reflexivity.
Qed.

Example get_tasks_second_page :
  fst (Tasks.run Sample.backend
         (get_tasks [("limit", JStr "2"); ("page", JStr "2")]) Sample.store)
  = Some {| status := 200;
            json := Listing (Array [Sample.task3])
                      {| Http.page := Int 2; Http.limit := Int 2;
                         total := Some 3; totalPages := Int 2 |} |}.
Proof. vm_compute. reflexivity. Qed.

Example get_tasks_beyond_last_page :
  fst (Tasks.run Sample.backend
         (get_tasks [("limit", JStr "2"); ("page", JStr "7")]) Sample.store)
  = Some {| status := 200;
            json := Listing (Array [])
                      {| Http.page := Int 7; Http.limit := Int 2;
                         total := Some 3; totalPages := Int 2 |} |}.
Proof. vm_compute. reflexivity. Qed.

Example get_tasks_limit_zero :
  pageLimit 10 (JStr "0") = Ret (Int 10)
  /\ pageLimit 10 (JStr "-3") = Ret (Int 1)
  /\ pageLimit 10 (JStr "250") = Ret (Int 100)
  /\ pageLimit 10 (JStr "abc") = Ret (Int 10)
  /\ pageNumber (JStr "0") = Ret (Int 1)
  /\ pageNumber (JStr "-2") = Ret (Int 1).
Proof. repeat split; reflexivity. Qed.

(** The two [parseInt] calls of GET /tasks are outside its [try]: a
    [limit] without a string form ends the handler in an exception that
    nothing catches, and no response is sent. *)
Example get_tasks_unanswered :
  forall answer,
    outcome answer (get_tasks [("limit", JObject None)]) = None
    /\ calls answer (get_tasks [("limit", JObject None)]) = [].
Proof. intros answer. split; reflexivity. Qed.

(** ** Reads and writes by identifier *)

Lemma matches_eq_id (B : Tasks.backend) (id : string) (r : Task.row) :
  Tasks.matches B [Eq "id" id] r = String.eqb (Task.id r) id.
Proof.
  unfold Tasks.matches. cbn. now rewrite andb_true_r.
Qed.

Lemma filter_ext_in_bool {A : Type} (f g : A -> bool) (l : list A) :
  (forall x, f x = g x) -> List.filter f l = List.filter g l.
Proof. intros H. apply filter_ext. exact H. Qed.

Lemma filter_id_absent (id : string) (l : list Task.row) :
  (forall r, In r l -> Task.id r <> id) ->
  List.filter (fun r => String.eqb (Task.id r) id) l = [].
Proof.
  induction l as [|x l IH]; simpl; intros H; [reflexivity|].
  destruct (String.eqb_spec (Task.id x) id) as [E|_].
  - now elim (H x (or_introl eq_refl)).
  - apply IH. intros r Hr. apply H. now right.
Qed.

Lemma filter_id_present (r : Task.row) (l : list Task.row) :
  NoDup (map Task.id l) -> In r l ->
  List.filter (fun x => String.eqb (Task.id x) (Task.id r)) l = [r].
Proof.
  induction l as [|x l IH]; simpl; intros Hnd Hin; [destruct Hin|].
  inversion Hnd as [|? ? Hx Hl]; subst.
  destruct Hin as [->|Hin].
  - rewrite String.eqb_refl. f_equal. apply filter_id_absent.
    intros y Hy E. apply Hx. rewrite <- E. now apply in_map.
  - destruct (String.eqb_spec (Task.id x) (Task.id r)) as [E|_].
    + exfalso. apply Hx. rewrite E. now apply in_map.
    + now apply IH.
Qed.

Lemma select_by_id_absent (B : Tasks.backend) (cols id : string)
    (d : Tasks.db) :
  (forall r, In r (Tasks.rows d) -> Task.id r <> id) ->
  Tasks.select B (select_by_id cols id) d = failed Tasks.not_single.
Proof.
  intros H. unfold Tasks.select, select_by_id. cbn.
  rewrite (filter_ext_in_bool _ _ _ (matches_eq_id B id)).
  now rewrite filter_id_absent.
Qed.

Lemma select_by_id_present (B : Tasks.backend) (cols : string)
    (d : Tasks.db) (r : Task.row) :
  Tasks.wf d -> In r (Tasks.rows d) ->
  Tasks.select B (select_by_id cols (Task.id r)) d
  = {| data := Record_ r; error := None; count := None |}.
Proof.
  intros Hwf Hin. unfold Tasks.select, select_by_id. cbn.
  rewrite (filter_ext_in_bool _ _ _ (matches_eq_id B (Task.id r))).
  now rewrite filter_id_present.
Qed.

Lemma id_nonempty (id : string) : id <> "" -> String.eqb id "" = false.
Proof. intros H. now apply String.eqb_neq. Qed.

(** GET /tasks/:id answers any store error, and so the error of a
    single-row read that found no row, by 500 with the store's message as
    [error]; in the reference store a read of an identifier that no row
    carries is answered that way and leaves the store as it was. *)
Lemma get_tasks_id_store_error (B : Tasks.backend) (d : Tasks.db)
    (id : string) :
  id <> "" ->
  (forall answer e,
     error (answer (Select (select_by_id "*" id))) = Some e ->
     outcome answer (get_tasks_id id)
     = Some (error_response 500 (message e)))
  /\ ((forall r, In r (Tasks.rows d) -> Task.id r <> id) ->
      Tasks.run B (get_tasks_id id) d
      = (Some (error_response 500 (message Tasks.not_single)), d)).
Proof.
  intros Hid. unfold get_tasks_id. rewrite (id_nonempty id Hid). split.
  - intros answer e He. cbn [outcome]. now rewrite He.
  - intros Habs. cbn [Tasks.run Tasks.exec].
    now rewrite select_by_id_absent.
Qed.

(** C4 fails at GET /tasks/42 on a table where no row has the identifier
    42: the single-row read comes back with the store's error for an
    empty result, and the answer is 500 with that message, the status of
    a store failure, and not the 404 of NotFound; PATCH and DELETE answer
    the same empty read by 404. *)
Theorem get_tasks_id_not_404 :
  Tasks.run Sample.backend (get_tasks_id "42") Sample.store
  = (Some (error_response 500
             "JSON object requested, multiple (or no) rows returned"),
     Sample.store)
  /\ fst (Tasks.run Sample.backend (delete_tasks_id "42") Sample.store)
     = Some (error_response 404 "Task not found")
  /\ fst (Tasks.run Sample.backend (patch_tasks_id "42" []) Sample.store)
     = Some (error_response 404 "Task not found").
Proof. repeat split; reflexivity. Qed.

Example get_tasks_id_found :
  fst (Tasks.run Sample.backend (get_tasks_id "2") Sample.store)
  = Some {| status := 200; json := Data (Record_ Sample.task2) |}.
Proof. reflexivity. Qed.

Lemma map_option_map {A B : Type} (f : A -> option B) (g : A -> B)
    (l : list A) :
  (forall x, In x l -> f x = Some (g x)) ->
  Tasks.map_option f l = Some (map g l).
Proof.
  induction l as [|x l IH]; simpl; intros H; [reflexivity|].
  rewrite (H x (or_introl eq_refl)), IH; [reflexivity|].
  intros y Hy. apply H. now right.
Qed.

Lemma same_id_same_row (l : list Task.row) (x r : Task.row) :
  NoDup (map Task.id l) -> In x l -> In r l -> Task.id x = Task.id r -> x = r.
Proof.
  induction l as [|y l IH]; simpl; intros Hnd Hx Hr E; [destruct Hx|].
  inversion Hnd as [|? ? Hy Hl]; subst.
  destruct Hx as [->|Hx], Hr as [->|Hr]; trivial.
  - exfalso. apply Hy. rewrite E. now apply in_map.
  - exfalso. apply Hy. rewrite <- E. now apply in_map.
  - now apply IH.
Qed.

Lemma touch_id (t : Z) (r : Task.row) : Task.id (Tasks.touch t r) = Task.id r.
Proof. now destruct r. Qed.

Lemma value_ok_id (B : Tasks.backend) (v : string) :
  Tasks.value_ok B "id" v = true.
Proof. reflexivity. Qed.

Lemma run_call {A : Type} (B : Tasks.backend) (c : call)
    (k : reply -> prog A) (d : Tasks.db) :
  Tasks.run B (Call c k) d
  = Tasks.run B (k (fst (Tasks.exec B c d))) (snd (Tasks.exec B c d)).
Proof. cbn [Tasks.run]. now destruct (Tasks.exec B c d). Qed.

Lemma run_select {A : Type} (B : Tasks.backend) (q : select_query)
    (k : reply -> prog A) (d : Tasks.db) :
  Tasks.run B (Call (Select q) k) d = Tasks.run B (k (Tasks.select B q d)) d.
Proof. reflexivity. Qed.

Lemma update_by_id (B : Tasks.backend) (d : Tasks.db) (updates : obj)
    (r r' : Task.row) :
  Tasks.wf d -> In r (Tasks.rows d) ->
  Tasks.set_columns B updates r = Some r' ->
  Tasks.exec B (Update updates [Eq "id" (Task.id r)]) d
  = ({| data := Array [Tasks.touch (Tasks.now d) r']; error := None;
        count := None |},
     {| Tasks.rows :=
          map (fun x => if String.eqb (Task.id x) (Task.id r)
                        then Tasks.touch (Tasks.now d) r' else x)
            (Tasks.rows d);
        Tasks.next_id := Tasks.next_id d;
        Tasks.now := Tasks.now d + 1 |}).
Proof.
  intros Hwf Hin Hset.
  pose proof (set_columns_managed B _ _ _ Hset) as (Hid & _).
  set (g := fun x => if String.eqb (Task.id x) (Task.id r)
                     then Tasks.touch (Tasks.now d) r' else x).
  assert (Hrows : Tasks.update_rows B updates [Eq "id" (Task.id r)]
                    (Tasks.now d) (Tasks.rows d)
                  = Some (map g (Tasks.rows d))).
  { unfold Tasks.update_rows. apply map_option_map. intros x Hx.
    rewrite matches_eq_id. unfold g.
    destruct (String.eqb_spec (Task.id x) (Task.id r)) as [E|_];
      [|reflexivity].
    rewrite (same_id_same_row _ x r Hwf Hx Hin E), Hset. reflexivity. }
  assert (Hids : map Task.id (map g (Tasks.rows d))
                 = map Task.id (Tasks.rows d)).
  { rewrite map_map. apply map_ext. intros x. unfold g.
    destruct (String.eqb_spec (Task.id x) (Task.id r)) as [E|_];
      [|reflexivity].
    now rewrite touch_id, Hid, E. }
  assert (Hdata : List.filter (Tasks.matches B [Eq "id" (Task.id r)])
                    (map g (Tasks.rows d))
                  = [Tasks.touch (Tasks.now d) r']).
  { rewrite (filter_ext_in_bool _ _ _ (matches_eq_id B (Task.id r))).
    rewrite (filter_ext_in_bool _
               (fun x => String.eqb (Task.id x)
                           (Task.id (Tasks.touch (Tasks.now d) r'))))
      by (intros x; now rewrite touch_id, Hid).
    apply filter_id_present.
    - rewrite Hids. exact Hwf.
    - replace (Tasks.touch (Tasks.now d) r') with (g r)
        by (unfold g; now rewrite String.eqb_refl).
      now apply in_map. }
  cbn [Tasks.exec forallb Tasks.filter_ok]. rewrite value_ok_id.
  cbn [andb]. rewrite Hrows, Hdata. reflexivity.
Qed.

Lemma delete_by_id (B : Tasks.backend) (d : Tasks.db) (r : Task.row) :
  Tasks.wf d -> In r (Tasks.rows d) ->
  Tasks.exec B (Delete [Eq "id" (Task.id r)]) d
  = ({| data := Array [r]; error := None; count := None |},
     {| Tasks.rows :=
          List.filter (fun x => negb (String.eqb (Task.id x) (Task.id r)))
            (Tasks.rows d);
        Tasks.next_id := Tasks.next_id d;
        Tasks.now := Tasks.now d + 1 |}).
Proof.
  intros Hwf Hin.
  cbn [Tasks.exec forallb Tasks.filter_ok]. rewrite value_ok_id.
  cbn [andb].
  rewrite (filter_ext_in_bool _ _ _ (matches_eq_id B (Task.id r))).
  rewrite (filter_id_present r _ Hwf Hin).
  f_equal. f_equal. apply filter_ext. intros x.
  now rewrite matches_eq_id.
Qed.

(** C8.  PATCH /tasks/:id first reads the row by its identifier.  When
    that read comes back with an error the answer is 404 and no other call
    is made, so nothing is written; otherwise the update call follows, and
    when it succeeds the answer is 200 with the first row it returned.  In
    the reference store: when no row carries the identifier the answer is
    404 and the store is left as it was; when a row does and the store
    accepts the new values, that row is rewritten (the others are kept)
    and the answer is 200 with the rewritten row. *)
Theorem patch_tasks_id_checks_first (B : Tasks.backend) (d : Tasks.db)
    (id : string) (updates : obj) :
  id <> "" ->
  (forall answer,
     calls answer (patch_tasks_id id updates)
     = Select (select_by_id "id" id)
       :: match error (answer (Select (select_by_id "id" id))) with
          | Some _ => []
          | None => [Update updates [Eq "id" id]]
          end)
  /\ (forall answer e,
        error (answer (Select (select_by_id "id" id))) = Some e ->
        outcome answer (patch_tasks_id id updates)
        = Some (error_response 404 "Task not found"))
  /\ (forall answer row rest,
        error (answer (Select (select_by_id "id" id))) = None ->
        error (answer (Update updates [Eq "id" id])) = None ->
        data (answer (Update updates [Eq "id" id])) = Array (row :: rest) ->
        outcome answer (patch_tasks_id id updates)
        = Some {| status := 200; json := Data (Record_ row) |})
  /\ ((forall r, In r (Tasks.rows d) -> Task.id r <> id) ->
      Tasks.run B (patch_tasks_id id updates) d
      = (Some (error_response 404 "Task not found"), d))
  /\ (forall r r',
        Tasks.wf d -> In r (Tasks.rows d) -> Task.id r = id ->
        Tasks.set_columns B updates r = Some r' ->
        Tasks.run B (patch_tasks_id id updates) d
        = (Some {| status := 200;
                   json := Data (Record_ (Tasks.touch (Tasks.now d) r')) |},
           {| Tasks.rows :=
                map (fun x => if String.eqb (Task.id x) id
                              then Tasks.touch (Tasks.now d) r' else x)
                  (Tasks.rows d);
              Tasks.next_id := Tasks.next_id d;
              Tasks.now := Tasks.now d + 1 |})).
Proof.
  intros Hid. unfold patch_tasks_id. rewrite (id_nonempty id Hid).
  split; [|split; [|split; [|split]]].
  - intros answer. cbn [calls].
    destruct (error (answer (Select (select_by_id "id" id)))); cbn [calls].
    + reflexivity.
    + destruct (error (answer (Update updates [Eq "id" id])));
        [reflexivity|].
      destruct (data (answer (Update updates [Eq "id" id])))
        as [| | |[|]]; reflexivity.
  - intros answer e He. cbn [outcome]. now rewrite He.
  - intros answer row rest He1 He2 Hd. cbn [outcome]. rewrite He1.
    cbn [outcome]. now rewrite He2, Hd.
  - intros Habs. cbn [Tasks.run Tasks.exec].
    now rewrite select_by_id_absent.
  - intros r r' Hwf Hin <- Hset. rewrite run_select.
    rewrite (select_by_id_present B "id" d r Hwf Hin). cbn [error].
    rewrite run_call, (update_by_id B d updates r r' Hwf Hin Hset).
    reflexivity.
Qed.

Lemma sample_store_wf : Tasks.wf Sample.store.
Proof.
  unfold Tasks.wf. simpl.
  repeat constructor; simpl; intuition discriminate.
Qed.

Lemma patch_tasks_id_checks_first_witness :
  fst (Tasks.run Sample.backend
         (patch_tasks_id "2" [("description", JStr "done")]) Sample.store)
  = Some {| status := 200;
            json := Data (Record_
                      (Task.mkRow "2" (Some "axxb") (Some "Bob") None
                         (Some "done") None None 1704000001000
                         (Some 1704000003000))) |}.
Proof.
  destruct (patch_tasks_id_checks_first Sample.backend Sample.store "2"
              [("description", JStr "done")]) as (_ & _ & _ & _ & H).
  - discriminate.
  - rewrite (H Sample.task2 _ sample_store_wf
               (or_intror (or_introl eq_refl)) eq_refl eq_refl).
    reflexivity.
Defined.

(** DELETE /tasks/:id first reads the row by its identifier: when that
    read comes back with an error the answer is 404 and no delete call is
    made; otherwise the delete call follows and the answer is 200 with
    the first row it returned.  In the reference store: when no row
    carries the identifier the answer is 404 and the store is left as it
    was; when a row does, exactly that row is removed and the answer is
    200 with the row as it was.  Afterwards no row carries the
    identifier: a second DELETE answers 404, and GET /tasks/:id answers
    the empty read as it answers every store error. *)
Lemma delete_tasks_id_removes (B : Tasks.backend) (d : Tasks.db)
    (id : string) :
  id <> "" ->
  (forall answer,
     calls answer (delete_tasks_id id)
     = Select (select_by_id "id" id)
       :: match error (answer (Select (select_by_id "id" id))) with
          | Some _ => []
          | None => [Delete [Eq "id" id]]
          end)
  /\ (forall answer e,
        error (answer (Select (select_by_id "id" id))) = Some e ->
        outcome answer (delete_tasks_id id)
        = Some (error_response 404 "Task not found"))
  /\ (forall answer row rest,
        error (answer (Select (select_by_id "id" id))) = None ->
        error (answer (Delete [Eq "id" id])) = None ->
        data (answer (Delete [Eq "id" id])) = Array (row :: rest) ->
        outcome answer (delete_tasks_id id)
        = Some {| status := 200; json := Data (Record_ row) |})
  /\ ((forall r, In r (Tasks.rows d) -> Task.id r <> id) ->
      Tasks.run B (delete_tasks_id id) d
      = (Some (error_response 404 "Task not found"), d))
  /\ (forall r,
        Tasks.wf d -> In r (Tasks.rows d) -> Task.id r = id ->
        exists d',
          Tasks.run B (delete_tasks_id id) d
          = (Some {| status := 200; json := Data (Record_ r) |}, d')
          /\ (forall x, In x (Tasks.rows d')
                        <-> In x (Tasks.rows d) /\ x <> r)
          /\ (forall x, In x (Tasks.rows d') -> Task.id x <> id)
          /\ fst (Tasks.run B (get_tasks_id id) d')
             = Some (error_response 500 (message Tasks.not_single))
          /\ fst (Tasks.run B (delete_tasks_id id) d')
             = Some (error_response 404 "Task not found")).
Proof.
  intros Hid. split; [|split; [|split; [|split]]].
  - intros answer. unfold delete_tasks_id. rewrite (id_nonempty id Hid).
    cbn [calls].
    destruct (error (answer (Select (select_by_id "id" id)))); cbn [calls].
    + reflexivity.
    + destruct (error (answer (Delete [Eq "id" id]))); [reflexivity|].
      destruct (data (answer (Delete [Eq "id" id]))) as [| | |[|]];
        reflexivity.
  - intros answer e He. unfold delete_tasks_id.
    rewrite (id_nonempty id Hid). cbn [outcome]. now rewrite He.
  - intros answer row rest He1 He2 Hd. unfold delete_tasks_id.
    rewrite (id_nonempty id Hid). cbn [outcome]. rewrite He1.
    cbn [outcome]. now rewrite He2, Hd.
  - intros Habs. unfold delete_tasks_id. rewrite (id_nonempty id Hid).
    rewrite run_select. now rewrite select_by_id_absent.
  - intros r Hwf Hin <-.
    set (d' := {| Tasks.rows :=
          List.filter (fun x => negb (String.eqb (Task.id x) (Task.id r)))
            (Tasks.rows d);
        Tasks.next_id := Tasks.next_id d;
        Tasks.now := Tasks.now d + 1 |}).
    assert (Hgone : forall x, In x (Tasks.rows d') -> Task.id x <> Task.id r).
    { intros x Hx. apply filter_In in Hx. destruct Hx as [_ Hx].
      apply negb_true_iff in Hx. now apply String.eqb_neq. }
    exists d'. split; [|split; [|split; [exact Hgone|split]]].
    + unfold delete_tasks_id. rewrite (id_nonempty _ Hid).
      rewrite run_select.
      rewrite (select_by_id_present B "id" d r Hwf Hin). cbn [error].
      rewrite run_call, (delete_by_id B d r Hwf Hin). reflexivity.
    + intros x. unfold d'. cbn [Tasks.rows]. rewrite filter_In.
      rewrite negb_true_iff, String.eqb_neq. split.
      * intros [Hx Hne]. split; [exact Hx|]. intros ->. now apply Hne.
      * intros [Hx Hne]. split; [exact Hx|]. intros E. apply Hne.
        exact (same_id_same_row _ x r Hwf Hx Hin E).
    + unfold get_tasks_id. rewrite (id_nonempty _ Hid). rewrite run_select.
      now rewrite (select_by_id_absent B "*" _ d' Hgone).
    + unfold delete_tasks_id. rewrite (id_nonempty _ Hid).
      rewrite run_select.
      now rewrite (select_by_id_absent B "id" _ d' Hgone).
Qed.

Example delete_tasks_id_sample :
  exists d',
    Tasks.run Sample.backend (delete_tasks_id "2") Sample.store
    = (Some {| status := 200; json := Data (Record_ Sample.task2) |}, d')
    /\ Tasks.rows d' = [Sample.task1; Sample.task3].
Proof. eexists. split; reflexivity. Qed.

(** C9 fails in its last part at DELETE /tasks/2 followed by GET /tasks/2:
    the delete answers 200 with the row and removes it, and the fetch of
    the deleted identifier is then answered 500 with the store's message
    for an empty single-row read, not the 404 of NotFound, which a second
    DELETE of the same identifier does answer. *)
Theorem get_after_delete_not_404 :
  fst (Tasks.run Sample.backend (delete_tasks_id "2") Sample.store)
  = Some {| status := 200; json := Data (Record_ Sample.task2) |}
  /\ fst (Tasks.run Sample.backend (get_tasks_id "2")
            (snd (Tasks.run Sample.backend (delete_tasks_id "2")
                    Sample.store)))
     = Some (error_response 500
               "JSON object requested, multiple (or no) rows returned")
  /\ fst (Tasks.run Sample.backend (delete_tasks_id "2")
            (snd (Tasks.run Sample.backend (delete_tasks_id "2")
                    Sample.store)))
     = Some (error_response 404 "Task not found").
Proof. repeat split; reflexivity. Qed.

(** ** Search: validation of [q] and [fields] *)

Lemma includes_In (l : list string) (s : string) :
  includes l s = true <-> In s l.
Proof.
  unfold includes. rewrite existsb_exists. split.
  - intros (x & Hx & E). apply String.eqb_eq in E. now subst.
  - intros H. exists s. split; [exact H|apply String.eqb_refl].
Qed.

Lemma truthy_string (s : string) : s <> "" -> truthy (JStr s) = true.
Proof. intros H. simpl. apply String.eqb_neq in H. now rewrite H. Qed.

Lemma filter_none {A : Type} (f : A -> bool) (l : list A) :
  (forall x, In x l -> f x = false) -> List.filter f l = [].
Proof.
  induction l as [|x l IH]; simpl; intros H; [reflexivity|].
  rewrite (H x (or_introl eq_refl)). apply IH. intros y Hy. apply H.
  now right.
Qed.

Lemma fieldsToSearch_string (f : string) :
  f <> "" ->
  fieldsToSearch (JStr f)
  = Ret (List.filter (fun e => includes searchableFields (trim e))
           (split "," f)).
Proof.
  intros H. unfold fieldsToSearch. now rewrite (truthy_string f H).
Qed.

(** GET /tasks/search: a [q] that is missing (falsy) or blank after
    trimming is answered 400 whatever the other parameters are; of a
    [fields] given as a non-empty string an entry is kept exactly when
    its trimmed text is one of title, description, author, priority; when
    no entry is kept the answer is 400 and lists the four fields; when
    [fields] is absent (falsy) all four fields are searched. *)
Lemma get_tasks_search_validation (query : obj) :
  ((truthy (get query "q") = false
    \/ exists s, get query "q" = JStr s /\ trim s = "") ->
   get_tasks_search query
   = Ret (error_response 400 "Query parameter q is required"))
  /\ (forall f, f <> "" ->
        exists kept,
          fieldsToSearch (JStr f) = Ret kept
          /\ (forall e, In e kept
                        <-> In e (split "," f)
                            /\ In (trim e) searchableFields))
  /\ (forall s f,
        get query "q" = JStr s -> trim s <> "" ->
        get query "fields" = JStr f -> f <> "" ->
        (forall e, In e (split "," f) -> ~ In (trim e) searchableFields) ->
        get_tasks_search query
        = Ret (error_response 400
                 "Invalid fields. Available: title, description, author, priority"))
  /\ (truthy (get query "fields") = false ->
      fieldsToSearch (get query "fields")
      = Ret ["title"; "description"; "author"; "priority"]).
Proof.
  split; [|split; [|split]].
  - intros Hq. unfold get_tasks_search.
    destruct (missing_or_blank_cases (get query "q"))
      as [[-> _]|[[_ (s & Es & Ns & _)]|[_ [Tq Nq]]]].
    + reflexivity.
    + exfalso. destruct Hq as [Hq|(s' & Es' & Hs')].
      * rewrite Es in Hq. simpl in Hq.
        apply trim_nonempty in Ns. apply String.eqb_neq in Ns.
        now rewrite Ns in Hq.
      * congruence.
    + exfalso. destruct Hq as [Hq|(s' & Es' & _)]; [congruence|].
      now elim (Nq s').
  - intros f Hf. eexists. split; [now apply fieldsToSearch_string|].
    intros e. rewrite filter_In, includes_In. reflexivity.
  - intros s f Eq Ns Ef Nf Hnone. unfold get_tasks_search.
    rewrite Eq, Ef, missing_or_blank_string.
    apply String.eqb_neq in Ns. rewrite Ns. step_prog.
    rewrite (fieldsToSearch_string f Nf). step_prog.
    replace (List.filter (fun e => includes searchableFields (trim e))
               (split "," f)) with (@nil string); [reflexivity|].
    symmetry. apply filter_none. intros e He.
    destruct (includes searchableFields (trim e)) eqn:E; [|reflexivity].
    apply includes_In in E. now elim (Hnone e He).
  - intros Hf. unfold fieldsToSearch. now rewrite Hf.
Qed.

Example get_tasks_search_blank_q :
  get_tasks_search [("q", JStr "   "); ("fields", JStr "title");
                    ("limit", JStr "5")]
  = Ret (error_response 400 "Query parameter q is required").
Proof. reflexivity. Qed.

Example get_tasks_search_unknown_fields :
  get_tasks_search [("q", JStr "spec"); ("fields", JStr "id,created_at")]
  = Ret (error_response 400
           "Invalid fields. Available: title, description, author, priority").
Proof. reflexivity. Qed.

(** ** Sort: the sort field and the direction *)

(** C7 fails at [sort_by=constructor]: the lookup [sortableFields[sort_by]]
    finds the property every object inherits, a function, so the sort
    field is that function and not [created_at]; its text is what the
    handler asks the store to order by, and the reference store, which has
    no such column, refuses the request. *)
Theorem sortField_inherited_property :
  sortField (JStr "constructor")
  = Ret (JObject (Some "function Object() { [native code] }"))
  /\ sortField (JStr "constructor") <> Ret (JStr "created_at")
  /\ (forall answer,
        calls answer (get_tasks_sort [("sort_by", JStr "constructor")])
        = [Select (select_all []
                     (Some {| column := "function Object() { [native code] }";
                              ascending := false;
                              nullsFirst := Some false |})
                     (Int 0) (Int 19))])
  /\ fst (Tasks.run Sample.backend
            (get_tasks_sort [("sort_by", JStr "constructor")]) Sample.store)
     = Some {| status := 500;
               json := Error "Failed to sort tasks"
                         (Some "failed to parse the request") |}.
Proof.
  split; [reflexivity|]. split; [discriminate|]. split; [|reflexivity].
  intros answer. unfold get_tasks_sort. cbn [try_catch calls].
  cbn. destruct (error (answer _)); reflexivity.
Qed.

Lemma sortField_own (s : string) :
  In s ["title"; "author"; "priority"; "created_at"; "updated_at";
        "start_date"; "due_date"; "description"] ->
  sortField (JStr s) = Ret (JStr s).
Proof.
  intros H. simpl in H.
  repeat (destruct H as [<-|H]; [reflexivity|]). destruct H.
Qed.

Lemma sortField_falsy (v : jsval) :
  truthy v = false -> sortField v = Ret (JStr "created_at").
Proof. intros H. unfold sortField. now rewrite H. Qed.

Lemma member_not_own (k : string) :
  ~ In k ["title"; "author"; "priority"; "created_at"; "updated_at";
          "start_date"; "due_date"; "description"] ->
  member sortableFields k = Object_prototype_get k.
Proof.
  intros H. simpl in H. unfold sortableFields. cbn [member].
  repeat match goal with
         | |- context [String.eqb ?a k] =>
             destruct (String.eqb_spec a k); [exfalso; tauto|]
         end.
  reflexivity.
Qed.

Lemma Object_prototype_get_other (k : string) :
  ~ In k Object_prototype_keys -> Object_prototype_get k = JUndefined.
Proof.
  intros H. unfold Object_prototype_get.
  destruct (String.eqb_spec k "__proto__") as [->|_].
  { exfalso. apply H. simpl. tauto. }
  destruct (String.eqb_spec k "constructor") as [->|_].
  { exfalso. apply H. simpl. tauto. }
  destruct (includes Object_prototype_keys k) eqn:E; [|reflexivity].
  apply includes_In in E. contradiction.
Qed.

(** Outside the names every object inherits, the sort field is resolved
    as C7 says: a string that is none of the eight sortable fields gives
    [created_at]. *)
Lemma sortField_default (s : string) :
  ~ In s ["title"; "author"; "priority"; "created_at"; "updated_at";
          "start_date"; "due_date"; "description"] ->
  ~ In s Object_prototype_keys ->
  sortField (JStr s) = Ret (JStr "created_at").
Proof.
  intros H1 H2. unfold sortField.
  destruct (truthy (JStr s)); [|reflexivity].
  cbn [ToString may_throw bind].
  now rewrite (member_not_own s H1), (Object_prototype_get_other s H2).
Qed.

(** The sort field is a string, a function, or the prototype object: it
    always has a string form. *)
Lemma sortField_cases (v : jsval) :
  (ToString v = None /\ truthy v = true /\ sortField v = Throw)
  \/ exists f col, sortField v = Ret f /\ ToString f = Some col.
Proof.
  unfold sortField. destruct (truthy v) eqn:T;
    [|right; now exists (JStr "created_at"), "created_at"].
  destruct (ToString v) as [k|]; [|left; now repeat split].
  right. cbn [may_throw bind].
  assert (H : forall k, exists col, ToString (member sortableFields k)
                                    = Some col).
  { intros k'. unfold sortableFields. cbn [member].
    unfold Object_prototype_get.
    repeat match goal with
           | |- context [if ?b then _ else _] =>
               destruct b; [eexists; reflexivity|]
           end.
    eexists. reflexivity. }
  destruct (truthy (member sortableFields k)).
  - destruct (H k) as [col Hc]. now exists (member sortableFields k), col.
  - now exists (JStr "created_at"), "created_at".
Qed.

(** The direction is ascending exactly for the string [asc]. *)
Lemma sortOrder_asc (v : jsval) : sortOrder v = true <-> v = JStr "asc".
Proof.
  unfold sortOrder, strict_eq_str. destruct v; try (split; discriminate).
  destruct (String.eqb_spec s "asc") as [->|N]; split; trivial;
    try discriminate.
  intros H. injection H as ->. contradiction.
Qed.

(** ** The priority filter of search and of sort *)

(** C10.  For a non-empty [priority] parameter the sort handler filters
    on the trimmed and lower-cased entries and the search handler on the
    entries trimmed only; so with [priority=HIGH] and a task stored with
    priority [high], sort returns the task and search, whose text
    condition the task satisfies, returns nothing. *)
Theorem priority_filter_normalisation_differs :
  (forall p, p <> "" ->
     sort_priority_filter (JStr p)
     = Ret [In_ "priority" (map (fun e => toLowerCase (trim e)) (split "," p))]
     /\ search_priority_filter (JStr p)
        = Ret [In_ "priority" (map trim (split "," p))])
  /\ (let query := [("q", JStr "spec"); ("priority", JStr "HIGH")] in
      Task.priority Sample.task1 = Some "high"
      /\ (exists s p,
            fst (Tasks.run Sample.backend (get_tasks_sort query) Sample.store)
            = Some {| status := 200;
                      json := Sorted (Array [Sample.task1]) s p |})
      /\ (exists s p o,
            fst (Tasks.run Sample.backend (get_tasks_search query)
                   Sample.store)
            = Some {| status := 200; json := Search (Array []) s p o |})
      /\ (exists s p o,
            fst (Tasks.run Sample.backend
                   (get_tasks_search [("q", JStr "spec")]) Sample.store)
            = Some {| status := 200;
                      json := Search (Array [Sample.task1]) s p o |})).
Proof.
  split.
  - intros p Hp. unfold sort_priority_filter, search_priority_filter.
    rewrite (truthy_string p Hp). split; reflexivity.
  - cbv zeta. split; [reflexivity|].
    split; [do 2 eexists; reflexivity|].
    split; do 3 eexists; reflexivity.
Qed.

(** ** Search: the text condition *)

(** C3 fails at [q=a%b]: the term is put into the pattern as it is, its
    [%] acts as a wildcard, and the task titled [axxb] is matched although
    [a%b] occurs in none of its fields.  At [q=a,b] the comma of the term
    splits the [or] string in the middle of a condition and the store
    refuses the request. *)
Theorem search_term_is_a_pattern :
  orConditions ["title"; "description"; "author"; "priority"] "a%b"
  = "title.ilike.%a%b%,description.ilike.%a%b%,author.ilike.%a%b%,priority.ilike.%a%b%"
  /\ (exists s p o,
        fst (Tasks.run Sample.backend
               (get_tasks_search [("q", JStr "a%b")]) Sample.store)
        = Some {| status := 200;
                  json := Search (Array [Sample.task2]) s p o |})
  /\ (Task.title Sample.task2 = Some "axxb"
      /\ Task.description Sample.task2 = Some "notes"
      /\ Task.author Sample.task2 = Some "Bob"
      /\ Task.priority Sample.task2 = None)
  /\ (Tasks.occurs (toLowerCase "a%b") (toLowerCase "axxb") = false
      /\ Tasks.occurs (toLowerCase "a%b") (toLowerCase "notes") = false
      /\ Tasks.occurs (toLowerCase "a%b") (toLowerCase "Bob") = false)
  /\ fst (Tasks.run Sample.backend
            (get_tasks_search [("q", JStr "a,b")]) Sample.store)
     = Some {| status := 500;
               json := Error "Search failed"
                         (Some "failed to parse the request") |}.
Proof.
  split; [reflexivity|]. split; [do 3 eexists; reflexivity|].
  split; [repeat split; reflexivity|]. split; [repeat split; reflexivity|].
  reflexivity.
Qed.

(** ** The shape of the listing handlers *)

Lemma fieldsToSearch_cases (v : jsval) :
  fieldsToSearch v = Throw \/ exists l, fieldsToSearch v = Ret l.
Proof.
  unfold fieldsToSearch. destruct (truthy v); [|right; now eexists].
  destruct v; try (now left). right. now eexists.
Qed.

Lemma includes_val_In (l : list string) (v : jsval) :
  includes_val l v = true -> exists s, v = JStr s /\ In s l.
Proof.
  destruct v; simpl; try discriminate. intros H. exists s.
  split; [reflexivity|now apply includes_In].
Qed.

(** The sort field of a search is one of the eight valid fields. *)
Lemma search_sortField_valid (v : jsval) :
  exists col,
    search_sortField v = JStr col /\ In col validSortFields
    /\ ToString (search_sortField v) = Some col.
Proof.
  unfold search_sortField.
  destruct (truthy v && includes_val validSortFields v) eqn:E.
  - apply andb_prop in E. destruct E as [_ E].
    apply includes_val_In in E. destruct E as (s & -> & Hs).
    now exists s.
  - exists "created_at". repeat split. simpl. tauto.
Qed.

Lemma sort_priority_filter_cases (v : jsval) :
  sort_priority_filter v = Throw \/ exists l, sort_priority_filter v = Ret l.
Proof.
  unfold sort_priority_filter. destruct (truthy v); [|right; now eexists].
  destruct v; try (now left). right. now eexists.
Qed.

Lemma search_priority_filter_cases (v : jsval) :
  search_priority_filter v = Throw
  \/ exists l, search_priority_filter v = Ret l.
Proof.
  unfold search_priority_filter. destruct (truthy v); [|right; now eexists].
  destruct v; try (now left). right. now eexists.
Qed.

Lemma author_filter_cases (v : jsval) :
  author_filter v = Throw \/ exists l, author_filter v = Ret l.
Proof.
  unfold author_filter. destruct (truthy v); [|right; now eexists].
  destruct v; try (now left). right. now eexists.
Qed.

(** A range filter is chained exactly for a truthy value, and chaining
    it throws when the value has no string form. *)
Lemma bound_cases (mk : string -> string -> filter) (col : string)
    (v : jsval) :
  (truthy v = false /\ bound mk col v = Ret [])
  \/ (truthy v = true /\ ToString v = None /\ bound mk col v = Throw)
  \/ (exists s, truthy v = true /\ ToString v = Some s
                /\ bound mk col v = Ret [mk col s]).
Proof.
  unfold bound. destruct (truthy v); [|now left]. right.
  destruct (ToString v) as [s|]; [right; now exists s|now left].
Qed.

Lemma date_filters_cases (query : obj) :
  date_filters query = Throw
  \/ exists a b c d,
       bound Gte "start_date" (get query "start_date_from") = Ret a
       /\ bound Lte "start_date" (get query "start_date_to") = Ret b
       /\ bound Gte "due_date" (get query "due_date_from") = Ret c
       /\ bound Lte "due_date" (get query "due_date_to") = Ret d
       /\ date_filters query = Ret (a ++ b ++ c ++ d)%list.
Proof.
  unfold date_filters.
  destruct (bound_cases Gte "start_date" (get query "start_date_from"))
    as [(_ & ->)|[(_ & _ & ->)|(? & _ & _ & ->)]]; step_prog;
    try (now left);
    (destruct (bound_cases Lte "start_date" (get query "start_date_to"))
       as [(_ & ->)|[(_ & _ & ->)|(? & _ & _ & ->)]]; step_prog;
     try (now left));
    (destruct (bound_cases Gte "due_date" (get query "due_date_from"))
       as [(_ & ->)|[(_ & _ & ->)|(? & _ & _ & ->)]]; step_prog;
     try (now left));
    (destruct (bound_cases Lte "due_date" (get query "due_date_to"))
       as [(_ & ->)|[(_ & _ & ->)|(? & _ & _ & ->)]]; step_prog;
     try (now left));
    right; do 4 eexists; repeat split; reflexivity.
Qed.

Lemma appliedFilters_cases (query : obj) :
  appliedFilters query = Throw \/ exists a, appliedFilters query = Ret a.
Proof.
  unfold appliedFilters.
  destruct (truthy (get query "priority")); [|right; now eexists].
  destruct (get query "priority"); try (now left). right. now eexists.
Qed.

(** GET /tasks/search either answers at once (400 or 500), or makes one
    read, whose reply decides the answer. *)
Lemma get_tasks_search_shape (query : obj) :
  (exists r, get_tasks_search query = Ret r
             /\ (status r = 400 \/ status r = 500))
  \/ exists s f fs limit page pf af df col,
       get query "q" = JStr s /\ trim s <> ""
       /\ fieldsToSearch (get query "fields") = Ret (f :: fs)
       /\ pageLimit 20 (get query "limit") = Ret limit
       /\ pageNumber (get query "page") = Ret page
       /\ search_priority_filter (get query "priority") = Ret pf
       /\ author_filter (get query "author") = Ret af
       /\ date_filters query = Ret df
       /\ search_sortField (get query "sort") = JStr col
       /\ In col validSortFields
       /\ get_tasks_search query
          = Call (Select
                    (select_all
                       ([Or (orConditions (f :: fs) (trim s))] ++ pf ++ af
                        ++ df)
                       (Some {| column := col;
                                ascending :=
                                  strict_eq_str (get query "order") "asc";
                                nullsFirst := None |})
                       (window_from page limit) (window_to page limit)))
              (fun r =>
                 try_catch
                   match error r with
                   | Some e => Ret (store_failure "Search failed" e)
                   | None =>
                       (applied <- appliedFilters query ;;
                        Ret {| status := 200;
                               json := Search (data r)
                                 {| Http.query := trim s;
                                    fields := f :: fs;
                                    Http.filters := applied;
                                    resultsCount := count r |}
                                 (page_info page limit (count r))
                                 {| field := JStr col;
                                    Http.order :=
                                      if truthy (get query "order")
                                      then get query "order"
                                      else JStr "desc" |} |})%prog
                   end
                   internal_error).
Proof.
  unfold get_tasks_search.
  destruct (missing_or_blank_cases (get query "q"))
    as [[-> _]|[[-> (s & Es & Ns & _)]|[-> _]]]; step_prog;
    try answered.
  rewrite Es. step_prog.
  destruct (fieldsToSearch_cases (get query "fields")) as [->|[fs ->]];
    step_prog; try answered.
  destruct fs as [|f fs]; cbn [List.length Z.of_nat Z.eqb]; try answered.
  change (Z.pos (Pos.of_succ_nat (List.length fs)) =? 0) with false.
  cbn iota.
  destruct (pageLimit_cases 20 (get query "limit"))
    as [[_ ->]|(n & l & _ & -> & _)]; step_prog; try answered.
  destruct (search_sortField_valid (get query "sort"))
    as (col & Ecol & Hcol & Tcol).
  destruct (pageNumber_cases (get query "page"))
    as [[_ ->]|[[_ ->]|(m & p & _ & -> & _)]]; step_prog; try answered;
    (destruct (search_priority_filter_cases (get query "priority"))
       as [->|[pf ->]]; step_prog; try answered);
    (destruct (author_filter_cases (get query "author")) as [->|[af ->]];
     step_prog; try answered);
    (destruct (date_filters_cases query) as [->|(a & b & c & d & _ & _ & _ & _ & ->)];
     step_prog; try answered);
    rewrite Tcol; step_prog; right; rewrite Ecol;
    do 9 eexists; repeat split; try reflexivity; assumption.
Qed.

(** GET /tasks/sort either answers 500 at once, or makes one read, whose
    reply decides the answer. *)
Lemma get_tasks_sort_shape (query : obj) :
  get_tasks_sort query = Ret (error_response 500 "Internal server error")
  \/ exists f col limit page pf af df,
       sortField (get query "sort_by") = Ret f /\ ToString f = Some col
       /\ pageLimit 20 (get query "limit") = Ret limit
       /\ pageNumber (get query "page") = Ret page
       /\ sort_priority_filter (get query "priority") = Ret pf
       /\ author_filter (get query "author") = Ret af
       /\ date_filters query = Ret df
       /\ get_tasks_sort query
          = Call (Select
                    (select_all (pf ++ af ++ df)
                       (Some {| column := col;
                                ascending := sortOrder (get query "order");
                                nullsFirst := Some false |})
                       (window_from page limit) (window_to page limit)))
              (fun r =>
                 try_catch
                   match error r with
                   | Some e => Ret (store_failure "Failed to sort tasks" e)
                   | None =>
                       Ret {| status := 200;
                              json := Sorted (data r)
                                {| field := f;
                                   Http.order :=
                                     JStr (if sortOrder (get query "order")
                                           then "asc" else "desc") |}
                                (page_info page limit (count r)) |}
                   end
                   internal_error).
Proof.
  unfold get_tasks_sort.
  destruct (sortField_cases (get query "sort_by"))
    as [(_ & _ & ->)|(f & col & -> & Hcol)]; step_prog; [now left|].
  destruct (pageLimit_cases 20 (get query "limit"))
    as [[_ ->]|(n & l & _ & -> & _)]; step_prog; [now left|].
  destruct (pageNumber_cases (get query "page"))
    as [[_ ->]|[[_ ->]|(m & p & _ & -> & _)]]; step_prog; try (now left);
    (destruct (sort_priority_filter_cases (get query "priority"))
       as [->|[pf ->]]; step_prog; [now left|]);
    (destruct (author_filter_cases (get query "author")) as [->|[af ->]];
     step_prog; [now left|]);
    (destruct (date_filters_cases query) as [->|(a & b & c & d & _ & _ & _ & _ & ->)];
     step_prog; [now left|]);
    rewrite Hcol; step_prog; right;
    do 7 eexists; repeat split; try reflexivity; assumption.
Qed.

(** GET /tasks either ends in the exception of a [parseInt] call, before
    any store call, or makes one read, whose reply decides the answer. *)
Lemma get_tasks_shape (query : obj) :
  ((ToString (get query "limit") = None
    \/ ToString (get query "page") = None)
   /\ get_tasks query = Throw)
  \/ exists limit page,
       pageLimit 10 (get query "limit") = Ret limit
       /\ pageNumber (get query "page") = Ret page
       /\ get_tasks query
          = Call (Select (select_all [] None (window_from page limit)
                            (window_to page limit)))
              (fun r =>
                 try_catch
                   match error r with
                   | Some e => Ret (store_failure "Failed to fetch tasks" e)
                   | None =>
                       Ret {| status := 200;
                              json := Listing (data r)
                                        (page_info page limit (count r)) |}
                   end
                   internal_error).
Proof.
  destruct (pageLimit_cases 10 (get query "limit"))
    as [[Tl Hl]|(n & l & _ & Hl & _)].
  { left. split; [now left|]. unfold get_tasks. now rewrite Hl. }
  destruct (pageNumber_cases (get query "page"))
    as [[Tp Hp]|[[_ Hp]|(m & p & _ & Hp & _)]].
  - left. split; [now right|]. unfold get_tasks. now rewrite Hl, Hp.
  - right. do 2 eexists. split; [exact Hl|]. split; [exact Hp|].
    now apply get_tasks_read.
  - right. do 2 eexists. split; [exact Hl|]. split; [exact Hp|].
    now apply get_tasks_read.
Qed.

(** What the listing handlers answer on the reply to their read. *)
Lemma listing_reply_answers (r : reply) (msg : string)
    (ok : prog response) :
  (ok = Ret {| status := 500; json := Error "Internal server error" None |}
   \/ exists b, ok = Ret {| status := 200; json := b |}) ->
  exists x,
    try_catch
      match error r with
      | Some e => Ret (store_failure msg e)
      | None => ok
      end
      internal_error = Ret x
    /\ (status x = 200 \/ status x = 500).
Proof.
  intros H. destruct (error r).
  - eexists. split; [reflexivity|simpl; tauto].
  - destruct H as [->|[b ->]]; eexists; (split; [reflexivity|simpl; tauto]).
Qed.

(** ** Ordering: where the null values go *)

Lemma Forall_insert_row (P : Task.row -> Prop) (o : ordering) (r : Task.row)
    (l : list Task.row) :
  P r -> Forall P l -> Forall P (Tasks.insert_row o r l).
Proof.
  intros Hr Hl. induction Hl as [|x l Hx Hl IH]; simpl.
  - now constructor.
  - destruct (Tasks.cell_before o (Tasks.key o r) (Tasks.key o x));
      repeat constructor; assumption.
Qed.

Lemma cell_before_null_left (o : ordering) (c : Tasks.cell) :
  Tasks.nulls_first o = false -> c <> Tasks.CNull ->
  Tasks.cell_before o Tasks.CNull c = false.
Proof. intros H Hc. destruct c; simpl; congruence. Qed.

Lemma cell_before_null_right (o : ordering) (c : Tasks.cell) :
  Tasks.nulls_first o = false -> c <> Tasks.CNull ->
  Tasks.cell_before o c Tasks.CNull = true.
Proof. intros H Hc. destruct c; simpl; try congruence; now rewrite H. Qed.

Lemma cell_null_dec (c : Tasks.cell) : {c = Tasks.CNull} + {c <> Tasks.CNull}.
Proof. destruct c; [now left|right; discriminate|right; discriminate]. Qed.

Lemma insert_row_nulls_last (o : ordering) (r : Task.row)
    (l1 l2 : list Task.row) :
  Tasks.nulls_first o = false ->
  Forall (fun x => Tasks.key o x <> Tasks.CNull) l1 ->
  Forall (fun x => Tasks.key o x = Tasks.CNull) l2 ->
  exists l1' l2',
    Tasks.insert_row o r (l1 ++ l2)%list = (l1' ++ l2')%list
    /\ Forall (fun x => Tasks.key o x <> Tasks.CNull) l1'
    /\ Forall (fun x => Tasks.key o x = Tasks.CNull) l2'.
Proof.
  intros Hnf H1 H2. induction H1 as [|x l1 Hx H1 IH].
  - destruct (cell_null_dec (Tasks.key o r)) as [Hr|Hr].
    + exists [], (Tasks.insert_row o r l2). split; [reflexivity|].
      split; [constructor|]. now apply Forall_insert_row.
    + exists [r], l2. split.
      * destruct H2 as [|y l2 Hy H2]; [reflexivity|]. simpl. rewrite Hy.
        now rewrite cell_before_null_right.
      * split; [now repeat constructor|assumption].
  - simpl.
    destruct (Tasks.cell_before o (Tasks.key o r) (Tasks.key o x)) eqn:E.
    + exists (r :: x :: l1), l2. split; [reflexivity|]. split; [|assumption].
      constructor; [|now constructor].
      intros Hr. rewrite Hr in E.
      now rewrite cell_before_null_left in E.
    + destruct IH as (l1' & l2' & E' & F1 & F2).
      exists (x :: l1'), l2'. split; [simpl; now rewrite E'|].
      split; [now constructor|assumption].
Qed.

Lemma sort_rows_nulls_last (o : ordering) (l : list Task.row) :
  Tasks.nulls_first o = false ->
  exists l1 l2,
    Tasks.sort_rows o l = (l1 ++ l2)%list
    /\ Forall (fun x => Tasks.key o x <> Tasks.CNull) l1
    /\ Forall (fun x => Tasks.key o x = Tasks.CNull) l2.
Proof.
  intros Hnf. induction l as [|r l IH]; simpl.
  - exists [], []. repeat split; constructor.
  - destruct IH as (l1 & l2 & -> & F1 & F2).
    now apply insert_row_nulls_last.
Qed.

Lemma Forall_sublist_firstn {A : Type} (P : A -> Prop) (n : nat)
    (l : list A) : Forall P l -> Forall P (firstn n l).
Proof.
  intros H. revert n. induction H as [|x l Hx Hl IH]; intros [|n]; simpl;
    try constructor; auto.
Qed.

Lemma Forall_sublist_skipn {A : Type} (P : A -> Prop) (n : nat)
    (l : list A) : Forall P l -> Forall P (skipn n l).
Proof.
  intros H. revert n. induction H as [|x l Hx Hl IH]; intros [|n]; simpl;
    try constructor; auto.
Qed.

Lemma window_nulls_last (o : ordering) (from to : Z) (l1 l2 : list Task.row) :
  Forall (fun x => Tasks.key o x <> Tasks.CNull) l1 ->
  Forall (fun x => Tasks.key o x = Tasks.CNull) l2 ->
  exists l1' l2',
    Tasks.window from to (l1 ++ l2)%list = (l1' ++ l2')%list
    /\ Forall (fun x => Tasks.key o x <> Tasks.CNull) l1'
    /\ Forall (fun x => Tasks.key o x = Tasks.CNull) l2'.
Proof.
  intros F1 F2. unfold Tasks.window. rewrite skipn_app, firstn_app.
  eexists. eexists. split; [reflexivity|].
  split; apply Forall_sublist_firstn; now apply Forall_sublist_skipn.
Qed.

Lemma windowed_nulls_last (o : ordering) (w : option (number * number))
    (l1 l2 : list Task.row) :
  Forall (fun x => Tasks.key o x <> Tasks.CNull) l1 ->
  Forall (fun x => Tasks.key o x = Tasks.CNull) l2 ->
  exists l1' l2',
    Tasks.windowed w (l1 ++ l2)%list = (l1' ++ l2')%list
    /\ Forall (fun x => Tasks.key o x <> Tasks.CNull) l1'
    /\ Forall (fun x => Tasks.key o x = Tasks.CNull) l2'.
Proof.
  intros F1 F2.
  destruct w as [[[|?|from] [|?|to]]|]; cbn [Tasks.windowed];
    try (now exists l1, l2).
  now apply window_nulls_last.
Qed.

(** GET /tasks/sort passes [nullsFirst: false]: in a page the reference
    store returns, the rows whose sort column is null come after all the
    others, whatever the direction. *)
Theorem get_tasks_sort_nulls_last (B : Tasks.backend) (query : obj)
    (d : Tasks.db) (rows : list Task.row) (s : sorting) (p : pagination) :
  fst (Tasks.run B (get_tasks_sort query) d)
  = Some {| status := 200; json := Sorted (Array rows) s p |} ->
  exists f col,
    sortField (get query "sort_by") = Ret f /\ ToString f = Some col
    /\ let o := {| column := col;
                   ascending := sortOrder (get query "order");
                   nullsFirst := Some false |} in
       exists l1 l2,
         rows = (l1 ++ l2)%list
         /\ Forall (fun x => Tasks.key o x <> Tasks.CNull) l1
         /\ Forall (fun x => Tasks.key o x = Tasks.CNull) l2.
Proof.
  intros H.
  destruct (get_tasks_sort_shape query)
    as [E|(f & col & limit & page & pf & af & df & Hf & Hc & _ & _ & _ & _
           & _ & E)]; rewrite E in H; [discriminate|].
  exists f, col. split; [exact Hf|]. split; [exact Hc|]. intros o.
  revert H. rewrite run_select. fold o. unfold Tasks.select.
  cbn [Store.filters Store.order range single count_exact select_all].
  destruct (forallb _ _ && _ && _); cbn [error failed try_catch];
    [|discriminate].
  cbn [Tasks.run fst data]. intros H. injection H as H _ _. subst rows.
  cbn [Tasks.ordered].
  destruct (sort_rows_nulls_last o
              (List.filter (Tasks.matches B (pf ++ af ++ df))
                 (Tasks.rows d)) eq_refl) as (l1 & l2 & -> & F1 & F2).
  exact (windowed_nulls_last o
           (Some (window_from page limit, window_to page limit))
           l1 l2 F1 F2).
Qed.

Lemma get_tasks_sort_nulls_last_witness :
  exists l1 l2,
    [Sample.task3; Sample.task1; Sample.task2] = (l1 ++ l2)%list
    /\ Forall (fun x => Task.priority x <> None) l1
    /\ Forall (fun x => Task.priority x = None) l2.
Proof.
  destruct (get_tasks_sort_nulls_last Sample.backend
              [("sort_by", JStr "priority"); ("order", JStr "desc")]
              Sample.store [Sample.task3; Sample.task1; Sample.task2]
              {| field := JStr "priority"; Http.order := JStr "desc" |}
              {| page := Int 1; limit := Int 20; total := Some 3;
                 totalPages := Int 1 |}
              eq_refl) as (f & col & Hf & Hc & l1 & l2 & E & F1 & F2).
  injection Hf as <-. injection Hc as <-.
  exists l1, l2. split; [exact E|]. split.
  - eapply Forall_impl; [|exact F1]. intros x Hx Hn. apply Hx.
    cbn. now rewrite Hn.
  - eapply Forall_impl; [|exact F2]. intros x Hx. cbn in Hx.
    destruct (Task.priority x); [discriminate|reflexivity].
Defined.

(** ** Patterns and substrings *)

Lemma like_percent (p s : string) :
  Tasks.like (String "%" p) s
  = Tasks.like p s
    || match s with
       | EmptyString => false
       | String _ s' => Tasks.like (String "%" p) s'
       end.
Proof. destruct s; reflexivity. Qed.

Lemma like_any (s : string) : Tasks.like "%" s = true.
Proof.
  induction s as [|c s IH]; [reflexivity|].
  rewrite like_percent, IH. apply orb_true_r.
Qed.

Lemma special_false (c : ascii) :
  Tasks.special c = false ->
  Ascii.eqb c "%" = false /\ Ascii.eqb c "_" = false
  /\ Ascii.eqb c "," = false /\ Ascii.eqb c "." = false.
Proof.
  unfold Tasks.special. cbn [existsb]. intros H.
  repeat match type of H with
         | _ || _ = false => apply orb_false_elim in H; destruct H as [? H]
         end.
  auto.
Qed.

Lemma wildcard_false (c : ascii) :
  Tasks.wildcard c = false ->
  Ascii.eqb c "%" = false /\ Ascii.eqb c "_" = false.
Proof.
  unfold Tasks.wildcard. cbn [existsb]. intros H.
  repeat match type of H with
         | _ || _ = false => apply orb_false_elim in H; destruct H as [? H]
         end.
  auto.
Qed.

Lemma special_wildcard (c : ascii) :
  Tasks.special c = false -> Tasks.wildcard c = false.
Proof.
  destruct c as [b0 b1 b2 b3 b4 b5 b6 b7].
  destruct b0, b1, b2, b3, b4, b5, b6, b7; trivial; discriminate.
Qed.

(** A text without special characters has no pattern character. *)
Lemma literal_plain (t : string) :
  Tasks.literal t = true -> Tasks.plain t = true.
Proof.
  induction t as [|c t IH]; cbn [Tasks.literal Tasks.plain]; [trivial|].
  intros H. apply andb_prop in H. destruct H as [Hc Ht].
  apply negb_true_iff in Hc. now rewrite (special_wildcard c Hc), IH.
Qed.

Lemma like_plain_prefix (t s : string) :
  Tasks.plain t = true ->
  Tasks.like (t ++ "%") s = String.prefix t s.
Proof.
  revert s. induction t as [|c t IH]; intros s Ht.
  - cbn [append]. rewrite like_any. now destruct s.
  - cbn [Tasks.plain] in Ht. apply andb_prop in Ht. destruct Ht as [Hc Ht].
    apply negb_true_iff in Hc.
    destruct (wildcard_false c Hc) as (H1 & H2).
    cbn [append Tasks.like]. rewrite H1.
    destruct s as [|d s]; [reflexivity|].
    rewrite H2. cbn [orb String.prefix].
    destruct (Ascii.ascii_dec c d) as [->|N].
    + rewrite Ascii.eqb_refl. now apply IH.
    + apply Ascii.eqb_neq in N. now rewrite N.
Qed.

Lemma like_plain_occurs (t s : string) :
  Tasks.plain t = true ->
  Tasks.like ("%" ++ t ++ "%") s = Tasks.occurs t s.
Proof.
  intros Ht. induction s as [|c s IH].
  - cbn [append]. rewrite like_percent, like_plain_prefix by assumption.
    cbn [Tasks.occurs]. reflexivity.
  - cbn [append] in *. rewrite like_percent, like_plain_prefix by assumption.
    cbn [Tasks.occurs]. now rewrite IH.
Qed.

Lemma toLowerCase_app (a b : string) :
  toLowerCase (a ++ b) = toLowerCase a ++ toLowerCase b.
Proof. induction a as [|c a IH]; cbn; [reflexivity|now rewrite IH]. Qed.

Lemma wildcard_lower_char (c : ascii) :
  Tasks.wildcard (lower_char c) = Tasks.wildcard c.
Proof.
  destruct c as [b0 b1 b2 b3 b4 b5 b6 b7].
  destruct b0, b1, b2, b3, b4, b5, b6, b7; reflexivity.
Qed.

Lemma plain_toLowerCase (t : string) :
  Tasks.plain (toLowerCase t) = Tasks.plain t.
Proof.
  induction t as [|c t IH]; cbn [toLowerCase Tasks.plain]; [reflexivity|].
  now rewrite wildcard_lower_char, IH.
Qed.

(** Between two [%], a text without pattern characters is searched for
    as it is, letter case aside. *)
Lemma ilike_plain_occurs (t s : string) :
  Tasks.plain t = true ->
  Tasks.ilike ("%" ++ t ++ "%") s
  = Tasks.occurs (toLowerCase t) (toLowerCase s).
Proof.
  intros Ht. unfold Tasks.ilike. rewrite !toLowerCase_app.
  change (toLowerCase "%") with "%".
  apply like_plain_occurs. now rewrite plain_toLowerCase.
Qed.

Lemma ilike_literal_occurs (t s : string) :
  Tasks.literal t = true ->
  Tasks.ilike ("%" ++ t ++ "%") s
  = Tasks.occurs (toLowerCase t) (toLowerCase s).
Proof. intros Ht. apply ilike_plain_occurs. now apply literal_plain. Qed.

(** ** Splitting and the [or] string *)

Lemma split_no_separator (sep : ascii) (a : string) :
  ~ In sep (list_ascii_of_string a) -> split sep a = [a].
Proof.
  induction a as [|c a IH]; cbn [split list_ascii_of_string]; intros H.
  - reflexivity.
  - destruct (Ascii.eqb_spec c sep) as [->|N].
    + exfalso. apply H. now left.
    + rewrite IH; [reflexivity|]. intros Hin. apply H. now right.
Qed.

Lemma split_at_separator (sep : ascii) (a b : string) :
  ~ In sep (list_ascii_of_string a) ->
  split sep (a ++ String sep b) = a :: split sep b.
Proof.
  induction a as [|c a IH]; cbn [split list_ascii_of_string append]; intros H.
  - now rewrite Ascii.eqb_refl.
  - destruct (Ascii.eqb_spec c sep) as [->|N].
    + exfalso. apply H. now left.
    + rewrite IH; [reflexivity|]. intros Hin. apply H. now right.
Qed.

Lemma chars_app (a b : string) :
  list_ascii_of_string (a ++ b)
  = (list_ascii_of_string a ++ list_ascii_of_string b)%list.
Proof. induction a as [|c a IH]; cbn; [reflexivity|now rewrite IH]. Qed.

Lemma literal_chars (t : string) (c : ascii) :
  Tasks.literal t = true -> In c (list_ascii_of_string t) ->
  Tasks.special c = false.
Proof.
  induction t as [|d t IH]; cbn [Tasks.literal list_ascii_of_string];
    intros Ht Hin; [destruct Hin|].
  apply andb_prop in Ht. destruct Ht as [Hd Ht].
  destruct Hin as [->|Hin]; [now apply negb_true_iff|now apply IH].
Qed.

Lemma literal_no_char (t : string) (c : ascii) :
  Tasks.special c = true -> Tasks.literal t = true ->
  ~ In c (list_ascii_of_string t).
Proof.
  intros Hc Ht Hin. rewrite (literal_chars t c Ht Hin) in Hc. discriminate.
Qed.

Lemma searchable_literal (f : string) :
  In f searchableFields -> Tasks.literal f = true.
Proof.
  intros H. simpl in H.
  repeat (destruct H as [<-|H]; [reflexivity|]). destruct H.
Qed.

Lemma searchable_text_column (f : string) :
  In f searchableFields -> Tasks.is_text_column f = true.
Proof.
  intros H. simpl in H.
  repeat (destruct H as [<-|H]; [reflexivity|]). destruct H.
Qed.

Lemma condition_no_comma (f term : string) :
  In f searchableFields -> Tasks.literal term = true ->
  ~ In ","%char (list_ascii_of_string (f ++ ".ilike.%" ++ term ++ "%")).
Proof.
  intros Hf Ht. rewrite !chars_app. intros Hin.
  apply in_app_or in Hin. destruct Hin as [Hin|Hin].
  { revert Hin. apply literal_no_char; [reflexivity|].
    now apply searchable_literal. }
  apply in_app_or in Hin. destruct Hin as [Hin|Hin].
  { simpl in Hin. intuition discriminate. }
  apply in_app_or in Hin. destruct Hin as [Hin|Hin].
  { revert Hin. now apply literal_no_char. }
  simpl in Hin. intuition discriminate.
Qed.

Lemma parse_condition_ilike (f term : string) :
  In f searchableFields -> Tasks.literal term = true ->
  Tasks.parse_condition (f ++ ".ilike.%" ++ term ++ "%")
  = Some (f, "%" ++ term ++ "%").
Proof.
  intros Hf Ht. unfold Tasks.parse_condition.
  change (f ++ ".ilike.%" ++ term ++ "%")
    with (f ++ String "." ("ilike" ++ String "." ("%" ++ term ++ "%"))).
  rewrite split_at_separator.
  2:{ apply literal_no_char; [reflexivity|now apply searchable_literal]. }
  rewrite split_at_separator by (simpl; intuition discriminate).
  rewrite split_no_separator; [reflexivity|].
  rewrite !chars_app. intros Hin.
  apply in_app_or in Hin. destruct Hin as [Hin|Hin].
  { simpl in Hin. intuition discriminate. }
  apply in_app_or in Hin. destruct Hin as [Hin|Hin].
  { revert Hin. now apply literal_no_char. }
  simpl in Hin. intuition discriminate.
Qed.

Lemma split_orConditions (fs : list string) (term : string) :
  fs <> [] -> Forall (fun f => In f searchableFields) fs ->
  Tasks.literal term = true ->
  split "," (orConditions fs term)
  = map (fun f => f ++ ".ilike.%" ++ term ++ "%") fs.
Proof.
  intros Hne Hfs Ht. unfold orConditions, join.
  induction Hfs as [|f fs Hf Hfs IH]; [contradiction|].
  destruct fs as [|g fs].
  - cbn [map String.concat]. apply split_no_separator.
    now apply condition_no_comma.
  - cbn [map String.concat] in *.
    change ("," ++ ?x) with (String "," x).
    rewrite split_at_separator by now apply condition_no_comma.
    f_equal. apply IH. discriminate.
Qed.

Lemma parse_or_orConditions (fs : list string) (term : string) :
  fs <> [] -> Forall (fun f => In f searchableFields) fs ->
  Tasks.literal term = true ->
  Tasks.parse_or (orConditions fs term)
  = Some (map (fun f => (f, "%" ++ term ++ "%")) fs).
Proof.
  intros Hne Hfs Ht. unfold Tasks.parse_or.
  rewrite (split_orConditions fs term Hne Hfs Ht). clear Hne.
  induction Hfs as [|f fs Hf Hfs IH]; [reflexivity|].
  cbn [map Tasks.parse_conditions].
  now rewrite (parse_condition_ilike f term Hf Ht), IH.
Qed.

(** For a search term without special characters and fields among the
    four searchable ones, the reference store accepts the [or] string the
    search handler builds, and a row satisfies it exactly when the term
    occurs, letter case aside, in the text of one of the fields. *)
Theorem orConditions_substring_search (B : Tasks.backend)
    (fs : list string) (term : string) (r : Task.row) :
  fs <> [] -> Forall (fun f => In f searchableFields) fs ->
  Tasks.literal term = true ->
  Tasks.filter_ok B (Or (orConditions fs term)) = true
  /\ Tasks.holds B (Or (orConditions fs term)) r
     = existsb
         (fun f => match Tasks.cell_of f r with
                   | Some (Tasks.CText v) =>
                       Tasks.occurs (toLowerCase term) (toLowerCase v)
                   | _ => false
                   end) fs.
Proof.
  intros Hne Hfs Ht. cbn [Tasks.filter_ok Tasks.holds].
  rewrite (parse_or_orConditions fs term Hne Hfs Ht). split.
  - rewrite forallb_forall. intros [f p] Hin. apply in_map_iff in Hin.
    destruct Hin as (g & E & Hg). inversion E; subst. cbn [fst].
    apply searchable_text_column.
    rewrite Forall_forall in Hfs. now apply Hfs.
  - clear Hne Hfs. induction fs as [|f fs IH]; [reflexivity|].
    cbn [map existsb fst snd]. rewrite IH. f_equal.
    unfold Tasks.column_test.
    destruct (Tasks.cell_of f r) as [[|v|t]|]; try reflexivity.
    cbn [Tasks.cell_ilike]. now apply ilike_literal_occurs.
Qed.

Lemma orConditions_substring_search_witness :
  Tasks.holds Sample.backend (Or (orConditions ["title"; "author"] "SPEC"))
    Sample.task1 = true.
Proof.
  destruct (orConditions_substring_search Sample.backend ["title"; "author"]
              "SPEC" Sample.task1) as [_ H].
  - discriminate.
  - repeat constructor; simpl; tauto.
  - reflexivity.
  - rewrite H. reflexivity.
Defined.

Lemma matches_app (B : Tasks.backend) (fs gs : list filter) (r : Task.row) :
  Tasks.matches B (fs ++ gs) r = Tasks.matches B fs r && Tasks.matches B gs r.
Proof. unfold Tasks.matches. apply forallb_app. Qed.

(** The one store call of a search that passes validation: the text
    condition, then the structured filters that were supplied, all in one
    filter list (which the store combines by AND), ordered and windowed. *)
Theorem get_tasks_search_call (query : obj) (s : string)
    (fs : list string) (pf af df : list filter) (limit page : number) :
  get query "q" = JStr s -> trim s <> "" ->
  fieldsToSearch (get query "fields") = Ret fs -> fs <> [] ->
  pageLimit 20 (get query "limit") = Ret limit ->
  pageNumber (get query "page") = Ret page ->
  search_priority_filter (get query "priority") = Ret pf ->
  author_filter (get query "author") = Ret af ->
  date_filters query = Ret df ->
  forall answer,
    exists col,
      search_sortField (get query "sort") = JStr col
      /\ calls answer (get_tasks_search query)
         = [Select
              (select_all
                 ([Or (orConditions fs (trim s))] ++ pf ++ af ++ df)
                 (Some {| column := col;
                          ascending := strict_eq_str (get query "order") "asc";
                          nullsFirst := None |})
                 (window_from page limit) (window_to page limit))].
Proof.
  intros Eq Ns Ef Hfs El Epg Ep Ea Ed answer.
  destruct (search_sortField_valid (get query "sort"))
    as (col & Ecol & _ & Tcol).
  exists col. split; [exact Ecol|]. unfold get_tasks_search.
  rewrite Eq, missing_or_blank_string.
  apply String.eqb_neq in Ns. rewrite Ns. step_prog. rewrite Ef. step_prog.
  destruct fs as [|f fs]; [contradiction|].
  cbn [List.length Nat.add Z.of_nat Z.eqb]. rewrite El, Epg. step_prog.
  rewrite Ep, Ea, Ed. step_prog. rewrite Tcol. step_prog.
  cbn [calls].
  destruct (error (answer _)); [reflexivity|].
  destruct (appliedFilters_cases query) as [->|[a ->]]; reflexivity.
Qed.

Lemma get_tasks_search_call_witness :
  exists col,
    search_sortField JUndefined = JStr col
    /\ calls (fun _ => failed Tasks.bad_request)
         (get_tasks_search [("q", JStr " spec "); ("author", JStr "ada")])
       = [Select
            (select_all
               [Or "title.ilike.%spec%,description.ilike.%spec%,author.ilike.%spec%,priority.ilike.%spec%";
                Ilike "author" "%ada%"]
               (Some {| column := col; ascending := false;
                        nullsFirst := None |}) (Int 0) (Int 19))].
Proof.
  apply (get_tasks_search_call
           [("q", JStr " spec "); ("author", JStr "ada")] " spec "
           searchableFields [] [Ilike "author" "%ada%"] [] (Int 20) (Int 1));
    try reflexivity; discriminate.
Defined.

(** ** Search: entries of [fields] written with padding *)

(** C6 fails at [fields=title, description]: the second entry, which
    begins with a space, is none of the four field names and is not
    dropped: the test is made on the trimmed entry and the entry itself
    is passed on.  The read then carries a condition on the column
    [ description], which the reference store refuses, and the answer is
    500.  At a [fields] given twice, which is an array, [fields.split] is
    not a function and the answer is 500, not the 400 of an empty field
    set. *)
Theorem fieldsToSearch_keeps_padded_entry :
  fieldsToSearch (JStr "title, description")
  = Ret ["title"; " description"]
  /\ includes searchableFields " description" = false
  /\ (forall answer,
        calls answer (get_tasks_search Sample.padded_fields_query)
        = [Select
             (select_all
                [Or "title.ilike.%spec%, description.ilike.%spec%"]
                (Some {| column := "created_at"; ascending := false;
                         nullsFirst := None |}) (Int 0) (Int 19))])
  /\ fst (Tasks.run Sample.backend
            (get_tasks_search Sample.padded_fields_query) Sample.store)
     = Some {| status := 500;
               json := Error "Search failed"
                         (Some "failed to parse the request") |}
  /\ get_tasks_search [("q", JStr "spec"); ("fields", JObject (Some "id,x"))]
     = Ret (error_response 500 "Internal server error").
Proof.
  split; [reflexivity|]. split; [reflexivity|]. split; [|split; reflexivity].
  intros answer.
  destruct (get_tasks_search_call Sample.padded_fields_query "spec"
              ["title"; " description"] [] [] [] (Int 20) (Int 1)
              eq_refl ltac:(discriminate) eq_refl ltac:(discriminate)
              eq_refl eq_refl eq_refl eq_refl eq_refl answer)
    as (col & Hcol & ->).
  injection Hcol as <-. reflexivity.
Qed.

(** With the entries written without padding the same search is
    answered. *)
Example get_tasks_search_two_fields :
  exists s p o,
    fst (Tasks.run Sample.backend
           (get_tasks_search
              [("q", JStr "spec"); ("fields", JStr "title,description")])
           Sample.store)
    = Some {| status := 200; json := Search (Array [Sample.task1]) s p o |}.
Proof. do 3 eexists. reflexivity. Qed.

(* ===================================================================== *)
(** * Further properties of the handlers                                  *)
(* ===================================================================== *)

(** ** What the GET handlers never do *)

Lemma run_of_reads {A : Type} (B : Tasks.backend) (d : Tasks.db)
    (p : prog A) :
  Forall (fun c => exists q, c = Select q)
    (calls (fun c => fst (Tasks.exec B c d)) p) ->
  snd (Tasks.run B p d) = d.
Proof.
  induction p as [a| |c k IH]; cbn [calls Tasks.run]; intros H;
    try reflexivity.
  inversion H as [|? ? [q ->] H']; subst.
  cbn [Tasks.exec fst] in *. now apply IH.
Qed.

Lemma calls_one_read {A : Type} (answer : call -> reply) (q : select_query)
    (k : reply -> prog A) :
  (forall r, exists x, k r = Ret x) ->
  calls answer (Call (Select q) k) = [Select q].
Proof.
  intros H. cbn [calls]. destruct (H (answer (Select q))) as [x ->].
  reflexivity.
Qed.

Lemma get_tasks_id_shape (id : string) :
  (exists r, get_tasks_id id = Ret r)
  \/ exists k,
       get_tasks_id id = Call (Select (select_by_id "*" id)) k
       /\ forall r, exists x, k r = Ret x.
Proof.
  unfold get_tasks_id. destruct (String.eqb id ""); [left; now eexists|].
  right. eexists. split; [reflexivity|].
  intros r. cbv beta. destruct (error r); now eexists.
Qed.

(** The continuation of a listing handler returns on every reply. *)
Ltac reply_answers :=
  intros ?r; cbv beta;
  match goal with
  | |- context [error ?r] => destruct (error r)
  end; step_prog; try (now eexists);
  match goal with
  | |- context [appliedFilters ?q] =>
      destruct (appliedFilters_cases q) as [->|[? ->]]; now eexists
  end.

(** The calls of the three listing handlers: none, or the one read. *)
Lemma get_tasks_calls (query : obj) (answer : call -> reply) :
  calls answer (get_tasks query) = []
  \/ exists limit page,
       pageLimit 10 (get query "limit") = Ret limit
       /\ pageNumber (get query "page") = Ret page
       /\ calls answer (get_tasks query)
          = [Select (select_all [] None (window_from page limit)
                       (window_to page limit))].
Proof.
  destruct (get_tasks_shape query) as [[_ ->]|(l & p & Hl & Hp & ->)];
    [now left|right].
  exists l, p. split; [exact Hl|]. split; [exact Hp|].
  apply calls_one_read. reply_answers.
Qed.

Lemma get_tasks_search_calls (query : obj) (answer : call -> reply) :
  calls answer (get_tasks_search query) = []
  \/ exists conds rest col limit page,
       pageLimit 20 (get query "limit") = Ret limit
       /\ pageNumber (get query "page") = Ret page
       /\ In col validSortFields
       /\ calls answer (get_tasks_search query)
          = [Select
               (select_all (Or conds :: rest)
                  (Some {| column := col;
                           ascending :=
                             strict_eq_str (get query "order") "asc";
                           nullsFirst := None |})
                  (window_from page limit) (window_to page limit))].
Proof.
  destruct (get_tasks_search_shape query)
    as [(r & -> & _)|(s & f & fs & l & p & pf & af & df & col & _ & _ & _
                     & Hl & Hp & _ & _ & _ & _ & Hcol & ->)];
    [now left|right].
  do 3 eexists. exists l, p. split; [exact Hl|]. split; [exact Hp|].
  split; [exact Hcol|]. apply calls_one_read. reply_answers.
Qed.

Lemma get_tasks_sort_calls (query : obj) (answer : call -> reply) :
  calls answer (get_tasks_sort query) = []
  \/ exists fs col limit page,
       pageLimit 20 (get query "limit") = Ret limit
       /\ pageNumber (get query "page") = Ret page
       /\ calls answer (get_tasks_sort query)
          = [Select
               (select_all fs
                  (Some {| column := col;
                           ascending := sortOrder (get query "order");
                           nullsFirst := Some false |})
                  (window_from page limit) (window_to page limit))].
Proof.
  destruct (get_tasks_sort_shape query)
    as [->|(f & col & l & p & pf & af & df & _ & _ & Hl & Hp & _ & _ & _
            & ->)]; [now left|right].
  do 2 eexists. exists l, p. split; [exact Hl|]. split; [exact Hp|].
  apply calls_one_read. reply_answers.
Qed.

(** The four GET routes only ever read: each makes at most one store
    call, a [select], whatever the parameters and whatever the store
    answers; run against the reference store they leave it as it was. *)
Theorem get_routes_only_read (query : obj) (id : string) :
  (forall answer,
     (calls answer (get_tasks query) = []
      \/ exists q, calls answer (get_tasks query) = [Select q])
     /\ (calls answer (get_tasks_search query) = []
         \/ exists q, calls answer (get_tasks_search query) = [Select q])
     /\ (calls answer (get_tasks_sort query) = []
         \/ exists q, calls answer (get_tasks_sort query) = [Select q])
     /\ (calls answer (get_tasks_id id) = []
         \/ exists q, calls answer (get_tasks_id id) = [Select q]))
  /\ (forall B d,
        snd (Tasks.run B (get_tasks query) d) = d
        /\ snd (Tasks.run B (get_tasks_search query) d) = d
        /\ snd (Tasks.run B (get_tasks_sort query) d) = d
        /\ snd (Tasks.run B (get_tasks_id id) d) = d).
Proof.
  assert (H : forall answer,
     (calls answer (get_tasks query) = []
      \/ exists q, calls answer (get_tasks query) = [Select q])
     /\ (calls answer (get_tasks_search query) = []
         \/ exists q, calls answer (get_tasks_search query) = [Select q])
     /\ (calls answer (get_tasks_sort query) = []
         \/ exists q, calls answer (get_tasks_sort query) = [Select q])
     /\ (calls answer (get_tasks_id id) = []
         \/ exists q, calls answer (get_tasks_id id) = [Select q])).
  { intros answer. repeat split.
    - destruct (get_tasks_calls query answer)
        as [->|(l & p & _ & _ & ->)]; [now left|right; now eexists].
    - destruct (get_tasks_search_calls query answer)
        as [->|(c & rest & col & l & p & _ & _ & _ & ->)];
        [now left|right; now eexists].
    - destruct (get_tasks_sort_calls query answer)
        as [->|(fs & col & l & p & _ & _ & ->)];
        [now left|right; now eexists].
    - destruct (get_tasks_id_shape id) as [(r & ->)|(k & -> & Hk)];
        [now left|right].
      eexists. now apply calls_one_read. }
  split; [exact H|].
  intros B d.
  destruct (H (fun c => fst (Tasks.exec B c d))) as (H1 & H2 & H3 & H4).
  repeat split; apply run_of_reads;
    match goal with
    | |- Forall _ (calls _ ?p) =>
        match goal with
        | Hp : calls _ p = [] \/ _ |- _ =>
            destruct Hp as [->|[q ->]];
            [constructor|repeat constructor; now exists q]
        end
    end.
Qed.

(** ** Bounds on what the listing routes ask for *)

Lemma window_bounded (page limit : Z) :
  1 <= page -> page * 100 <= 2 ^ 53 -> 1 <= limit <= 100 ->
  exists from to,
    window_from (Int page) (Int limit) = Int from
    /\ window_to (Int page) (Int limit) = Int to
    /\ 0 <= from /\ 1 <= to - from + 1 <= 100
    /\ from mod (to - from + 1) = 0.
Proof.
  intros Hp Hb Hl.
  destruct (window_exact page limit Hp ltac:(lia) ltac:(nia)) as [-> ->].
  do 2 eexists. split; [reflexivity|]. split; [reflexivity|].
  replace ((page - 1) * limit + limit - 1 - (page - 1) * limit + 1)
    with limit by lia.
  split; [nia|]. split; [exact Hl|]. apply Z.mod_mul. lia.
Qed.

(** For a page number up to 2^53 / 100, where the window is computed
    without rounding, every read of GET /tasks, /tasks/search and
    /tasks/sort asks for a window of 1 to 100 rows that starts at a
    non-negative multiple of its size, whatever [limit] is. *)
Theorem listing_windows_bounded (query : obj) (answer : call -> reply) :
  (forall n, pageNumber (get query "page") = Ret n ->
             exists p, n = Int p /\ p * 100 <= 2 ^ 53) ->
  let bounded c :=
    exists fs o from to,
      c = Select (select_all fs o (Int from) (Int to))
      /\ 0 <= from /\ 1 <= to - from + 1 <= 100
      /\ from mod (to - from + 1) = 0 in
  Forall bounded (calls answer (get_tasks query))
  /\ Forall bounded (calls answer (get_tasks_search query))
  /\ Forall bounded (calls answer (get_tasks_sort query)).
Proof.
  intros Hsmall bounded.
  assert (Hb : forall dflt limit page fs o,
            pageLimit dflt (get query "limit") = Ret limit ->
            pageNumber (get query "page") = Ret page ->
            bounded (Select (select_all fs o (window_from page limit)
                               (window_to page limit)))).
  { intros dflt limit page fs o Hl Hp.
    destruct (Hsmall page Hp) as (p & -> & Hp100).
    destruct (pageLimit_cases dflt (get query "limit"))
      as [[_ H]|(n & l & _ & H & Rl & _)]; rewrite Hl in H;
      [discriminate|]. injection H as ->.
    destruct (pageNumber_cases (get query "page"))
      as [[_ H]|[[_ H]|(m & p' & _ & H & Rp & _)]]; rewrite Hp in H;
      try discriminate. injection H as <-.
    destruct (window_bounded p l Rp Hp100 Rl)
      as (from & to & -> & -> & H1 & H2 & H3).
    now exists fs, o, from, to. }
  split; [|split].
  - destruct (get_tasks_calls query answer)
      as [->|(l & p & Hl & Hp & ->)]; [constructor|].
    repeat constructor. now apply (Hb 10).
  - destruct (get_tasks_search_calls query answer)
      as [->|(c & rest & col & l & p & Hl & Hp & _ & ->)]; [constructor|].
    repeat constructor. now apply (Hb 20).
  - destruct (get_tasks_sort_calls query answer)
      as [->|(fs & col & l & p & Hl & Hp & ->)]; [constructor|].
    repeat constructor. now apply (Hb 20).
Qed.

Lemma listing_windows_bounded_witness :
  Forall
    (fun c =>
       exists fs o from to,
         c = Select (select_all fs o (Int from) (Int to))
         /\ 0 <= from /\ 1 <= to - from + 1 <= 100
         /\ from mod (to - from + 1) = 0)
    (calls (fun _ => failed Tasks.bad_request)
       (get_tasks [("limit", JStr "5"); ("page", JStr "3")])).
Proof.
  destruct (listing_windows_bounded
              [("limit", JStr "5"); ("page", JStr "3")]
              (fun _ => failed Tasks.bad_request)) as (H & _).
  - intros n Hn. injection Hn as <-. exists 3. split; [reflexivity|].
    vm_compute. discriminate.
  - exact H.
Defined.

(** Beyond that, at [limit=3] and [page=9007199254740993], the window of
    GET /tasks/sort is five rows wide and starts at no multiple of 3. *)
Example get_tasks_sort_large_page_window :
  forall answer,
    calls answer (get_tasks_sort Sample.large_page_query)
    = [Select (select_all []
                 (Some {| column := "created_at"; ascending := false;
                          nullsFirst := Some false |})
                 (Int 27021597764222972) (Int 27021597764222976))].
Proof.
  intros answer.
  destruct (get_tasks_sort_shape Sample.large_page_query)
    as [E|(f & col & l & p & pf & af & df & Hf & Hc & Hl & Hp & Hpf & Haf
           & Hdf & E)].
  { discriminate E. }
  rewrite E. injection Hf as <-. injection Hc as <-.
  injection Hpf as <-. injection Haf as <-. injection Hdf as <-.
  assert (El : l = Int 3).
  { assert (H : pageLimit 20 (get Sample.large_page_query "limit")
                = Ret (Int 3)) by (vm_compute; reflexivity).
    rewrite H in Hl. now injection Hl. }
  assert (Ep : p = Int 9007199254740992).
  { assert (H : pageNumber (get Sample.large_page_query "page")
                = Ret (Int 9007199254740992)) by (vm_compute; reflexivity).
    rewrite H in Hp. now injection Hp. }
  subst l p.
  replace (window_from (Int 9007199254740992) (Int 3))
    with (Int 27021597764222972) by (vm_compute; reflexivity).
  replace (window_to (Int 9007199254740992) (Int 3))
    with (Int 27021597764222976) by (vm_compute; reflexivity).
  apply calls_one_read. reply_answers.
Qed.

(** Whatever [sort] is, a read of GET /tasks/search is ordered by one of
    the eight valid sort fields, ascending exactly for [order=asc], and
    its first filter is the text condition. *)
Theorem search_read_is_well_formed (query : obj) (answer : call -> reply) :
  Forall
    (fun c =>
       exists q o conds rest,
         c = Select q /\ Store.order q = Some o
         /\ In (column o)
              ["title"; "description"; "author"; "priority"; "created_at";
               "updated_at"; "start_date"; "due_date"]
         /\ (ascending o = true <-> get query "order" = JStr "asc")
         /\ Store.filters q = Or conds :: rest)
    (calls answer (get_tasks_search query)).
Proof.
  destruct (get_tasks_search_calls query answer)
    as [->|(c & rest & col & l & p & _ & _ & Hcol & ->)]; [constructor|].
  repeat constructor. do 2 eexists. exists c, rest.
  split; [reflexivity|]. split; [reflexivity|]. split; [exact Hcol|].
  split; [|reflexivity]. cbn [ascending].
  unfold strict_eq_str. destruct (get query "order");
    try (split; discriminate).
  destruct (String.eqb_spec s "asc") as [->|N]; split; trivial;
    try discriminate.
  intros H. injection H as ->. contradiction.
Qed.

(** ** POST /tasks: what reaches the store *)

Lemma trimEnd_cons (c : ascii) (s : string) :
  trimEnd (String c s)
  = match trimEnd s with
    | EmptyString => if is_ws c then EmptyString else String c EmptyString
    | r => String c r
    end.
Proof. reflexivity. Qed.

Lemma trimEnd_idempotent (s : string) : trimEnd (trimEnd s) = trimEnd s.
Proof.
  induction s as [|c s IH]; [reflexivity|]. rewrite trimEnd_cons.
  destruct (trimEnd s) as [|d r] eqn:E.
  - destruct (is_ws c) eqn:W; [reflexivity|]. cbn [trimEnd]. now rewrite W.
  - rewrite trimEnd_cons, IH. reflexivity.
Qed.

Lemma trimStart_clean (s : string) :
  match trimStart s with
  | EmptyString => True
  | String c _ => is_ws c = false
  end.
Proof.
  induction s as [|c s IH]; cbn [trimStart]; [exact I|].
  destruct (is_ws c) eqn:W; [exact IH|exact W].
Qed.

Lemma trimEnd_head (c : ascii) (s : string) :
  is_ws c = false -> exists r, trimEnd (String c s) = String c r.
Proof.
  intros W. cbn [trimEnd]. destruct (trimEnd s); rewrite ?W; now eexists.
Qed.

(** Trimming leaves nothing to trim. *)
Lemma trim_idempotent (s : string) : trim (trim s) = trim s.
Proof.
  unfold trim. pose proof (trimStart_clean s) as H.
  destruct (trimStart s) as [|c r]; [reflexivity|].
  destruct (trimEnd_head c r H) as [r' E]. rewrite E.
  cbn [trimStart]. rewrite H, <- E. apply trimEnd_idempotent.
Qed.

Lemma create_validation_dates (E : engine) (body : obj) :
  create_validation E body = Ret None ->
  (truthy (get body "due_date") = true ->
   exists t, Date_parse_val E (get body "due_date") = Some (Some t))
  /\ (truthy (get body "start_date") = true ->
      exists t, Date_parse_val E (get body "start_date") = Some (Some t))
  /\ (truthy (get body "start_date") = true ->
      truthy (get body "due_date") = true ->
      date_after E (get body "start_date") (get body "due_date")
      = Some false).
Proof.
  unfold create_validation.
  destruct (missing_or_blank_cases (get body "title"))
    as [[-> _]|[[-> _]|[-> _]]]; step_prog; try discriminate.
  destruct (missing_or_blank_cases (get body "author"))
    as [[-> _]|[[-> _]|[-> _]]]; step_prog; try discriminate.
  destruct (truthy (get body "priority")); step_prog;
    [destruct (get body "priority"); step_prog; try discriminate;
     destruct (negb (includes validPriorities (toLowerCase s))); step_prog;
     try discriminate|];
    (destruct (invalid_date_cases E (get body "due_date"))
       as [(Td & ->)|[(Td & Pd & ->)|(t & Td & Pd & ->)]]; step_prog;
     try discriminate;
     try (destruct t as [t|]; cbn [isNaN]; step_prog; try discriminate));
    (destruct (invalid_date_cases E (get body "start_date"))
       as [(Ts & ->)|[(Ts & Ps & ->)|(t' & Ts & Ps & ->)]]; step_prog;
     try discriminate;
     try (destruct t' as [t'|]; cbn [isNaN]; step_prog; try discriminate));
    (destruct (dates_reversed_cases E (get body "start_date")
                 (get body "due_date"))
       as [(Tr & ->)|[(Tr & Pr & ->)|([|] & Tr & Pr & ->)]]; step_prog;
     try discriminate);
    intros _; rewrite ?Td, ?Ts in *; cbn [andb] in Tr;
    repeat split; intros; try congruence; try (eexists; eassumption).
Qed.

Lemma create_reply_answers (r : reply) :
  exists x,
    try_catch (create_reply r) internal_error = Ret x
    /\ (status x = 201 \/ status x = 409 \/ status x = 500).
Proof.
  unfold create_reply. destruct (error r) as [e|].
  - destruct (String.eqb (code e) "23505"); eexists;
      (split; [reflexivity|simpl; tauto]).
  - destruct (data r) as [| | |[|]]; eexists;
      (split; [reflexivity|simpl; tauto]).
Qed.

(** POST /tasks either answers at once (400 or 500), or passes validation,
    builds one model and inserts it. *)
Lemma post_tasks_shape (E : engine) (body : obj) :
  (exists r, post_tasks E body = Ret r
             /\ (status r = 400 \/ status r = 500))
  \/ exists model,
       create_validation E body = Ret None
       /\ create_model body = Ret model
       /\ post_tasks E body
          = Call (Insert [model])
              (fun r => try_catch (create_reply r) internal_error).
Proof.
  destruct (post_tasks_ret_or_valid E body) as [H|Hv]; [now left|].
  destruct (create_validation_passes E body Hv)
    as ((t & Et & _) & (a & Ea & _) & Hp).
  assert (Hp' : truthy (get body "priority") = false
                \/ exists p, get body "priority" = JStr p /\ p <> "").
  { destruct Hp as [Hp|(p & H1 & H2 & _)]; [now left|right; now exists p]. }
  destruct (create_model_cases body t a Et Ea Hp')
    as [(_ & _ & Em)|(pm & dm & Em & _)].
  - left. eexists. unfold post_tasks. rewrite Hv. step_prog. rewrite Em.
    split; [reflexivity|simpl; tauto].
  - right. eexists. split; [exact Hv|]. split; [exact Em|].
    unfold post_tasks. rewrite Hv. step_prog. rewrite Em. reflexivity.
Qed.

Lemma create_model_fields (body : obj) (t a : string) (model : obj) :
  get body "title" = JStr t -> get body "author" = JStr a ->
  (truthy (get body "priority") = false
   \/ exists p, get body "priority" = JStr p /\ p <> "") ->
  create_model body = Ret model ->
  get model "title" = JStr (trim t)
  /\ get model "author" = JStr (trim a)
  /\ ((truthy (get body "priority") = false
       /\ get model "priority" = JUndefined)
      \/ exists p, get body "priority" = JStr p /\ p <> ""
                   /\ get model "priority" = JStr (toLowerCase p))
  /\ get model "due_date"
     = (if truthy (get body "due_date") then get body "due_date"
        else JUndefined)
  /\ get model "start_date"
     = (if truthy (get body "start_date") then get body "start_date"
        else JUndefined).
Proof.
  intros Et Ea Hp Em.
  destruct (create_model_cases body t a Et Ea Hp)
    as [(_ & _ & Em')|(pm & dm & Em' & Hpm & Hdm)]; [congruence|].
  rewrite Em' in Em. injection Em as <-.
  unfold spread_value.
  destruct Hpm as [[Tp ->]|(p & Ep & Np & ->)];
    destruct Hdm as [[Td ->]|(s & Es & Ns & ->)];
    destruct (truthy (get body "due_date"));
    destruct (truthy (get body "start_date"));
    (split; [reflexivity|]); (split; [reflexivity|]);
    (split; [first [left; split; [assumption|reflexivity]
                   |right; exists p; repeat split; assumption]|]);
    split; reflexivity.
Qed.

(** Every model POST /tasks hands to the store is well formed: title and
    author are non-empty and carry no surrounding whitespace, a priority
    is one of low, medium, high, every date it holds parses, and when it
    holds both dates the start is not after the due date. *)
Theorem post_tasks_inserts_well_formed (E : engine) (body : obj)
    (answer : call -> reply) :
  Forall
    (fun c =>
       exists model t a,
         c = Insert [model]
         /\ get model "title" = JStr t /\ t <> "" /\ trim t = t
         /\ get model "author" = JStr a /\ a <> "" /\ trim a = a
         /\ (get model "priority" = JUndefined
             \/ exists p, get model "priority" = JStr p
                          /\ In p ["low"; "medium"; "high"])
         /\ (get model "due_date" <> JUndefined ->
             exists d, Date_parse_val E (get model "due_date")
                       = Some (Some d))
         /\ (get model "start_date" <> JUndefined ->
             exists d, Date_parse_val E (get model "start_date")
                       = Some (Some d))
         /\ (get model "start_date" <> JUndefined ->
             get model "due_date" <> JUndefined ->
             date_after E (get model "start_date") (get model "due_date")
             = Some false))
    (calls answer (post_tasks E body)).
Proof.
  destruct (post_tasks_shape E body)
    as [(r & -> & _)|(model & Hv & Em & ->)]; [constructor|].
  cbn [calls].
  destruct (create_reply_answers (answer (Insert [model]))) as (x & -> & _).
  cbn [calls]. repeat constructor.
  destruct (create_validation_passes E body Hv)
    as ((t & Et & Nt) & (a & Ea & Na) & Hp).
  destruct (create_validation_dates E body Hv) as (Hd & Hs & Hds).
  assert (Hp' : truthy (get body "priority") = false
                \/ exists p, get body "priority" = JStr p /\ p <> "").
  { destruct Hp as [Hp'|(p & H1 & H2 & _)]; [now left|right; now exists p]. }
  destruct (create_model_fields body t a model Et Ea Hp' Em)
    as (Mt & Ma & Mp & Md & Ms).
  exists model, (trim t), (trim a). split; [reflexivity|].
  split; [exact Mt|]. split; [exact Nt|]. split; [apply trim_idempotent|].
  split; [exact Ma|]. split; [exact Na|]. split; [apply trim_idempotent|].
  split.
  { destruct Mp as [[_ Mp]|(p & Ep & Np & Mp)]; [now left|right].
    exists (toLowerCase p). split; [exact Mp|].
    destruct Hp as [Hp|(p' & Ep' & _ & Hin)].
    - rewrite Ep, (truthy_string p Np) in Hp. discriminate.
    - apply includes_In. unfold validPriorities in Hin. congruence. }
  rewrite Md, Ms.
  destruct (truthy (get body "due_date")) eqn:Td;
    destruct (truthy (get body "start_date")) eqn:Ts;
    repeat split; intros; try congruence; auto.
Qed.

(** ** Answers *)

(** When the insert of POST /tasks fails, the answer is 409 for the
    store's unique-violation code 23505 and otherwise 500 with the
    store's message. *)
Theorem post_tasks_store_error (E : engine) (body : obj)
    (answer : call -> reply) (model : obj) (e : store_error) :
  calls answer (post_tasks E body) = [Insert [model]] ->
  error (answer (Insert [model])) = Some e ->
  outcome answer (post_tasks E body)
  = Some (if String.eqb (code e) "23505"
          then error_response 409 "Task already exists"
          else {| status := 500;
                  json := Error "Failed to create task"
                            (Some (message e)) |}).
Proof.
  intros Hc He.
  destruct (post_tasks_shape E body)
    as [(r & Hr & _)|(model' & _ & _ & Hp)]; rewrite ?Hr, ?Hp in *.
  - discriminate.
  - cbn [calls] in Hc. injection Hc as Hm _. subst model'.
    cbn [outcome]. unfold create_reply. rewrite He.
    destruct (String.eqb (code e) "23505"); reflexivity.
Qed.

Lemma post_tasks_store_error_witness :
  outcome (fun _ => failed {| code := "23505"; message := "duplicate key" |})
    (post_tasks Sample.engine Sample.spec_body)
  = Some (error_response 409 "Task already exists").
Proof.
  apply (post_tasks_store_error Sample.engine Sample.spec_body _
           [("title", JStr "Write spec"); ("author", JStr "Ada");
            ("priority", JStr "high"); ("due_date", JStr "2024-01-10");
            ("start_date", JStr "2024-01-01")]
           {| code := "23505"; message := "duplicate key" |});
    reflexivity.
Defined.

(** What a listing handler answers on the reply to its read. *)
Ltac reply_outcome :=
  cbn [outcome];
  match goal with
  | |- context [error ?r] => destruct (error r)
  end; step_prog;
  try (eexists; split; [reflexivity|simpl; tauto]);
  match goal with
  | |- context [appliedFilters ?q] =>
      destruct (appliedFilters_cases q) as [->|[? ->]];
      eexists; (split; [reflexivity|simpl; tauto])
  end.

(** The three routes whose whole body is wrapped in [try/catch] always
    answer, whatever the request and whatever the store replies, and only
    with these statuses: POST /tasks 201, 400, 409 or 500;
    GET /tasks/search 200, 400 or 500; GET /tasks/sort 200 or 500.
    GET /tasks, whose [parseInt] calls come before its [try], answers
    (200 or 500) when [limit] and [page] have a string form, and
    otherwise ends in an exception that nothing catches. *)
Theorem wrapped_routes_always_answer (E : engine) (body query : obj)
    (answer : call -> reply) :
  (exists r, outcome answer (post_tasks E body) = Some r
             /\ In (status r) [201; 400; 409; 500])
  /\ (exists r, outcome answer (get_tasks_search query) = Some r
                /\ In (status r) [200; 400; 500])
  /\ (exists r, outcome answer (get_tasks_sort query) = Some r
                /\ In (status r) [200; 500])
  /\ ((ToString (get query "limit") <> None
       /\ ToString (get query "page") <> None
       /\ exists r, outcome answer (get_tasks query) = Some r
                    /\ In (status r) [200; 500])
      \/ ((ToString (get query "limit") = None
           \/ ToString (get query "page") = None)
          /\ outcome answer (get_tasks query) = None)).
Proof.
  split; [|split; [|split]].
  - destruct (post_tasks_shape E body)
      as [(r & -> & Hr)|(model & _ & _ & ->)].
    + exists r. split; [reflexivity|]. simpl. intuition congruence.
    + cbn [outcome].
      destruct (create_reply_answers (answer (Insert [model])))
        as (x & -> & Hx).
      exists x. split; [reflexivity|]. simpl. intuition congruence.
  - destruct (get_tasks_search_shape query)
      as [(r & -> & Hr)|(s & f & fs & l & p & pf & af & df & col & _ & _
                        & _ & _ & _ & _ & _ & _ & _ & _ & ->)].
    + exists r. split; [reflexivity|]. simpl. intuition congruence.
    + reply_outcome.
  - destruct (get_tasks_sort_shape query)
      as [->|(f & col & l & p & pf & af & df & _ & _ & _ & _ & _ & _ & _
              & ->)].
    + eexists. split; [reflexivity|]. simpl. intuition congruence.
    + reply_outcome.
  - destruct (get_tasks_shape query) as [[Hn ->]|(l & p & Hl & Hp & ->)].
    + right. split; [exact Hn|reflexivity].
    + left. split; [|split].
      * intros N.
        destruct (pageLimit_cases 10 (get query "limit"))
          as [[_ H]|(n & l' & H & _)]; try congruence;
          unfold parseInt in H; rewrite N in H; discriminate.
      * intros N.
        destruct (pageNumber_cases (get query "page"))
          as [[_ H]|[[H _]|(n & p' & H & _)]]; try congruence;
          unfold parseInt in H; rewrite N in H; discriminate.
      * reply_outcome.
Qed.

(** PATCH and DELETE /tasks/:id do not look at how many rows the write
    returned: when the existence check passed but the write touched no
    row (the row went away in between), the answer is still 200, without
    data. *)
Theorem writes_answer_200_without_row (id : string) (updates : obj)
    (answer : call -> reply) :
  id <> "" ->
  error (answer (Select (select_by_id "id" id))) = None ->
  (error (answer (Update updates [Eq "id" id])) = None ->
   data (answer (Update updates [Eq "id" id])) = Array [] ->
   outcome answer (patch_tasks_id id updates)
   = Some {| status := 200; json := Data Undefined |})
  /\ (error (answer (Delete [Eq "id" id])) = None ->
      data (answer (Delete [Eq "id" id])) = Array [] ->
      outcome answer (delete_tasks_id id)
      = Some {| status := 200; json := Data Undefined |}).
Proof.
  intros Hid Hs. unfold patch_tasks_id, delete_tasks_id.
  rewrite (id_nonempty id Hid). cbn [outcome]. rewrite Hs. cbn [outcome].
  split; intros He Hd; now rewrite He, Hd.
Qed.

Lemma writes_answer_200_without_row_witness :
  outcome (fun _ => {| data := Array []; error := None; count := None |})
    (delete_tasks_id "7")
  = Some {| status := 200; json := Data Undefined |}.
Proof.
  apply (writes_answer_200_without_row "7" []
           (fun _ => {| data := Array []; error := None; count := None |}));
    [discriminate|reflexivity|reflexivity|reflexivity].
Defined.

(** ** Letter case in the priority filter of GET /tasks/sort *)

Lemma lower_char_facts (c : ascii) :
  lower_char (lower_char c) = lower_char c
  /\ is_ws (lower_char c) = is_ws c
  /\ Ascii.eqb (lower_char c) "," = Ascii.eqb c ",".
Proof.
  destruct c as [b0 b1 b2 b3 b4 b5 b6 b7].
  destruct b0, b1, b2, b3, b4, b5, b6, b7; repeat split; reflexivity.
Qed.

Lemma toLowerCase_idempotent (s : string) :
  toLowerCase (toLowerCase s) = toLowerCase s.
Proof.
  induction s as [|c s IH]; cbn [toLowerCase]; [reflexivity|].
  destruct (lower_char_facts c) as (-> & _). now rewrite IH.
Qed.

Lemma trimStart_toLowerCase (s : string) :
  trimStart (toLowerCase s) = toLowerCase (trimStart s).
Proof.
  induction s as [|c s IH]; cbn [toLowerCase trimStart]; [reflexivity|].
  destruct (lower_char_facts c) as (_ & -> & _).
  destruct (is_ws c); [exact IH|reflexivity].
Qed.

Lemma trimEnd_toLowerCase (s : string) :
  trimEnd (toLowerCase s) = toLowerCase (trimEnd s).
Proof.
  induction s as [|c s IH]; [reflexivity|].
  cbn [toLowerCase]. rewrite !trimEnd_cons, IH.
  destruct (lower_char_facts c) as (_ & -> & _).
  destruct (trimEnd s); cbn [toLowerCase]; [|reflexivity].
  destruct (is_ws c); reflexivity.
Qed.

Lemma trim_toLowerCase (s : string) :
  trim (toLowerCase s) = toLowerCase (trim s).
Proof.
  unfold trim. now rewrite trimStart_toLowerCase, trimEnd_toLowerCase.
Qed.

Lemma split_comma_toLowerCase (s : string) :
  split "," (toLowerCase s) = map toLowerCase (split "," s).
Proof.
  induction s as [|c s IH]; [reflexivity|].
  cbn [toLowerCase split]. destruct (lower_char_facts c) as (_ & _ & ->).
  rewrite IH. destruct (Ascii.eqb c ","); [reflexivity|].
  destruct (split "," s); reflexivity.
Qed.

Lemma sort_priority_filter_lower (p : string) :
  sort_priority_filter (JStr (toLowerCase p)) = sort_priority_filter (JStr p).
Proof.
  unfold sort_priority_filter.
  assert (Ht : truthy (JStr (toLowerCase p)) = truthy (JStr p))
    by now destruct p.
  rewrite Ht. destruct (truthy (JStr p)); [|reflexivity].
  cbn [method bind]. rewrite split_comma_toLowerCase, map_map.
  do 3 f_equal. apply map_ext. intros e.
  now rewrite trim_toLowerCase, toLowerCase_idempotent.
Qed.

(** Two [priority] parameters that differ only in letter case give
    GET /tasks/sort the same membership filter. *)
Theorem sort_priority_filter_ignores_case (p p' : string) :
  toLowerCase p = toLowerCase p' ->
  sort_priority_filter (JStr p) = sort_priority_filter (JStr p').
Proof.
  intros H.
  now rewrite <- (sort_priority_filter_lower p),
              <- (sort_priority_filter_lower p'), H.
Qed.

Lemma sort_priority_filter_ignores_case_witness :
  sort_priority_filter (JStr "High, LOW")
  = sort_priority_filter (JStr "high, low").
Proof.
  apply (sort_priority_filter_ignores_case "High, LOW" "high, low").
  reflexivity.
Defined.

(** ** Pages *)

Lemma firstn_then_more {A : Type} (n m : nat) (l : list A) :
  (firstn n l ++ firstn m (skipn n l))%list = firstn (n + m) l.
Proof.
  revert l. induction n as [|n IH]; intros l; [reflexivity|].
  destruct l as [|x l]; cbn [firstn skipn app Nat.add].
  - now rewrite firstn_nil.
  - now rewrite IH.
Qed.

(** The windows of two consecutive pages are adjacent, as long as
    [(page + 1) * limit] does not pass 2^53: page [p + 1] starts right
    after the last position of page [p], and the rows of the two pages
    together are the rows from the start of page [p] to the end of page
    [p + 1], none skipped and none repeated. *)
Theorem consecutive_pages_tile (l : list Task.row) (page limit : Z) :
  1 <= page -> 1 <= limit -> (page + 1) * limit <= 2 ^ 53 ->
  exists from to from' to',
    window_from (Int page) (Int limit) = Int from
    /\ window_to (Int page) (Int limit) = Int to
    /\ window_from (Int (page + 1)) (Int limit) = Int from'
    /\ window_to (Int (page + 1)) (Int limit) = Int to'
    /\ from' = to + 1
    /\ (Tasks.window from to l ++ Tasks.window from' to' l)%list
       = Tasks.window from to' l.
Proof.
  intros Hp Hl Hb.
  destruct (window_exact page limit Hp Hl ltac:(nia)) as [-> ->].
  destruct (window_exact (page + 1) limit ltac:(lia) Hl Hb) as [-> ->].
  do 4 eexists. do 4 (split; [reflexivity|]). split; [lia|].
  unfold Tasks.window.
  replace ((page - 1) * limit + limit - 1 - (page - 1) * limit + 1)
    with limit by lia.
  replace ((page + 1 - 1) * limit + limit - 1 - (page + 1 - 1) * limit + 1)
    with limit by lia.
  replace ((page + 1 - 1) * limit + limit - 1 - (page - 1) * limit + 1)
    with (limit + limit) by lia.
  replace (Z.to_nat ((page + 1 - 1) * limit))
    with (Z.to_nat limit + Z.to_nat ((page - 1) * limit))%nat by nia.
  rewrite <- skipn_skipn, Z2Nat.inj_add by lia.
  apply firstn_then_more.
Qed.

Lemma consecutive_pages_tile_witness :
  (Tasks.window 0 1 [Sample.task1; Sample.task2; Sample.task3]
   ++ Tasks.window 2 3 [Sample.task1; Sample.task2; Sample.task3])%list
  = Tasks.window 0 3 [Sample.task1; Sample.task2; Sample.task3].
Proof.
  destruct (consecutive_pages_tile
              [Sample.task1; Sample.task2; Sample.task3] 1 2)
    as (from & to & from' & to' & H1 & H2 & H3 & H4 & _ & H);
    [lia|lia|vm_compute; discriminate|].
  injection H1 as <-. injection H2 as <-. injection H3 as <-.
  injection H4 as <-. exact H.
Defined.

(** From page 2^53 on this fails: pages 9007199254740992 and
    9007199254740993 are the same number, and so is their window. *)
Example large_pages_coincide :
  pageNumber (JStr "9007199254740993") = pageNumber (JStr "9007199254740992").
Proof. vm_compute. reflexivity. Qed.

(** ** Create, then fetch *)

Lemma Z_to_string_nonempty (n : Z) : Z_to_string n <> "".
Proof.
  unfold Z_to_string. destruct n as [|p|p]; cbn; try discriminate.
  pose proof (Unsigned.to_uint_nonnil p) as H.
  destruct (Pos.to_uint p); try contradiction; discriminate.
Qed.

Lemma run_get_tasks_id_present (B : Tasks.backend) (d : Tasks.db)
    (r : Task.row) :
  Tasks.wf d -> In r (Tasks.rows d) -> Task.id r <> "" ->
  Tasks.run B (get_tasks_id (Task.id r)) d
  = (Some {| status := 200; json := Data (Record_ r) |}, d).
Proof.
  intros Hwf Hin Hid. unfold get_tasks_id. rewrite (id_nonempty _ Hid).
  rewrite run_select. now rewrite (select_by_id_present B "*" d r Hwf Hin).
Qed.

(** GET /tasks/:id of a row the reference store holds answers 200 with
    exactly that row and leaves the store as it was, so that fetching it
    again gives the same answer. *)
Theorem get_tasks_id_found_row (B : Tasks.backend) (d : Tasks.db)
    (r : Task.row) :
  Tasks.wf d -> In r (Tasks.rows d) -> Task.id r <> "" ->
  Tasks.run B (get_tasks_id (Task.id r)) d
  = (Some {| status := 200; json := Data (Record_ r) |}, d)
  /\ Tasks.run B (get_tasks_id (Task.id r))
       (snd (Tasks.run B (get_tasks_id (Task.id r)) d))
     = Tasks.run B (get_tasks_id (Task.id r)) d.
Proof.
  intros Hwf Hin Hid.
  rewrite !(run_get_tasks_id_present B d r Hwf Hin Hid). cbn [snd].
  split; [reflexivity|].
  now rewrite (run_get_tasks_id_present B d r Hwf Hin Hid).
Qed.

Lemma get_tasks_id_found_row_witness :
  Tasks.run Sample.backend (get_tasks_id "3") Sample.store
  = (Some {| status := 200; json := Data (Record_ Sample.task3) |},
     Sample.store).
Proof.
  apply (get_tasks_id_found_row Sample.backend Sample.store Sample.task3).
  - exact sample_store_wf.
  - simpl. tauto.
  - discriminate.
Defined.

Lemma run_post_tasks_created (E : engine) (B : Tasks.backend) (body : obj)
    (d : Tasks.db) (msg : string) (row : Task.row) :
  fst (Tasks.run B (post_tasks E body) d)
  = Some {| status := 201; json := Created msg (Record_ row) |} ->
  Task.id row = Z_to_string (Tasks.next_id d)
  /\ snd (Tasks.run B (post_tasks E body) d)
     = {| Tasks.rows := Tasks.rows d ++ [row];
          Tasks.next_id := Tasks.next_id d + 1;
          Tasks.now := Tasks.now d + 1 |}.
Proof.
  destruct (post_tasks_shape E body)
    as [(r & -> & Hr)|(model & _ & _ & ->)].
  - cbn [Tasks.run fst]. intros H. injection H as ->. simpl in Hr.
    destruct Hr; discriminate.
  - destruct (Tasks.set_columns B model
                (Tasks.blank (Tasks.next_id d) (Tasks.now d)))
      as [row0|] eqn:Hset.
    + rewrite (run_insert_one B d model row0 _ Hset).
      cbn [Tasks.run fst snd create_reply error data index0 bind try_catch].
      intros H. injection H as _ <-.
      destruct (set_columns_managed B _ _ _ Hset) as (Hid & _).
      split; [exact Hid|reflexivity].
    + cbn [Tasks.run Tasks.exec Tasks.insert_all]. rewrite Hset.
      cbn. discriminate.
Qed.

(** A task created by POST /tasks can be fetched: when the reference
    store has not used the next identifier yet and the create answers 201
    with a row, a following GET /tasks/:id of that row's identifier
    answers 200 with the same row. *)
Theorem create_then_fetch (E : engine) (B : Tasks.backend) (body : obj)
    (d : Tasks.db) (msg : string) (row : Task.row) :
  Tasks.wf d ->
  (forall r, In r (Tasks.rows d) ->
             Task.id r <> Z_to_string (Tasks.next_id d)) ->
  fst (Tasks.run B (post_tasks E body) d)
  = Some {| status := 201; json := Created msg (Record_ row) |} ->
  Tasks.wf (snd (Tasks.run B (post_tasks E body) d))
  /\ fst (Tasks.run B (get_tasks_id (Task.id row))
            (snd (Tasks.run B (post_tasks E body) d)))
     = Some {| status := 200; json := Data (Record_ row) |}.
Proof.
  intros Hwf Hfresh H.
  destruct (run_post_tasks_created E B body d msg row H) as (Hid & ->).
  assert (Hwf' : Tasks.wf {| Tasks.rows := Tasks.rows d ++ [row];
                             Tasks.next_id := Tasks.next_id d + 1;
                             Tasks.now := Tasks.now d + 1 |}).
  { unfold Tasks.wf in *. cbn [Tasks.rows]. rewrite map_app.
    apply NoDup_app; [exact Hwf|repeat constructor; simpl; tauto|].
    intros i Hi [<-|[]]. apply in_map_iff in Hi.
    destruct Hi as (r & Er & Hr). apply (Hfresh r Hr). congruence. }
  split; [exact Hwf'|].
  rewrite (run_get_tasks_id_present B _ row Hwf').
  - reflexivity.
  - cbn [Tasks.rows]. apply in_or_app. right. now left.
  - rewrite Hid. apply Z_to_string_nonempty.
Qed.

Lemma create_then_fetch_witness :
  fst (Tasks.run Sample.backend (get_tasks_id "4")
         (snd (Tasks.run Sample.backend
                 (post_tasks Sample.engine Sample.spec_body) Sample.store)))
  = Some {| status := 200;
            json := Data (Record_
                      (Task.mkRow "4" (Some "Write spec") (Some "Ada")
                         (Some "high") None (Some 1704844800000)
                         (Some 1704067200000) 1704000003000 None)) |}.
Proof.
  apply (create_then_fetch Sample.engine Sample.backend Sample.spec_body
           Sample.store "Task created successfully"
           (Task.mkRow "4" (Some "Write spec") (Some "Ada") (Some "high")
              None (Some 1704844800000) (Some 1704067200000)
              1704000003000 None)).
  - exact sample_store_wf.
  - intros r [<-|[<-|[<-|[]]]]; discriminate.
  - reflexivity.
Defined.

(** ** The sort field of GET /tasks/sort, inherited names apart *)

(** For a [sort_by] that is not the name of a property every object
    inherits, the sort field is [sort_by] itself when it is one of the
    eight sortable fields and [created_at] otherwise. *)
Theorem sortField_resolution (s : string) :
  ~ In s Object_prototype_keys ->
  sortField (JStr s)
  = Ret (if includes ["title"; "author"; "priority"; "created_at";
                      "updated_at"; "start_date"; "due_date"; "description"]
                     s
         then JStr s else JStr "created_at").
Proof.
  intros H.
  destruct (includes _ s) eqn:E.
  - apply sortField_own. now apply includes_In.
  - apply sortField_default; [|exact H].
    intros Hin. apply includes_In in Hin. congruence.
Qed.

Lemma sortField_resolution_witness :
  sortField (JStr "due_date") = Ret (JStr "due_date")
  /\ sortField (JStr "id") = Ret (JStr "created_at").
Proof.
  split.
  - apply (sortField_resolution "due_date"). simpl. intuition discriminate.
  - apply (sortField_resolution "id"). simpl. intuition discriminate.
Defined.

(** ** Search against sort *)

Lemma map_fixed {A : Type} (f : A -> A) (l : list A) :
  map f l = l -> forall x, In x l -> f x = x.
Proof.
  induction l as [|y l IH]; simpl; intros H x Hx; [destruct Hx|].
  injection H as H1 H2. destruct Hx as [<-|Hx]; [exact H1|now apply IH].
Qed.

Lemma priority_filters_agree (v : jsval) :
  (truthy v = false \/ exists p, v = JStr p /\ toLowerCase p = p) ->
  search_priority_filter v = sort_priority_filter v.
Proof.
  intros [H|(p & -> & Hp)];
    unfold search_priority_filter, sort_priority_filter.
  - now rewrite H.
  - destruct (truthy (JStr p)); [|reflexivity]. cbn [method bind].
    do 3 f_equal. apply map_ext_in. intros e He.
    rewrite <- trim_toLowerCase. f_equal. symmetry.
    apply (map_fixed toLowerCase (split "," p)); [|exact He].
    now rewrite <- split_comma_toLowerCase, Hp.
Qed.

(** When [priority] is absent or written in lower case, the read of
    GET /tasks/search carries the text condition followed by exactly the
    filters that GET /tasks/sort sends for the same parameters. *)
Theorem search_filters_extend_sort_filters (query : obj)
    (answer : call -> reply) (q1 q2 : select_query) :
  (truthy (get query "priority") = false
   \/ exists p, get query "priority" = JStr p /\ toLowerCase p = p) ->
  calls answer (get_tasks_sort query) = [Select q1] ->
  calls answer (get_tasks_search query) = [Select q2] ->
  exists conds, Store.filters q2 = Or conds :: Store.filters q1.
Proof.
  intros Hp H1 H2. pose proof (priority_filters_agree _ Hp) as Hpf.
  destruct (get_tasks_sort_shape query)
    as [E|(f & col & l & p & pf & af & df & _ & _ & _ & _ & Epf & Eaf & Edf
           & E)]; rewrite E in H1; [discriminate|].
  rewrite calls_one_read in H1 by reply_answers. injection H1 as <-.
  destruct (get_tasks_search_shape query)
    as [(r & E' & _)|(s & f' & fs & l' & p' & pf' & af' & df' & col' & _ & _
                     & _ & _ & _ & Epf' & Eaf' & Edf' & _ & _ & E')];
    rewrite E' in H2; [discriminate|].
  rewrite calls_one_read in H2 by reply_answers. injection H2 as <-.
  rewrite Hpf, Epf in Epf'. rewrite Eaf in Eaf'. rewrite Edf in Edf'.
  injection Epf' as <-. injection Eaf' as <-. injection Edf' as <-.
  eexists. reflexivity.
Qed.

Lemma search_filters_extend_sort_filters_witness :
  exists conds,
    [Or "title.ilike.%spec%"; In_ "priority" ["high"; "low"];
     Ilike "author" "%ada%"; Gte "due_date" "2024-01-01"]
    = Or conds
      :: [In_ "priority" ["high"; "low"]; Ilike "author" "%ada%";
          Gte "due_date" "2024-01-01"].
Proof.
  apply (search_filters_extend_sort_filters
           [("q", JStr "spec"); ("fields", JStr "title");
            ("priority", JStr "high, low"); ("author", JStr " ada");
            ("due_date_from", JStr "2024-01-01")]
           (fun _ => failed Tasks.bad_request)
           (select_all [In_ "priority" ["high"; "low"];
                        Ilike "author" "%ada%"; Gte "due_date" "2024-01-01"]
              (Some {| column := "created_at"; ascending := false;
                       nullsFirst := Some false |}) (Int 0) (Int 19))
           (select_all [Or "title.ilike.%spec%";
                        In_ "priority" ["high"; "low"];
                        Ilike "author" "%ada%"; Gte "due_date" "2024-01-01"]
              (Some {| column := "created_at"; ascending := false;
                       nullsFirst := None |}) (Int 0) (Int 19))).
  - right. exists "high, low". split; reflexivity.
  - reflexivity.
  - reflexivity.
Defined.

(** ** Pagination of search and sort *)

Lemma page_info_spec (page : number) (limit : Z) (count : option Z) :
  1 <= limit <= 100 ->
  Http.page (page_info page (Int limit) count) = page
  /\ Http.limit (page_info page (Int limit) count) = Int limit
  /\ total (page_info page (Int limit) count) = count
  /\ (forall n, count = Some n -> 0 <= n <= 2 ^ 53 ->
        exists t,
          totalPages (page_info page (Int limit) count) = Int t
          /\ (t - 1) * limit < n <= t * limit)
  /\ (count = None ->
      totalPages (page_info page (Int limit) count) = Int 0).
Proof.
  intros Hl. unfold page_info. cbn [Http.page Http.limit total totalPages].
  repeat split.
  - intros n -> Hn. exists (- ((- n) / limit)).
    split; [now apply Math_ceil_div_exact|now apply Math_ceil_div_spec].
  - intros ->. unfold Math_ceil_div.
    destruct (Z.eqb_spec limit 0); [lia|reflexivity].
Qed.

(** A 200 answer of GET /tasks/search or GET /tasks/sort carries the
    effective page (the number read from [page], at least 1 and possibly
    infinite) and limit (1 to 100, 20 when [limit] is absent), and, for a
    total up to 2^53, as [totalPages] the least number of pages of that
    size that cover [total]; with a null count [totalPages] is 0. *)
Theorem search_sort_pagination (query : obj) (answer : call -> reply)
    (rows : payload) (p : pagination) :
  (exists s o,
     outcome answer (get_tasks_search query)
     = Some {| status := 200; json := Search rows s p o |})
  \/ (exists o,
        outcome answer (get_tasks_sort query)
        = Some {| status := 200; json := Sorted rows o p |}) ->
  pageNumber (get query "page") = Ret (Http.page p)
  /\ (Http.page p = Inf false \/ exists n, Http.page p = Int n /\ 1 <= n)
  /\ pageLimit 20 (get query "limit") = Ret (Http.limit p)
  /\ exists l,
       Http.limit p = Int l /\ 1 <= l <= 100
       /\ (get query "limit" = JUndefined -> l = 20)
       /\ (forall n, total p = Some n -> 0 <= n <= 2 ^ 53 ->
             exists t, totalPages p = Int t /\ (t - 1) * l < n <= t * l)
       /\ (total p = None -> totalPages p = Int 0).
Proof.
  intros H.
  assert (Hp : exists limit page c,
            pageLimit 20 (get query "limit") = Ret limit
            /\ pageNumber (get query "page") = Ret page
            /\ p = page_info page limit c).
  { destruct H as [(s & o & H)|(o & H)].
    - destruct (get_tasks_search_shape query)
        as [(r & Hr & Hs)|(q & f & fs & l & pg & pf & af & df & col & _ & _
                          & _ & Hl & Hpg & _ & _ & _ & _ & _ & E)].
      { rewrite Hr in H. cbn [outcome] in H. injection H as ->.
        simpl in Hs. destruct Hs; discriminate. }
      rewrite E in H. cbn [outcome] in H.
      destruct (error (answer _)); step_prog; cbn [try_catch] in H;
        try discriminate.
      destruct (appliedFilters_cases query) as [Ea|[a Ea]]; rewrite Ea in H;
        cbn [bind try_catch outcome] in H; try discriminate.
      injection H as _ _ <- _. do 3 eexists. split; [exact Hl|].
      split; [exact Hpg|reflexivity].
    - destruct (get_tasks_sort_shape query)
        as [E|(f & col & l & pg & pf & af & df & _ & _ & Hl & Hpg & _ & _
               & _ & E)]; rewrite E in H; [discriminate|].
      cbn [outcome] in H.
      destruct (error (answer _)); cbn [try_catch outcome] in H;
        try discriminate.
      injection H as _ _ <-. do 3 eexists. split; [exact Hl|].
      split; [exact Hpg|reflexivity]. }
  destruct Hp as (limit & page & c & Hl & Hpg & ->).
  destruct (pageLimit_cases 20 (get query "limit"))
    as [[_ E]|(n & l & Pn & E & Rl & Dl & _)]; rewrite Hl in E;
    [discriminate|]. injection E as ->.
  destruct (page_info_spec page l c Rl) as (H1 & H2 & H3 & H4 & H5).
  rewrite H1, H2, H3.
  split; [exact Hpg|]. split.
  { destruct (pageNumber_cases (get query "page"))
      as [[_ E]|[[_ E]|(m & pn & _ & E & Rp & _)]]; rewrite Hpg in E;
      try discriminate; injection E as ->; [now left|right].
    now exists pn. }
  split; [exact Hl|]. exists l. split; [reflexivity|]. split; [exact Rl|].
  split.
  { intros E. rewrite E in Pn. injection Pn as <-.
    exact (Dl (or_introl eq_refl)). }
  split; assumption.
Qed.

Lemma search_sort_pagination_witness :
  (2 - 1) * 2 < 3 <= 2 * 2.
Proof.
  destruct (search_sort_pagination
              [("limit", JStr "2"); ("page", JStr "2")]
              (fun c => fst (Tasks.exec Sample.backend c Sample.store))
              (Array [Sample.task1])
              {| Http.page := Int 2; Http.limit := Int 2; total := Some 3;
                 totalPages := Int 2 |})
    as (_ & _ & _ & l & Hl & _ & _ & H & _).
  - right. eexists. vm_compute. reflexivity.
  - injection Hl as <-.
    destruct (H 3 eq_refl) as (t & Ht & Hb).
    + vm_compute. split; discriminate.
    + injection Ht as <-. exact Hb.
Defined.

(** ** POST /tasks: which check answers *)

(** The checks of POST /tasks answer in a fixed order, and the first one
    that fails decides the message: title, then author, then priority,
    then due date, then start date, then the order of the two dates.  A
    blank title is reported whatever the other fields hold. *)
Theorem post_tasks_first_failure (E : engine) (body : obj) :
  let title := get body "title" in
  let author := get body "author" in
  let priority := get body "priority" in
  let due_date := get body "due_date" in
  let start_date := get body "start_date" in
  let blank v := truthy v = false \/ exists s, v = JStr s /\ trim s = "" in
  let present v := exists s, v = JStr s /\ trim s <> "" in
  let good_priority :=
    truthy priority = false
    \/ exists p, priority = JStr p
                 /\ includes validPriorities (toLowerCase p) = true in
  let parses v :=
    truthy v = false \/ exists t, Date_parse_val E v = Some (Some t) in
  (blank title ->
   post_tasks E body = Ret (error_response 400 "Title is required"))
  /\ (present title -> blank author ->
      post_tasks E body = Ret (error_response 400 "Author is required"))
  /\ (present title -> present author ->
      (exists p, priority = JStr p /\ p <> ""
                 /\ includes validPriorities (toLowerCase p) = false) ->
      post_tasks E body
      = Ret (error_response 400 "Priority must be one of: low, medium, high"))
  /\ (present title -> present author -> good_priority ->
      truthy due_date = true -> Date_parse_val E due_date = Some None ->
      post_tasks E body = Ret (error_response 400 "Invalid due_date format"))
  /\ (present title -> present author -> good_priority ->
      parses due_date ->
      truthy start_date = true -> Date_parse_val E start_date = Some None ->
      post_tasks E body
      = Ret (error_response 400 "Invalid start_date format"))
  /\ (present title -> present author -> good_priority ->
      parses due_date -> parses start_date ->
      truthy start_date = true -> truthy due_date = true ->
      date_after E start_date due_date = Some true ->
      post_tasks E body
      = Ret (error_response 400 "Start date cannot be after due date")).
Proof.
  intros title author priority due_date start_date blank present
    good_priority parses.
  assert (Hblank : forall v, blank v -> missing_or_blank v = Ret true).
  { intros v [H|(s & -> & H)]; [now apply missing_or_blank_falsy|].
    rewrite missing_or_blank_string, H. reflexivity. }
  assert (Hpresent : forall v, present v -> missing_or_blank v = Ret false).
  { intros v (s & -> & H). rewrite missing_or_blank_string.
    apply String.eqb_neq in H. now rewrite H. }
  assert (Hgood : good_priority ->
            (if truthy priority
             then (p <- method toLowerCase priority;;
                   Ret (negb (includes validPriorities p)))%prog
             else Ret false) = Ret false).
  { intros [H|(p & Ep & H)]; [now rewrite H|]. rewrite Ep.
    destruct (truthy (JStr p)); [|reflexivity]. cbn [method bind].
    now rewrite H. }
  assert (Hparses : forall v, parses v -> invalid_date E v = Ret false).
  { intros v [H|[t H]]; unfold invalid_date; [now rewrite H|].
    rewrite H. now destruct (truthy v). }
  assert (Hnan : forall v, truthy v = true -> Date_parse_val E v = Some None ->
                           invalid_date E v = Ret true).
  { intros v Tv Pv. unfold invalid_date. now rewrite Tv, Pv. }
  unfold post_tasks, create_validation.
  fold title author priority due_date start_date.
  repeat split.
  - intros Ht. now rewrite (Hblank _ Ht).
  - intros Ht Ha. now rewrite (Hpresent _ Ht), (Hblank _ Ha).
  - intros Ht Ha (p & Ep & Np & Hp).
    rewrite (Hpresent _ Ht), (Hpresent _ Ha). step_prog.
    rewrite Ep, (truthy_string p Np). step_prog. now rewrite Hp.
  - intros Ht Ha Hp Td Pd.
    rewrite (Hpresent _ Ht), (Hpresent _ Ha). step_prog.
    rewrite (Hgood Hp). step_prog. now rewrite (Hnan _ Td Pd).
  - intros Ht Ha Hp Hd Ts Ps.
    rewrite (Hpresent _ Ht), (Hpresent _ Ha). step_prog.
    rewrite (Hgood Hp). step_prog.
    now rewrite (Hparses _ Hd), (Hnan _ Ts Ps).
  - intros Ht Ha Hp Hd Hs Ts Td G.
    rewrite (Hpresent _ Ht), (Hpresent _ Ha). step_prog.
    rewrite (Hgood Hp). step_prog.
    rewrite (Hparses _ Hd). step_prog. rewrite (Hparses _ Hs). step_prog.
    unfold dates_reversed. now rewrite Ts, Td, G.
Qed.

Example post_tasks_title_first :
  post_tasks Sample.engine
    [("title", JStr " "); ("priority", JNum 5); ("due_date", JStr "soon")]
  = Ret (error_response 400 "Title is required").
Proof. reflexivity. Qed.

(** ** Search: the filters the answer reports *)

(** The [filters] object of a search answer names a filter exactly when
    the handler applied it: a priority and an author entry exactly with
    the priority and author filters, a date entry exactly when one of its
    two bounds was applied. *)
Theorem applied_filters_report_applied (query : obj)
    (pf af : list filter) (applied : applied_filters) :
  search_priority_filter (get query "priority") = Ret pf ->
  author_filter (get query "author") = Ret af ->
  appliedFilters query = Ret applied ->
  (f_priority applied = None <-> pf = [])
  /\ (f_author applied = None <-> af = [])
  /\ (forall a b,
        bound Gte "start_date" (get query "start_date_from") = Ret a ->
        bound Lte "start_date" (get query "start_date_to") = Ret b ->
        (f_start_date applied = None <-> (a ++ b)%list = []))
  /\ (forall a b,
        bound Gte "due_date" (get query "due_date_from") = Ret a ->
        bound Lte "due_date" (get query "due_date_to") = Ret b ->
        (f_due_date applied = None <-> (a ++ b)%list = [])).
Proof.
  assert (Hb : forall mk col v l,
            bound mk col v = Ret l -> (l = [] <-> truthy v = false)).
  { intros mk col v l H.
    destruct (bound_cases mk col v)
      as [(T & E)|[(T & _ & E)|(s & T & _ & E)]]; rewrite E in H;
      try discriminate; injection H as <-; rewrite T; split; trivial;
      discriminate. }
  assert (Happ : forall (a b : list filter),
            (a ++ b)%list = [] <-> a = [] /\ b = []).
  { intros a b. split; [apply app_eq_nil|intros [-> ->]; reflexivity]. }
  unfold search_priority_filter, author_filter, appliedFilters, or_undefined.
  destruct (truthy (get query "priority")) eqn:Tp;
    [destruct (get query "priority"); try discriminate|];
    (destruct (truthy (get query "author")) eqn:Ta;
     [destruct (get query "author"); try discriminate|]);
    step_prog; intros Hp Ha Hf;
    injection Hp as <-; injection Ha as <-; injection Hf as <-;
    cbn [f_priority f_author f_start_date f_due_date];
    (split; [split; intros; try discriminate; reflexivity|]);
    (split; [split; intros; try discriminate; reflexivity|]);
    split; intros a b Ea Eb; rewrite Happ, (Hb _ _ _ _ Ea), (Hb _ _ _ _ Eb);
    match goal with
    | |- context [truthy ?x || truthy ?y] =>
        destruct (truthy x); destruct (truthy y)
    end; cbn [orb]; split; intros; try discriminate; try tauto;
    intuition discriminate.
Qed.

Lemma applied_filters_report_applied_witness :
  f_author {| f_priority := None; f_author := Some (JStr " ada");
              f_start_date := None;
              f_due_date := Some (JStr "2024-01-01", JUndefined) |} = None
  <-> [Ilike "author" "%ada%"] = [].
Proof.
  apply (applied_filters_report_applied
           [("q", JStr "spec"); ("author", JStr " ada");
            ("due_date_from", JStr "2024-01-01")]
           [] [Ilike "author" "%ada%"]); reflexivity.
Defined.

(** ** The author filter *)

(** For an [author] parameter whose trimmed text has no pattern
    character ([%], [_], the backslash or [*]), the filter that search
    and sort send lets a row through, in the reference store, exactly
    when that text occurs in the row's author, letter case aside; a row
    without author never passes. *)
Theorem author_filter_is_substring_test (B : Tasks.backend) (a : string)
    (r : Task.row) :
  a <> "" -> Tasks.plain (trim a) = true ->
  exists f,
    author_filter (JStr a) = Ret [f]
    /\ Tasks.filter_ok B f = true
    /\ Tasks.holds B f r
       = match Task.author r with
         | Some v => Tasks.occurs (toLowerCase (trim a)) (toLowerCase v)
         | None => false
         end.
Proof.
  intros Ha Hl. eexists. split; [|split].
  - unfold author_filter. rewrite (truthy_string a Ha). reflexivity.
  - reflexivity.
  - cbn [Tasks.holds]. unfold Tasks.column_test.
    change (Tasks.cell_of "author" r) with (Some (Tasks.text (Task.author r))).
    destruct (Task.author r) as [v|]; [|reflexivity].
    cbn [Tasks.text Tasks.cell_ilike]. now apply ilike_plain_occurs.
Qed.

Lemma author_filter_is_substring_test_witness :
  exists f,
    author_filter (JStr " e, A ") = Ret [f]
    /\ Tasks.holds Sample.backend f Sample.task1 = false
    /\ Tasks.holds Sample.backend f Sample.author_row = true.
Proof.
  destruct (author_filter_is_substring_test Sample.backend " e, A "
              Sample.task1) as (f & Hf & _ & H1);
    [discriminate|reflexivity|].
  destruct (author_filter_is_substring_test Sample.backend " e, A "
              Sample.author_row) as (f' & Hf' & _ & H2);
    [discriminate|reflexivity|].
  exists f. split; [exact Hf|]. split; [rewrite H1; reflexivity|].
  rewrite Hf in Hf'. injection Hf' as <-. rewrite H2. reflexivity.
Defined.

Example author_filter_with_punctuation :
  Tasks.literal "J. Smith" = false /\ Tasks.plain "J. Smith" = true
  /\ Tasks.literal "Smith, J" = false /\ Tasks.plain "Smith, J" = true
  /\ Tasks.plain "50%" = false.
Proof. repeat split; reflexivity. Qed.
